(** * NeoClip AI v3: the asynchronous video job lifecycle

    A shallow embedding of the create / poll / finalize pipeline of
    [src/services/asyncVideoService.ts] (the client service, job records in
    [localStorage]) and of [api/video.ts] (the server handler, job records
    in the module-private [jobStore] map), with the tier table of
    [src/types.ts].

    Conventions of the embedding:
    - a JavaScript string is the list of its UTF-16 code units;
    - a JavaScript number that holds a duration, a timestamp in
      milliseconds or an HTTP status is an integer of [Z];
    - an [async] function is a computation over an explicit [World] that
      either completes normally or throws; the clock, the answers of the
      network and the draws of [Math.random] are read from the world;
    - [console.log] and [console.error] are not recorded. *)

From Stdlib Require Import ZArith NArith String Ascii Lia.
From Stdlib Require Import DecimalString.
From stdpp Require Import gmap list.

Local Open Scope Z_scope.

(** ** JavaScript strings *)

Abbreviation jsstring := (list N) (only parsing).

Fixpoint lit (s : string) : jsstring :=
  match s with
  | EmptyString => []
  | String a s' => N_of_ascii a :: lit s'
  end.

(** [`${n}`] for an integer number. *)
Definition numberToString (n : Z) : jsstring :=
  lit (NilZero.string_of_int (Z.to_int n)).

(** [s.startsWith(p)] *)
Fixpoint startsWith (p s : jsstring) : bool :=
  match p, s with
  | [], _ => true
  | _ :: _, [] => false
  | a :: p', b :: s' => (a =? b)%N && startsWith p' s'
  end.

(** [s.replace(pat, rep)] with a string pattern: the first occurrence only.
    The replacement texts of this program contain no [$]. *)
Fixpoint replaceFirst (pat rep s : jsstring) : jsstring :=
  if startsWith pat s then rep ++ drop (length pat) s
  else match s with
       | [] => []
       | c :: s' => c :: replaceFirst pat rep s'
       end.

(** A truthy string: present and not empty. *)
Definition truthy (o : option jsstring) : bool :=
  match o with
  | Some (_ :: _) => true
  | _ => false
  end.

(** [a || b] where [b] is a string. *)
Definition orElse (a : option jsstring) (b : jsstring) : jsstring :=
  match a with
  | Some (c :: s) => c :: s
  | _ => b
  end.

(** [a || b] where both may be absent. *)
Definition orOpt (a b : option jsstring) : option jsstring :=
  if truthy a then a else b.

(** *** encodeURIComponent (ECMAScript Encode with the unreserved set
    [A-Z a-z 0-9 - _ . ! ~ * ' ( )]); [None] stands for the URIError raised
    on a lone surrogate. *)

Definition inRange (lo hi c : N) : bool := ((lo <=? c) && (c <=? hi))%N.

Definition isUnreserved (c : N) : bool :=
  inRange 65 90 c || inRange 97 122 c || inRange 48 57 c
  || bool_decide (c ∈ [45; 95; 46; 33; 126; 42; 39; 40; 41]%N).

Definition isLeadSurrogate (c : N) : bool := inRange 55296 56319 c.
Definition isTrailSurrogate (c : N) : bool := inRange 56320 57343 c.

Definition hexDigit (d : N) : N :=
  (if d <? 10 then 48 + d else 55 + d)%N.

Definition percentOctet (b : N) : jsstring :=
  [37%N; hexDigit (b / 16); hexDigit (b mod 16)].

Definition utf8 (cp : N) : list N :=
  (if cp <? 128 then [cp]
   else if cp <? 2048 then [192 + cp / 64; 128 + cp mod 64]
   else if cp <? 65536 then
     [224 + cp / 4096; 128 + (cp / 64) mod 64; 128 + cp mod 64]
   else
     [240 + cp / 262144; 128 + (cp / 4096) mod 64;
      128 + (cp / 64) mod 64; 128 + cp mod 64])%N.

Definition percentEncode (cp : N) : jsstring :=
  concat (map percentOctet (utf8 cp)).

Definition codePointOfPair (hi lo : N) : N :=
  ((hi - 55296) * 1024 + (lo - 56320) + 65536)%N.

Fixpoint encodeURIComponent (s : jsstring) : option jsstring :=
  match s with
  | [] => Some []
  | c :: rest =>
      if isUnreserved c then
        option_map (cons c) (encodeURIComponent rest)
      else if isTrailSurrogate c then None
      else if isLeadSurrogate c then
        match rest with
        | d :: rest' =>
            if isTrailSurrogate d then
              option_map (app (percentEncode (codePointOfPair c d)))
                         (encodeURIComponent rest')
            else None
        | [] => None
        end
      else
        option_map (app (percentEncode c)) (encodeURIComponent rest)
  end.

(** ** src/types.ts *)

Inductive UserTier := free | basic | pro.

Inductive AspectRatio := R9_16 | R16_9 | R1_1.

Definition aspectRatioText (a : AspectRatio) : jsstring :=
  match a with
  | R9_16 => lit "9:16"
  | R16_9 => lit "16:9"
  | R1_1 => lit "1:1"
  end.

(** [PricingTier]; the decimal [price] is left out, no operation here reads
    it. *)
Record PricingTier := {
  name : jsstring;
  gensPerMonth : Z;
  maxLength : Z;
  model : jsstring;
  watermark : bool;
  hasAds : bool;
  resolution : jsstring
}.

Definition PRICING (t : UserTier) : PricingTier :=
  match t with
  | free =>
      {| name := lit "Free"; gensPerMonth := 10; maxLength := 10;
         model := lit "Hailuo-02 (MiniMax)"; watermark := true;
         hasAds := true; resolution := lit "768p" |}
  | basic =>
      {| name := lit "Basic"; gensPerMonth := 120; maxLength := 15;
         model := lit "Kling 2.5 Turbo"; watermark := false;
         hasAds := false; resolution := lit "1080p" |}
  | pro =>
      {| name := lit "Pro"; gensPerMonth := 300; maxLength := 30;
         model := lit "Kling 2.5 + Veo Toggle"; watermark := false;
         hasAds := false; resolution := lit "1080p" |}
  end.

Record VideoConfig := {
  cfg_prompt : jsstring;
  cfg_aspectRatio : AspectRatio;
  cfg_duration : Z
}.

(** ** The world the operations run in *)

(** A thrown value: every error raised here is an object with a [message]. *)
Record exn := Error { message : jsstring }.

(** The fields this program reads from a provider's JSON answer. *)
Record ProviderData := {
  request_id : option jsstring;
  job_id : option jsstring;
  taskId : option jsstring;
  data_id : option jsstring;
  data_status : option jsstring;
  video_url : option jsstring;
  thumbnail_url : option jsstring;
  data_error : option jsstring
}.

(** What [response.json()] gives: a rejection or the parsed object. *)
Inductive JsonBody := BadJson (e : exn) | Obj (d : ProviderData).

(** What one [fetch] gives: a rejected promise or a response. *)
Inductive FetchOutcome :=
  | Rejected (e : exn)
  | Responded (status : Z) (body : JsonBody).

Record Response := { resp_status : Z; resp_body : JsonBody }.

(** [response.ok] *)
Definition resp_ok (r : Response) : bool :=
  (200 <=? resp_status r) && (resp_status r <=? 299).

(** The JSON body of a submission to a provider. *)
Record SubmitBody := {
  sb_model : option jsstring;
  sb_prompt : jsstring;
  sb_duration : Z;
  sb_resolution : jsstring;
  sb_aspect_ratio : jsstring
}.

Inductive Method := GET | POST | HEAD.

Record Request := {
  rq_method : Method;
  rq_url : jsstring;
  rq_authorization : option jsstring;
  rq_body : option SubmitBody
}.

Inductive Event :=
  | EvFetch (rq : Request)
  | EvSleep (ms : Z).

(** A job record of the client service, as [JSON.stringify] writes it. *)
Record Job := {
  j_id : jsstring;
  j_falJobId : option jsstring;
  j_provider : jsstring;
  j_prompt : jsstring;
  j_aspectRatio : AspectRatio;
  j_duration : Z;
  j_status : jsstring;
  j_createdAt : Z;
  j_isImageSequence : bool
}.

(** An entry of [localStorage]: a text that [JSON.parse] rejects, or the
    text of a job record.  Every entry is a non-empty text. *)
Inductive Item := Malformed (e : exn) | Parsed (j : Job).

(** A job record of the server handler's [jobStore]. *)
Record SJob := {
  sj_id : jsstring;
  sj_prompt : jsstring;
  sj_aspectRatio : jsstring;
  sj_duration : Z;
  sj_tier : jsstring;
  sj_provider : jsstring;
  sj_status : jsstring;
  sj_createdAt : Z;
  sj_externalJobId : option jsstring;
  sj_error : option jsstring
}.

Record World := {
  now : Z;                             (* what Date.now() reads *)
  localStorage : gmap jsstring Item;
  jobStore : gmap jsstring SJob;
  network : list FetchOutcome;         (* the answers to come, in order *)
  entropy : list jsstring;             (* the random suffixes to come *)
  FAL_API_KEY : option jsstring;       (* process.env *)
  PIAPI_API_KEY : option jsstring;
  GOOGLE_API_KEY : option jsstring;
  trace : list Event                   (* requests sent and sleeps, oldest first *)
}.

Definition setNow (t : Z) (w : World) : World :=
  {| now := t; localStorage := localStorage w; jobStore := jobStore w;
     network := network w; entropy := entropy w;
     FAL_API_KEY := FAL_API_KEY w; PIAPI_API_KEY := PIAPI_API_KEY w;
     GOOGLE_API_KEY := GOOGLE_API_KEY w; trace := trace w |}.

Definition setLocalStorage (s : gmap jsstring Item) (w : World) : World :=
  {| now := now w; localStorage := s; jobStore := jobStore w;
     network := network w; entropy := entropy w;
     FAL_API_KEY := FAL_API_KEY w; PIAPI_API_KEY := PIAPI_API_KEY w;
     GOOGLE_API_KEY := GOOGLE_API_KEY w; trace := trace w |}.

Definition setJobStore (s : gmap jsstring SJob) (w : World) : World :=
  {| now := now w; localStorage := localStorage w; jobStore := s;
     network := network w; entropy := entropy w;
     FAL_API_KEY := FAL_API_KEY w; PIAPI_API_KEY := PIAPI_API_KEY w;
     GOOGLE_API_KEY := GOOGLE_API_KEY w; trace := trace w |}.

Definition setNetwork (n : list FetchOutcome) (w : World) : World :=
  {| now := now w; localStorage := localStorage w; jobStore := jobStore w;
     network := n; entropy := entropy w;
     FAL_API_KEY := FAL_API_KEY w; PIAPI_API_KEY := PIAPI_API_KEY w;
     GOOGLE_API_KEY := GOOGLE_API_KEY w; trace := trace w |}.

Definition setEntropy (e : list jsstring) (w : World) : World :=
  {| now := now w; localStorage := localStorage w; jobStore := jobStore w;
     network := network w; entropy := e;
     FAL_API_KEY := FAL_API_KEY w; PIAPI_API_KEY := PIAPI_API_KEY w;
     GOOGLE_API_KEY := GOOGLE_API_KEY w; trace := trace w |}.

Definition record (ev : Event) (w : World) : World :=
  {| now := now w; localStorage := localStorage w; jobStore := jobStore w;
     network := network w; entropy := entropy w;
     FAL_API_KEY := FAL_API_KEY w; PIAPI_API_KEY := PIAPI_API_KEY w;
     GOOGLE_API_KEY := GOOGLE_API_KEY w; trace := trace w ++ [ev] |}.

(** ** Computations: state and exceptions *)

Inductive Completion (A : Type) :=
  | Normal (a : A)
  | Throw (e : exn).
Arguments Normal {A} a.
Arguments Throw {A} e.

Definition M (A : Type) : Type := World -> Completion A * World.

Definition ret {A} (a : A) : M A := fun w => (Normal a, w).

Definition throw {A} (e : exn) : M A := fun w => (Throw e, w).

Definition bind {A B} (m : M A) (k : A -> M B) : M B :=
  fun w =>
    match m w with
    | (Normal a, w') => k a w'
    | (Throw e, w') => (Throw e, w')
    end.

(** [try { body } catch (error) { handler }] *)
Definition tryCatch {A} (body : M A) (handler : exn -> M A) : M A :=
  fun w =>
    match body w with
    | (Normal a, w') => (Normal a, w')
    | (Throw e, w') => handler e w'
    end.

Notation "x <- m ;; k" := (bind m (fun x => k))
  (at level 100, m at next level, right associativity).
Notation "m ;;; k" := (bind m (fun _ => k))
  (at level 100, right associativity).

(** [Date.now()], also [new Date()] read back through [getTime()]. *)
Definition Date_now : M Z := fun w => (Normal (now w), w).

(** [Math.random().toString(36).substring(2, 8)] *)
Definition randomSuffix : M jsstring :=
  fun w =>
    match entropy w with
    | [] => (Normal [], w)
    | r :: rest => (Normal r, setEntropy rest w)
    end.

(** [await new Promise(resolve => setTimeout(resolve, ms))] *)
Definition sleep (ms : Z) : M unit :=
  fun w => (Normal tt, record (EvSleep ms) (setNow (now w + ms) w)).

(** The rejection of a [fetch] that finds the network silent. *)
Definition networkError : exn := Error (lit "Failed to fetch").

(** [await fetch(url, init)] *)
Definition fetch (rq : Request) : M Response :=
  fun w =>
    let w' := record (EvFetch rq) (setNetwork (tail (network w)) w) in
    match network w with
    | [] => (Throw networkError, w')
    | Rejected e :: _ => (Throw e, w')
    | Responded st b :: _ => (Normal {| resp_status := st; resp_body := b |}, w')
    end.

(** [await response.json()] *)
Definition json (r : Response) : M ProviderData :=
  match resp_body r with
  | BadJson e => throw e
  | Obj d => ret d
  end.

Definition localStorage_getItem (k : jsstring) : M (option Item) :=
  fun w => (Normal (localStorage w !! k), w).

Definition localStorage_setItem (k : jsstring) (v : Item) : M unit :=
  fun w => (Normal tt, setLocalStorage (<[k := v]> (localStorage w)) w).

Definition localStorage_removeItem (k : jsstring) : M unit :=
  fun w => (Normal tt, setLocalStorage (delete k (localStorage w)) w).

Definition JSON_parse (i : Item) : M Job :=
  match i with
  | Malformed e => throw e
  | Parsed j => ret j
  end.

(** The URIError of [encodeURIComponent], with V8's message. *)
Definition URIError : exn := Error (lit "URI malformed").

Definition encodeURIComponentM (s : jsstring) : M jsstring :=
  match encodeURIComponent s with
  | Some e => ret e
  | None => throw URIError
  end.

(** ** src/services/asyncVideoService.ts *)

Module Service.

Definition API_ENDPOINTS_fal : jsstring :=
  lit "https://fal.run/fal-ai/kling-video/v2.5-turbo/text-to-video".
Definition API_ENDPOINTS_falStatus : jsstring :=
  lit "https://fal.run/fal-ai/kling-video/v2.5-turbo".

(** [getApiKey(provider)]: the environment's key, else the demo key; the
    empty string for a provider outside the table. *)
Definition getApiKey (w : World) (provider : jsstring) : jsstring :=
  if bool_decide (provider = lit "fal") then
    orElse (FAL_API_KEY w) (lit "demo_fal_key")
  else if bool_decide (provider = lit "piapi") then
    orElse (PIAPI_API_KEY w) (lit "demo_piapi_key")
  else if bool_decide (provider = lit "google") then
    orElse (GOOGLE_API_KEY w) (lit "demo_google_key")
  else [].

Definition readApiKey (provider : jsstring) : M jsstring :=
  fun w => (Normal (getApiKey w provider), w).

(** [apiKey && !apiKey.startsWith('demo_')] *)
Definition usableKey (apiKey : jsstring) : bool :=
  truthy (Some apiKey) && negb (startsWith (lit "demo_") apiKey).

(** The key of a job in [localStorage]: [`video_job_${jobId}`]. *)
Definition storageKey (jobId : jsstring) : jsstring :=
  lit "video_job_" ++ jobId.

Record CreateResult := {
  cr_jobId : jsstring;
  cr_status : jsstring;
  cr_error : option jsstring;
  cr_isImageSequence : option bool
}.

(** The image-sequence job of the free tier and of the missing credential
    (the two blocks of the source are the same text). *)
Definition createImageSequenceJob (config : VideoConfig) : M CreateResult :=
  t <- Date_now ;;
  r <- randomSuffix ;;
  let jobId := lit "img_" ++ numberToString t ++ lit "_" ++ r in
  c <- Date_now ;;
  let jobData :=
    {| j_id := jobId; j_falJobId := None; j_provider := lit "image";
       j_prompt := cfg_prompt config;
       j_aspectRatio := cfg_aspectRatio config;
       j_duration := Z.min (cfg_duration config) 16;
       j_status := lit "queued"; j_createdAt := c;
       j_isImageSequence := true |} in
  localStorage_setItem (storageKey jobId) (Parsed jobData) ;;;
  ret {| cr_jobId := jobId; cr_status := lit "queued"; cr_error := None;
         cr_isImageSequence := Some true |}.

Definition falSubmitRequest (apiKey : jsstring) (config : VideoConfig)
    (tier : UserTier) : Request :=
  {| rq_method := POST;
     rq_url := API_ENDPOINTS_fal;
     rq_authorization := Some (lit "Key " ++ apiKey);
     rq_body := Some
       {| sb_model := None;
          sb_prompt := cfg_prompt config;
          sb_duration :=
            Z.min (cfg_duration config)
                  (match tier with pro => 30 | _ => 15 end);
          sb_resolution := lit "1080p";
          sb_aspect_ratio := aspectRatioText (cfg_aspectRatio config) |} |}.

(** The [try] block of [createVideoJob].  [provider] is ['fal'] for both
    paid tiers, so the closing [throw new Error('Unsupported provider')] of
    the source is never reached. *)
Definition createVideoJob_body (config : VideoConfig) (tier : UserTier)
    : M CreateResult :=
  match tier with
  | free => createImageSequenceJob config
  | _ =>
      let provider := lit "fal" in
      apiKey <- readApiKey provider ;;
      if negb (usableKey apiKey) then createImageSequenceJob config
      else
        t <- Date_now ;;
        r <- randomSuffix ;;
        let jobId := lit "job_" ++ numberToString t ++ lit "_" ++ r in
        response <- fetch (falSubmitRequest apiKey config tier) ;;
        if negb (resp_ok response) then
          throw (Error (lit "FAL API error: "
                        ++ numberToString (resp_status response)))
        else
          data <- json response ;;
          c <- Date_now ;;
          let jobData :=
            {| j_id := jobId;
               j_falJobId :=
                 Some (orElse (request_id data) (orElse (job_id data) jobId));
               j_provider := lit "fal";
               j_prompt := cfg_prompt config;
               j_aspectRatio := cfg_aspectRatio config;
               j_duration :=
                 Z.min (cfg_duration config)
                       (match tier with pro => 30 | _ => 15 end);
               j_status := lit "queued"; j_createdAt := c;
               j_isImageSequence := false |} in
          localStorage_setItem (storageKey jobId) (Parsed jobData) ;;;
          ret {| cr_jobId := jobId; cr_status := lit "queued";
                 cr_error := None; cr_isImageSequence := None |}
  end.

Definition createVideoJob_failure (e : exn) : CreateResult :=
  {| cr_jobId := []; cr_status := lit "failed";
     cr_error := Some (orElse (Some (message e))
                              (lit "Failed to create video job"));
     cr_isImageSequence := None |}.

Definition createVideoJob (config : VideoConfig) (tier : UserTier)
    : M CreateResult :=
  tryCatch (createVideoJob_body config tier)
           (fun e => ret (createVideoJob_failure e)).

Record StatusResult := {
  status : jsstring;
  videoUrl : option jsstring;
  thumbnail : option jsstring;
  error : option jsstring;
  isImageSequence : option bool
}.

Definition onlyStatus (s : jsstring) : StatusResult :=
  {| status := s; videoUrl := None; thumbnail := None; error := None;
     isImageSequence := None |}.

Definition failedWith (msg : jsstring) : StatusResult :=
  {| status := lit "failed"; videoUrl := None; thumbnail := None;
     error := Some msg; isImageSequence := None |}.

(** The dimensions mapped from the aspect ratio. *)
Definition width (a : AspectRatio) : Z :=
  match a with R9_16 => 576 | _ => 1024 end.
Definition height (a : AspectRatio) : Z :=
  match a with R9_16 => 1024 | _ => 576 end.

(** [Math.min(job.duration || 10, 16)] *)
Definition videoDuration (job : Job) : Z :=
  Z.min (if j_duration job =? 0 then 10 else j_duration job) 16.

Definition pollinationsVideoUrl (encoded : jsstring) (job : Job) : jsstring :=
  lit "https://image.pollinations.ai/prompt/" ++ encoded
  ++ lit "?width=" ++ numberToString (width (j_aspectRatio job))
  ++ lit "&height=" ++ numberToString (height (j_aspectRatio job))
  ++ lit "&duration=" ++ numberToString (videoDuration job)
  ++ lit "&format=mp4&nologo=true".

Definition pollinationsImageUrl (encoded : jsstring) (job : Job) : jsstring :=
  lit "https://image.pollinations.ai/prompt/" ++ encoded
  ++ lit "?width=" ++ numberToString (width (j_aspectRatio job))
  ++ lit "&height=" ++ numberToString (height (j_aspectRatio job))
  ++ lit "&nologo=true".

Definition videoReady (videoUrl : jsstring) : StatusResult :=
  {| status := lit "completed";
     videoUrl := Some videoUrl;
     thumbnail := Some (replaceFirst (lit ".mp4") (lit ".jpg") videoUrl);
     error := None;
     isImageSequence := Some true |}.

Definition imageInstead (imageUrl : jsstring) : StatusResult :=
  {| status := lit "completed";
     videoUrl := Some imageUrl;
     thumbnail := Some imageUrl;
     error := Some (lit "Video generation timed out, using image instead");
     isImageSequence := Some true |}.

Definition headRequest (url : jsstring) : Request :=
  {| rq_method := HEAD; rq_url := url; rq_authorization := None;
     rq_body := None |}.

(** The availability loop [for (let i = 0; i < 40; i++)], [n] rounds left:
    a probe that answers ok returns from the function; a probe that is
    rejected or answers otherwise is followed by the 5 second wait. *)
Fixpoint availabilityLoop (videoUrl : jsstring) (n : nat)
    : M (option StatusResult) :=
  match n with
  | O => ret None
  | S n' =>
      ok <- tryCatch (headResponse <- fetch (headRequest videoUrl) ;;
                      ret (resp_ok headResponse))
                     (fun _ => ret false) ;;
      if ok then ret (Some (videoReady videoUrl))
      else sleep 5000 ;;; availabilityLoop videoUrl n'
  end.

Definition imageSequenceStatus (job : Job) : M StatusResult :=
  t <- Date_now ;;
  let elapsed := t - j_createdAt job in
  let processingTime := 5000 in
  if elapsed <? processingTime then ret (onlyStatus (lit "processing"))
  else
    encoded <- encodeURIComponentM (j_prompt job) ;;
    let videoUrl := pollinationsVideoUrl encoded job in
    found <- availabilityLoop videoUrl 40 ;;
    match found with
    | Some result => ret result
    | None =>
        encoded' <- encodeURIComponentM (j_prompt job) ;;
        ret (imageInstead (pollinationsImageUrl encoded' job))
    end.

Definition falStatusRequest (apiKey : jsstring) (job : Job) : Request :=
  {| rq_method := GET;
     rq_url := API_ENDPOINTS_falStatus ++ lit "/"
               ++ match j_falJobId job with
                  | Some r => r
                  | None => lit "undefined"
                  end;
     rq_authorization := Some (lit "Key " ++ apiKey);
     rq_body := None |}.

(** The answer of the provider mapped onto a snapshot. *)
Definition falSnapshot (data : ProviderData) : StatusResult :=
  if bool_decide (data_status data = Some (lit "completed"))
     && truthy (video_url data) then
    {| status := lit "completed";
       videoUrl := video_url data;
       thumbnail := orOpt (thumbnail_url data) (video_url data);
       error := None; isImageSequence := None |}
  else if bool_decide (data_status data = Some (lit "failed")) then
    failedWith (orElse (data_error data) (lit "Video generation failed"))
  else onlyStatus (orElse (data_status data) (lit "processing")).

(** The real status call; [None] when it threw and the error was swallowed
    by the inner [catch]. *)
Definition falRealStatus (apiKey : jsstring) (job : Job)
    : M (option StatusResult) :=
  tryCatch
    (response <- fetch (falStatusRequest apiKey job) ;;
     if negb (resp_ok response) then
       throw (Error (lit "FAL API error: "
                     ++ numberToString (resp_status response)))
     else
       data <- json response ;;
       ret (Some (falSnapshot data)))
    (fun _ => ret None).

Definition sampleVideoUrl : jsstring :=
  lit "https://sample-videos.com/zip/10/mp4/SampleVideo_1280x720_1mb.mp4".

(** "Simulate processing for demo or if real API fails". *)
Definition falSimulatedStatus (jobId : jsstring) (job : Job) : M StatusResult :=
  t <- Date_now ;;
  let elapsed := t - j_createdAt job in
  let processingTime := 30000 in
  if elapsed <? processingTime then ret (onlyStatus (lit "processing"))
  else
    ret {| status := lit "completed";
           videoUrl := Some sampleVideoUrl;
           thumbnail :=
             Some (lit "https://picsum.photos/320/180?random=" ++ jobId);
           error := None; isImageSequence := None |}.

Definition getVideoJobStatus_body (jobId : jsstring) : M StatusResult :=
  jobData <- localStorage_getItem (storageKey jobId) ;;
  match jobData with
  | None => ret (failedWith (lit "Job not found"))
  | Some item =>
      job <- JSON_parse item ;;
      if j_isImageSequence job || bool_decide (j_provider job = lit "image")
      then imageSequenceStatus job
      else
        apiKey <- readApiKey (j_provider job) ;;
        if bool_decide (j_provider job = lit "fal") then
          real <- (if usableKey apiKey then falRealStatus apiKey job
                   else ret None) ;;
          match real with
          | Some result => ret result
          | None => falSimulatedStatus jobId job
          end
        else ret (failedWith (lit "Unknown provider"))
  end.

Definition getVideoJobStatus (jobId : jsstring) : M StatusResult :=
  tryCatch (getVideoJobStatus_body jobId)
           (fun e => ret (failedWith (orElse (Some (message e))
                                        (lit "Failed to check job status")))).

(** [GenerationResponse], the fields the finalize step fills. *)
Record GenerationResponse := {
  success : bool;
  gr_videoUrl : option jsstring;
  gr_thumbnail : option jsstring;
  gr_error : option jsstring;
  gr_tier : option UserTier;
  gr_hasAdCard : option bool;
  gr_jobId : option jsstring
}.

Definition failure (msg : jsstring) : GenerationResponse :=
  {| success := false; gr_videoUrl := None; gr_thumbnail := None;
     gr_error := Some msg; gr_tier := None; gr_hasAdCard := None;
     gr_jobId := None |}.

Definition completeVideoGeneration_body (jobId : jsstring) (tier : UserTier)
    : M GenerationResponse :=
  statusResult <- getVideoJobStatus jobId ;;
  if negb (bool_decide (status statusResult = lit "completed")) then
    ret (failure (lit "Job not completed. Status: " ++ status statusResult))
  else
    localStorage_removeItem (storageKey jobId) ;;;
    ret {| success := true;
           gr_videoUrl := videoUrl statusResult;
           gr_thumbnail := thumbnail statusResult;
           gr_error := None;
           gr_tier := Some tier;
           gr_hasAdCard :=
             Some (match tier with free => true | _ => false end);
           gr_jobId := Some jobId |}.

Definition completeVideoGeneration (jobId : jsstring) (tier : UserTier)
    : M GenerationResponse :=
  tryCatch (completeVideoGeneration_body jobId tier)
           (fun e => ret (failure (orElse (Some (message e))
                            (lit "Failed to complete video generation")))).

End Service.

(** ** api/video.ts *)

Module Api.

(** [getApiKey(provider)]: the environment's key, [undefined] otherwise. *)
Definition getApiKey (w : World) (provider : jsstring) : option jsstring :=
  if bool_decide (provider = lit "fal") then FAL_API_KEY w
  else if bool_decide (provider = lit "google") then GOOGLE_API_KEY w
  else if bool_decide (provider = lit "piapi") then PIAPI_API_KEY w
  else None.

Definition readApiKey (provider : jsstring) : M (option jsstring) :=
  fun w => (Normal (getApiKey w provider), w).

(** The JSON bodies the handler answers with. *)
Record StatusData := {
  status : jsstring;
  jobId : jsstring;
  videoUrl : option jsstring;
  thumbnail : option jsstring;
  error : option jsstring
}.

Record CompleteData := {
  success : bool;
  cd_videoUrl : option jsstring;
  cd_thumbnail : option jsstring;
  cd_jobId : jsstring;
  cd_prompt : jsstring;
  cd_aspectRatio : jsstring;
  cd_duration : Z;
  cd_tier : jsstring;
  cd_provider : jsstring
}.

Inductive Body :=
  | ErrorBody (err : jsstring) (msg : option jsstring)
  | StatusBody (d : StatusData)
  | CompleteBody (d : CompleteData).

(** [res.status(code).json(body)] *)
Record HttpResponse := { code : Z; body : Body }.

(** [req.query.jobId]: absent, a string, or a repeated parameter. *)
Inductive QueryParam :=
  | QAbsent
  | QString (s : jsstring)
  | QArray (l : list jsstring).

Definition jobStore_get (k : jsstring) : M (option SJob) :=
  fun w => (Normal (jobStore w !! k), w).

Definition jobStore_set (k : jsstring) (j : SJob) : M unit :=
  fun w => (Normal tt, setJobStore (<[k := j]> (jobStore w)) w).

Definition jobStore_delete (k : jsstring) : M unit :=
  fun w => (Normal tt, setJobStore (delete k (jobStore w)) w).

(** [job.status = s], an assignment to the object held by the map. *)
Definition withStatus (s : jsstring) (job : SJob) : SJob :=
  {| sj_id := sj_id job; sj_prompt := sj_prompt job;
     sj_aspectRatio := sj_aspectRatio job; sj_duration := sj_duration job;
     sj_tier := sj_tier job; sj_provider := sj_provider job;
     sj_status := s; sj_createdAt := sj_createdAt job;
     sj_externalJobId := sj_externalJobId job; sj_error := sj_error job |}.

(** [job.error = e] *)
Definition withError (e : jsstring) (job : SJob) : SJob :=
  {| sj_id := sj_id job; sj_prompt := sj_prompt job;
     sj_aspectRatio := sj_aspectRatio job; sj_duration := sj_duration job;
     sj_tier := sj_tier job; sj_provider := sj_provider job;
     sj_status := sj_status job; sj_createdAt := sj_createdAt job;
     sj_externalJobId := sj_externalJobId job; sj_error := Some e |}.

Definition sampleVideoUrl : jsstring :=
  lit "https://sample-videos.com/zip/10/mp4/SampleVideo_1280x720_1mb.mp4".

Definition piapiStatusRequest (apiKey : option jsstring) (job : SJob)
    : Request :=
  {| rq_method := GET;
     rq_url := lit "https://api.piapi.ai/v1/video/generations" ++ lit "/"
               ++ match sj_externalJobId job with
                  | Some r => r
                  | None => lit "null"
                  end;
     rq_authorization :=
       Some (lit "Bearer " ++ match apiKey with
                              | Some k => k
                              | None => lit "undefined"
                              end);
     rq_body := None |}.

(** The [try] block of the status endpoint. *)
Definition statusData_of (jobId : jsstring) (job : SJob) : M StatusData :=
  apiKey <- readApiKey (sj_provider job) ;;
  let statusData :=
    {| status := sj_status job; jobId := sj_id job; videoUrl := None;
       thumbnail := None; error := None |} in
  if bool_decide (sj_provider job = lit "fal") then
    t <- Date_now ;;
    let elapsed := t - sj_createdAt job in
    let processingTime := 30000 in
    if processingTime <=? elapsed then
      jobStore_set jobId (withStatus (lit "completed") job) ;;;
      ret {| status := lit "completed"; jobId := sj_id job;
             videoUrl := Some sampleVideoUrl;
             thumbnail :=
               Some (lit "https://picsum.photos/320/180?random=" ++ jobId);
             error := None |}
    else
      ret {| status := lit "processing"; jobId := sj_id job;
             videoUrl := None; thumbnail := None; error := None |}
  else if bool_decide (sj_provider job = lit "piapi") then
    response <- fetch (piapiStatusRequest apiKey job) ;;
    if resp_ok response then
      data <- json response ;;
      if bool_decide (data_status data = Some (lit "completed"))
         && truthy (video_url data) then
        jobStore_set jobId (withStatus (lit "completed") job) ;;;
        ret {| status := lit "completed"; jobId := sj_id job;
               videoUrl := video_url data;
               thumbnail := thumbnail_url data; error := None |}
      else if bool_decide (data_status data = Some (lit "failed")) then
        let msg := orElse (data_error data) (lit "Video generation failed") in
        jobStore_set jobId (withError msg (withStatus (lit "failed") job)) ;;;
        ret {| status := lit "failed"; jobId := sj_id job;
               videoUrl := None; thumbnail := None; error := Some msg |}
      else
        ret {| status := orElse (data_status data) (lit "processing");
               jobId := sj_id job; videoUrl := None; thumbnail := None;
               error := None |}
    else ret statusData
  else ret statusData.

Definition getVideoJobStatus (q : QueryParam) : M HttpResponse :=
  match q with
  | QString (c :: s) =>
      let jobId := c :: s in
      job <- jobStore_get jobId ;;
      match job with
      | None =>
          ret {| code := 404; body := ErrorBody (lit "Job not found") None |}
      | Some job =>
          tryCatch
            (statusData <- statusData_of jobId job ;;
             ret {| code := 200; body := StatusBody statusData |})
            (fun e =>
               ret {| code := 500;
                      body := ErrorBody (lit "Failed to check job status")
                                        (Some (message e)) |})
      end
  | _ => ret {| code := 400; body := ErrorBody (lit "Invalid job ID") None |}
  end.

(** [completeVideoJob]; [jobId] is [req.body.jobId].  No statement of the
    module assigns [job.videoUrl] or [job.thumbnail], and the store is
    private to the module, so both read as [undefined]. *)
Definition completeVideoJob (jobId : option jsstring) : M HttpResponse :=
  match jobId with
  | Some (c :: s) =>
      let jobId := c :: s in
      job <- jobStore_get jobId ;;
      match job with
      | None =>
          ret {| code := 404; body := ErrorBody (lit "Job not found") None |}
      | Some job =>
          if negb (bool_decide (sj_status job = lit "completed")) then
            ret {| code := 400;
                   body := ErrorBody (lit "Job not completed")
                             (Some (lit "Job status is " ++ sj_status job
                                    ++ lit ", not completed")) |}
          else
            let result :=
              {| success := true; cd_videoUrl := None; cd_thumbnail := None;
                 cd_jobId := sj_id job; cd_prompt := sj_prompt job;
                 cd_aspectRatio := sj_aspectRatio job;
                 cd_duration := sj_duration job; cd_tier := sj_tier job;
                 cd_provider := sj_provider job |} in
            jobStore_delete jobId ;;;
            ret {| code := 200; body := CompleteBody result |}
      end
  | _ => ret {| code := 400; body := ErrorBody (lit "Job ID is required") None |}
  end.

End Api.

(** ** Notions the properties are stated with *)

Inductive RoutingMode := Synthetic | Provider.

(** The routing of a stored job: the test by which the poll takes the
    image-sequence path. *)
Definition routingMode (job : Job) : RoutingMode :=
  if j_isImageSequence job || bool_decide (j_provider job = lit "image")
  then Synthetic else Provider.

(** The place of a status in [queued -> processing -> {completed | failed}]. *)
Definition statusRank (s : jsstring) : option nat :=
  if bool_decide (s = lit "queued") then Some 0%nat
  else if bool_decide (s = lit "processing") then Some 1%nat
  else if bool_decide (s = lit "completed") || bool_decide (s = lit "failed")
  then Some 2%nat
  else None.

(** A later observation [b] does not regress from an earlier one [a]. *)
Definition forward (a b : jsstring) : Prop :=
  match statusRank a, statusRank b with
  | Some m, Some n => (m <= n)%nat /\ (m = 2%nat -> b = a)
  | _, _ => False
  end.

Definition forwardAll (l : list jsstring) : Prop :=
  forall (i j : nat) a b,
    (i <= j)%nat -> l !! i = Some a -> l !! j = Some b -> forward a b.

(** Time passing between two calls. *)
Definition elapse (d : Z) : M unit :=
  fun w => (Normal tt, setNow (now w + d) w).

(** A caller of the service that polls once after each of the given waits. *)
Fixpoint pollSequence (jobId : jsstring) (waits : list Z)
    : M (list Service.StatusResult) :=
  match waits with
  | [] => ret []
  | d :: rest =>
      elapse d ;;;
      s <- Service.getVideoJobStatus jobId ;;
      ss <- pollSequence jobId rest ;;
      ret (s :: ss)
  end.

(** The same caller on the status endpoint of the server handler. *)
Fixpoint apiPollSequence (jobId : jsstring) (waits : list Z)
    : M (list Api.HttpResponse) :=
  match waits with
  | [] => ret []
  | d :: rest =>
      elapse d ;;;
      s <- Api.getVideoJobStatus (Api.QString jobId) ;;
      ss <- apiPollSequence jobId rest ;;
      ret (s :: ss)
  end.

(** The status a response of the status endpoint carries. *)
Definition apiStatus (r : Api.HttpResponse) : option jsstring :=
  match Api.body r with
  | Api.StatusBody d => Some (Api.status d)
  | _ => None
  end.

(** Whether a probe of the result locator answers ok. *)
Definition probeOk (o : FetchOutcome) : bool :=
  match o with
  | Responded st _ => (200 <=? st) && (st <=? 299)
  | Rejected _ => false
  end.

(** Of [n] probes, the number that fail before the first that answers ok;
    a silent network rejects every probe. *)
Fixpoint failedProbes (net : list FetchOutcome) (n : nat) : nat :=
  match n with
  | O => O
  | S n' =>
      match net with
      | [] => S (failedProbes [] n')
      | o :: rest => if probeOk o then O else S (failedProbes rest n')
      end
  end.

Definition reachable (net : list FetchOutcome) (n : nat) : bool :=
  (failedProbes net n <? n)%nat.

(** The time spent in the sleeps of a trace. *)
Fixpoint waited (tr : list Event) : Z :=
  match tr with
  | [] => 0
  | EvSleep ms :: rest => ms + waited rest
  | EvFetch _ :: rest => waited rest
  end.

(** Whether the status call of a provider fails: the request is rejected,
    the answer is not ok, or its body is not JSON. *)
Definition statusCheckFails (net : list FetchOutcome) : bool :=
  match net with
  | [] => true
  | Rejected _ :: _ => true
  | Responded st (BadJson _) :: _ => true
  | Responded st (Obj _) :: _ => negb ((200 <=? st) && (st <=? 299))
  end.

(** The answer of the provider to a submission, when it accepts it. *)
Definition accepted (net : list FetchOutcome) : option ProviderData :=
  match net with
  | Responded st (Obj d) :: _ =>
      if (200 <=? st) && (st <=? 299) then Some d else None
  | _ => None
  end.

(** [maxAge] of the periodic sweep of the Express server (the server text
    carried by FIXES_SUMMARY.md); neither asyncVideoService.ts nor
    api/video.ts has a sweep. *)
Definition maxAge : Z := 3600000.

(** A world with empty stores, a silent network and no configured key. *)
Definition quietWorld (t : Z) : World :=
  {| now := t; localStorage := ∅; jobStore := ∅; network := [];
     entropy := []; FAL_API_KEY := None; PIAPI_API_KEY := None;
     GOOGLE_API_KEY := None; trace := [] |}.

Definition setFalKey (k : option jsstring) (w : World) : World :=
  {| now := now w; localStorage := localStorage w; jobStore := jobStore w;
     network := network w; entropy := entropy w;
     FAL_API_KEY := k; PIAPI_API_KEY := PIAPI_API_KEY w;
     GOOGLE_API_KEY := GOOGLE_API_KEY w; trace := trace w |}.

Definition setPiapiKey (k : option jsstring) (w : World) : World :=
  {| now := now w; localStorage := localStorage w; jobStore := jobStore w;
     network := network w; entropy := entropy w;
     FAL_API_KEY := FAL_API_KEY w; PIAPI_API_KEY := k;
     GOOGLE_API_KEY := GOOGLE_API_KEY w; trace := trace w |}.

(** An answer body with no field set. *)
Definition noData : ProviderData :=
  {| request_id := None; job_id := None; taskId := None; data_id := None;
     data_status := None; video_url := None; thumbnail_url := None;
     data_error := None |}.

Definition dataWithStatus (s : jsstring) : ProviderData :=
  {| request_id := None; job_id := None; taskId := None; data_id := None;
     data_status := Some s; video_url := None; thumbnail_url := None;
     data_error := None |}.

(** What a poll of the client service leaves alone: the stores and the
    configuration; the clock does not run backwards. *)
Record stable (w w' : World) : Prop := {
  st_localStorage : localStorage w' = localStorage w;
  st_jobStore : jobStore w' = jobStore w;
  st_fal : FAL_API_KEY w' = FAL_API_KEY w;
  st_piapi : PIAPI_API_KEY w' = PIAPI_API_KEY w;
  st_google : GOOGLE_API_KEY w' = GOOGLE_API_KEY w;
  st_now : now w <= now w'
}.

(** A computation keeps a relation between the world it starts in and the
    world it ends in. *)
Definition Keeps (R : World -> World -> Prop) {A} (m : M A) : Prop :=
  forall w, R w (snd (m w)).

(** No time is added to the sleeps of the trace. *)
Definition sameWait (w w' : World) : Prop :=
  waited (trace w') = waited (trace w).

(** ** Sample jobs and worlds *)

Definition sunsetId : jsstring := lit "img_0_abc123".

Definition sunsetJob : Job :=
  {| j_id := sunsetId; j_falJobId := None; j_provider := lit "image";
     j_prompt := lit "sunset"; j_aspectRatio := R9_16; j_duration := 10;
     j_status := lit "queued"; j_createdAt := 0;
     j_isImageSequence := true |}.

(** The sunset job in the store of the service, at clock [t], with the
    network answers [net] to come. *)
Definition sunsetWorld (t : Z) (net : list FetchOutcome) : World :=
  setNetwork net
    (setLocalStorage {[ Service.storageKey sunsetId := Parsed sunsetJob ]}
       (quietWorld t)).

Definition falId : jsstring := lit "job_0_abc123".

Definition falJob : Job :=
  {| j_id := falId; j_falJobId := Some (lit "req-1"); j_provider := lit "fal";
     j_prompt := lit "sunset"; j_aspectRatio := R16_9; j_duration := 15;
     j_status := lit "queued"; j_createdAt := 0;
     j_isImageSequence := false |}.

(** A provider job in the store of the service, with a real key
    configured. *)
Definition falWorld (t : Z) (net : list FetchOutcome) : World :=
  setFalKey (Some (lit "live-key"))
    (setNetwork net
       (setLocalStorage {[ Service.storageKey falId := Parsed falJob ]}
          (quietWorld t))).

Definition serverJob (provider status : jsstring) : SJob :=
  {| sj_id := falId; sj_prompt := lit "sunset"; sj_aspectRatio := lit "16:9";
     sj_duration := 15; sj_tier := lit "pro"; sj_provider := provider;
     sj_status := status; sj_createdAt := 0;
     sj_externalJobId := Some (lit "req-1"); sj_error := None |}.

(** A job in the store of the server handler, with both keys configured. *)
Definition serverWorld (provider status : jsstring) (t : Z)
    (net : list FetchOutcome) : World :=
  setFalKey (Some (lit "live-key"))
    (setPiapiKey (Some (lit "live-key"))
       (setNetwork net
          (setJobStore {[ falId := serverJob provider status ]}
             (quietWorld t)))).


(** ** Readings of the error classes *)

(** A poll result of the service that names the missing job. *)
Definition pollNotFound (r : Service.StatusResult) : Prop :=
  Service.error r = Some (lit "Job not found").

(** A finalize result of the service that fails and names the missing job. *)
Definition finalizeNotFound (r : Service.GenerationResponse) : Prop :=
  Service.success r = false /\ Service.gr_error r = Some (lit "Job not found").

(** The 404 answer of the server handler. *)
Definition notFound404 : Api.HttpResponse :=
  {| Api.code := 404; Api.body := Api.ErrorBody (lit "Job not found") None |}.

(** An id with no record in [localStorage], or with a record older than
    the retention window. *)
Definition unknownOrExpired (jobId : jsstring) (w : World) : Prop :=
  localStorage w !! Service.storageKey jobId = None
  \/ exists job,
       localStorage w !! Service.storageKey jobId = Some (Parsed job)
       /\ maxAge < now w - j_createdAt job.

(** The same for the [jobStore] of the server handler. *)
Definition apiUnknownOrExpired (jobId : jsstring) (w : World) : Prop :=
  jobStore w !! jobId = None
  \/ exists job,
       jobStore w !! jobId = Some job /\ maxAge < now w - sj_createdAt job.

(** An unknown or expired id makes poll and finalize of the service fail
    with the not-found error. *)
Definition expired_is_not_found (jobId : jsstring) (w : World) : Prop :=
  unknownOrExpired jobId w ->
  (exists r w', Service.getVideoJobStatus jobId w = (Normal r, w')
                /\ pollNotFound r)
  /\ (forall tier, exists r w',
        Service.completeVideoGeneration jobId tier w = (Normal r, w')
        /\ finalizeNotFound r).

(** An unknown or expired id makes both endpoints of the server handler
    answer 404. *)
Definition api_expired_is_not_found (jobId : jsstring) (w : World) : Prop :=
  apiUnknownOrExpired jobId w ->
  (exists w', Api.getVideoJobStatus (Api.QString jobId) w
              = (Normal notFound404, w'))
  /\ (exists w', Api.completeVideoJob (Some jobId) w
                 = (Normal notFound404, w')).

(** Finalize of the service as a one-shot claim whose second call fails
    with the not-found error. *)
Definition finalize_one_shot (jobId : jsstring) (tier : UserTier) (w : World)
    : Prop :=
  forall s w1,
    Service.getVideoJobStatus jobId w = (Normal s, w1) ->
    Service.status s = lit "completed" ->
    exists r w2,
      Service.completeVideoGeneration jobId tier w = (Normal r, w2)
      /\ Service.success r = true
      /\ Service.gr_videoUrl r = Service.videoUrl s
      /\ localStorage w2 !! Service.storageKey jobId = None
      /\ exists r' w3,
           Service.completeVideoGeneration jobId tier w2 = (Normal r', w3)
           /\ finalizeNotFound r'.

(** A record of an unknown provider: its poll reports a failed job. *)
Definition strangeJob : Job :=
  {| j_id := falId; j_falJobId := None; j_provider := lit "piapi";
     j_prompt := lit "sunset"; j_aspectRatio := R16_9; j_duration := 15;
     j_status := lit "queued"; j_createdAt := 0;
     j_isImageSequence := false |}.

Definition strangeWorld (t : Z) : World :=
  setLocalStorage {[ Service.storageKey falId := Parsed strangeJob ]}
    (quietWorld t).

(** An answer with status 200 and an empty object. *)
Definition ok200 : FetchOutcome := Responded 200 (Obj noData).


(** The duration stored at creation is the requested one clamped to the
    maximum of the tier table. *)
Definition duration_clamped_to_tier (config : VideoConfig) (tier : UserTier)
    (w : World) : Prop :=
  forall r w' job,
    Service.createVideoJob config tier w = (Normal r, w') ->
    localStorage w' !! Service.storageKey (Service.cr_jobId r)
    = Some (Parsed job) ->
    j_duration job = Z.min (cfg_duration config) (maxLength (PRICING tier)).

Definition sunsetConfig (d : Z) : VideoConfig :=
  {| cfg_prompt := lit "sunset"; cfg_aspectRatio := R9_16;
     cfg_duration := d |}.

(** The fal provider accepting a submission under the reference [req-9]. *)
Definition acceptedAs9 : FetchOutcome :=
  Responded 200
    (Obj {| request_id := Some (lit "req-9"); job_id := None; taskId := None;
            data_id := None; data_status := None; video_url := None;
            thumbnail_url := None; data_error := None |}).

(** A world with a real fal key and an accepting provider. *)
Definition liveWorld (t : Z) (net : list FetchOutcome) : World :=
  setFalKey (Some (lit "live-key")) (setNetwork net (quietWorld t)).


(** The value of a completion, [d] when it threw. *)
Definition valueOf {A} (d : A) (c : Completion A) : A :=
  match c with
  | Normal a => a
  | Throw _ => d
  end.

(** A pro request of 40 seconds that the provider accepts. *)
Definition proCreation : Completion Service.CreateResult * World :=
  Service.createVideoJob (sunsetConfig 40) pro (liveWorld 0 [acceptedAs9]).


(** A store whose entry for the sunset id is not the text of a JSON
    value. *)
Definition malformedWorld : World :=
  setLocalStorage
    {[ Service.storageKey sunsetId := Malformed (Error (lit "Unexpected token")) ]}
    (quietWorld 0).


(** The caller-side loop [pollForJobCompletion(jobId, maxAttempts)], with
    no [onProgress] callback. *)
Fixpoint pollForJobCompletion (jobId : jsstring) (maxAttempts : nat)
    : M Service.GenerationResponse :=
  match maxAttempts with
  | O => ret (Service.failure
               (lit "Video generation timed out after 5 minutes"))
  | S attempts =>
      statusResult <- Service.getVideoJobStatus jobId ;;
      if bool_decide (Service.status statusResult = lit "completed") then
        ret {| Service.success := true;
               Service.gr_videoUrl := Service.videoUrl statusResult;
               Service.gr_thumbnail := Service.thumbnail statusResult;
               Service.gr_error := None; Service.gr_tier := None;
               Service.gr_hasAdCard := None;
               Service.gr_jobId := Some jobId |}
      else if bool_decide (Service.status statusResult = lit "failed") then
        ret (Service.failure
               (orElse (Service.error statusResult)
                       (lit "Video generation failed")))
      else sleep 5000 ;;; pollForJobCompletion jobId attempts
  end.

(** Whether a poll of the service enters the availability loop: the record
    is an image-sequence job past the processing time whose prompt
    encodes. *)
Definition probesAvailability (jobId : jsstring) (w : World) : bool :=
  match localStorage w !! Service.storageKey jobId with
  | Some (Parsed job) =>
      match routingMode job with
      | Synthetic =>
          (5000 <=? now w - j_createdAt job)
          && bool_decide (is_Some (encodeURIComponent (j_prompt job)))
      | Provider => false
      end
  | _ => false
  end.

(** A single poll of the service spends no time in sleeps. *)
Definition poll_never_waits (jobId : jsstring) (w : World) : Prop :=
  waited (trace (snd (Service.getVideoJobStatus jobId w))) = waited (trace w).

(** The contract of the synthetic path: processing before the threshold;
    from the threshold on, completed with a non-empty locator, and the poll
    that follows returns the same result. *)
Definition synthetic_poll_contract (jobId : jsstring) (job : Job) (w : World)
    : Prop :=
  (now w - j_createdAt job < 5000 ->
   exists r w', Service.getVideoJobStatus jobId w = (Normal r, w')
                /\ Service.status r = lit "processing")
  /\ (5000 <= now w - j_createdAt job ->
      exists r w',
        Service.getVideoJobStatus jobId w = (Normal r, w')
        /\ Service.status r = lit "completed"
        /\ (exists u, Service.videoUrl r = Some u /\ u <> [])
        /\ forall r2 w2,
             Service.getVideoJobStatus jobId w' = (Normal r2, w2) -> r2 = r).


(** An image-sequence job whose prompt ends in half of a surrogate pair. *)
Definition loneJob : Job :=
  {| j_id := sunsetId; j_falJobId := None; j_provider := lit "image";
     j_prompt := lit "sun" ++ [55357%N]; j_aspectRatio := R9_16;
     j_duration := 10; j_status := lit "queued"; j_createdAt := 0;
     j_isImageSequence := true |}.

Definition loneWorld (t : Z) (net : list FetchOutcome) : World :=
  setNetwork net
    (setLocalStorage {[ Service.storageKey sunsetId := Parsed loneJob ]}
       (quietWorld t)).


(** Whether a poll of the service asks the provider for the status of the
    job: the job is routed to the fal provider and a real key is
    configured. *)
Definition consultsProvider (w : World) (job : Job) : bool :=
  match routingMode job with
  | Synthetic => false
  | Provider =>
      bool_decide (j_provider job = lit "fal")
      && Service.usableKey (Service.getApiKey w (lit "fal"))
  end.

(** The status that a poll which does not ask the provider reports at
    clock reading [t]. *)
Definition clockStatus (job : Job) (t : Z) : jsstring :=
  match routingMode job with
  | Synthetic =>
      if t - j_createdAt job <? 5000 then lit "processing"
      else match encodeURIComponent (j_prompt job) with
           | Some _ => lit "completed"
           | None => lit "failed"
           end
  | Provider =>
      if bool_decide (j_provider job = lit "fal") then
        if t - j_createdAt job <? 30000 then lit "processing"
        else lit "completed"
      else lit "failed"
  end.

(** The status that the status endpoint reports for a fal job created at
    [c], at clock reading [t]. *)
Definition apiClockStatus (c t : Z) : jsstring :=
  if 30000 <=? t - c then lit "completed" else lit "processing".

(** Clock readings in ascending order, none before [t]. *)
Fixpoint ascendingFrom (t : Z) (ts : list Z) : Prop :=
  match ts with
  | [] => True
  | x :: rest => t <= x /\ ascendingFrom x rest
  end.

(** The statuses observed by a sequence of polls of the service only move
    forward. *)
Definition status_moves_forward (jobId : jsstring) (w : World) : Prop :=
  forall waits rs w',
    Forall (fun d => 0 <= d) waits ->
    pollSequence jobId waits w = (Normal rs, w') ->
    forwardAll (map Service.status rs).

(** The same for the status endpoint of the server handler. *)
Definition api_status_moves_forward (jobId : jsstring) (w : World) : Prop :=
  forall waits rs w',
    Forall (fun d => 0 <= d) waits ->
    apiPollSequence jobId waits w = (Normal rs, w') ->
    exists ss, map apiStatus rs = map Some ss /\ forwardAll ss.

(** A provider that reports the job failed and whose next status call
    answers 500. *)
Definition failedThen500 : list FetchOutcome :=
  [Responded 200 (Obj (dataWithStatus (lit "failed")));
   Responded 500 (Obj noData)].

(** A provider that reports the job failed and then reports it
    processing. *)
Definition failedThenProcessing : list FetchOutcome :=
  [Responded 200 (Obj (dataWithStatus (lit "failed")));
   Responded 200 (Obj (dataWithStatus (lit "processing")))].


(** ** The callers inside src/services/asyncVideoService.ts *)

(** The call [onProgress(status)] when a callback was passed: a callback is
    any computation on the status, and may throw. *)
Definition notify (onProgress : option (jsstring -> M unit)) (s : jsstring)
    : M unit :=
  match onProgress with
  | Some callback => callback s
  | None => ret tt
  end.

(** [pollForJobCompletion(jobId, maxAttempts, onProgress)] *)
Fixpoint pollForJobCompletionWith (jobId : jsstring) (maxAttempts : nat)
    (onProgress : option (jsstring -> M unit))
    : M Service.GenerationResponse :=
  match maxAttempts with
  | O => ret (Service.failure
               (lit "Video generation timed out after 5 minutes"))
  | S attempts =>
      statusResult <- Service.getVideoJobStatus jobId ;;
      notify onProgress (Service.status statusResult) ;;;
      if bool_decide (Service.status statusResult = lit "completed") then
        ret {| Service.success := true;
               Service.gr_videoUrl := Service.videoUrl statusResult;
               Service.gr_thumbnail := Service.thumbnail statusResult;
               Service.gr_error := None; Service.gr_tier := None;
               Service.gr_hasAdCard := None;
               Service.gr_jobId := Some jobId |}
      else if bool_decide (Service.status statusResult = lit "failed") then
        ret (Service.failure
               (orElse (Service.error statusResult)
                       (lit "Video generation failed")))
      else sleep 5000 ;;; pollForJobCompletionWith jobId attempts onProgress
  end.

(** What [generateVideoAsync] returns: a [GenerationResponse] and the two
    fields it adds on the image-sequence paths. *)
Record AsyncResponse := {
  ar_response : Service.GenerationResponse;
  ar_isImageSequence : option bool;
  ar_message : option jsstring
}.

(** The answer of [generateVideoAsync] when the job could not be created. *)
Definition unavailableResponse (tier : UserTier) : AsyncResponse :=
  {| ar_response :=
       {| Service.success := true; Service.gr_videoUrl := Some [];
          Service.gr_thumbnail := None; Service.gr_error := None;
          Service.gr_tier := Some tier; Service.gr_hasAdCard := None;
          Service.gr_jobId := None |};
     ar_isImageSequence := Some true;
     ar_message :=
       Some (lit "Video generation unavailable. Using image preview instead.") |}.

(** [generateVideoAsync(config, tier, onProgress)] *)
Definition generateVideoAsync (config : VideoConfig) (tier : UserTier)
    (onProgress : option (jsstring -> M unit)) : M AsyncResponse :=
  createResult <- Service.createVideoJob config tier ;;
  if truthy (Service.cr_error createResult)
     || negb (truthy (Some (Service.cr_jobId createResult))) then
    ret (unavailableResponse tier)
  else
    early <-
      (if bool_decide (Service.cr_isImageSequence createResult = Some true)
       then
         statusResult <- Service.getVideoJobStatus
                           (Service.cr_jobId createResult) ;;
         if bool_decide (Service.status statusResult = lit "completed") then
           ret (Some
             {| ar_response :=
                  {| Service.success := true;
                     Service.gr_videoUrl := Service.videoUrl statusResult;
                     Service.gr_thumbnail := Service.thumbnail statusResult;
                     Service.gr_error := None;
                     Service.gr_tier := Some tier;
                     Service.gr_hasAdCard := None;
                     Service.gr_jobId :=
                       Some (Service.cr_jobId createResult) |};
                ar_isImageSequence := Some true;
                ar_message := Some (lit "Image preview generated") |})
         else ret None
       else ret None) ;;
    match early with
    | Some response => ret response
    | None =>
        completionResult <-
          pollForJobCompletionWith (Service.cr_jobId createResult) 60
            onProgress ;;
        ret {| ar_response := completionResult;
               ar_isImageSequence := None; ar_message := None |}
    end.


(** ** api/video.ts: the create endpoint and the dispatcher *)

Module ApiCreate.

(** [req.body]: the fields the endpoints read, each possibly absent. *)
Record ReqBody := {
  prompt : option jsstring;
  aspectRatio : option jsstring;
  duration : option Z;
  tier : option jsstring;
  provider : option jsstring;
  jobId : option jsstring
}.

(** A truthy number: present and not zero. *)
Definition truthyNumber (d : option Z) : bool :=
  match d with
  | Some n => negb (n =? 0)
  | None => false
  end.

(** The names every object literal inherits from [Object.prototype]: for
    these [keys[provider]] is a function or an object, hence truthy. *)
Definition inheritedName (provider : jsstring) : bool :=
  bool_decide
    (provider ∈ [lit "constructor"; lit "__proto__"; lit "hasOwnProperty";
                 lit "isPrototypeOf"; lit "propertyIsEnumerable";
                 lit "toLocaleString"; lit "toString"; lit "valueOf";
                 lit "__defineGetter__"; lit "__defineSetter__";
                 lit "__lookupGetter__"; lit "__lookupSetter__"]).

(** The JSON bodies of the create endpoint. *)
Inductive Answer :=
  | Rejected400 (err : jsstring) (msg : option jsstring)
  | Unavailable503 (err msg : jsstring) (fallback : bool)
                   (suggestedAction : jsstring)
  | Created (jobId status message estimatedTime : jsstring)
  | Failed500 (err msg : jsstring).

Record Reply := { code : Z; answer : Answer }.

Definition falUrl : jsstring :=
  lit "https://fal.run/fal-ai/kling-video/v2.5-turbo/text-to-video".
Definition piapiUrl : jsstring :=
  lit "https://api.piapi.ai/v1/video/generations".

(** The submission to fal. *)
Definition falRequest (apiKey prompt aspectRatio tier : jsstring)
    (duration : Z) : Request :=
  {| rq_method := POST; rq_url := falUrl;
     rq_authorization := Some (lit "Key " ++ apiKey);
     rq_body := Some
       {| sb_model := None; sb_prompt := prompt;
          sb_duration :=
            Z.min duration
                  (if bool_decide (tier = lit "pro") then 30 else 15);
          sb_resolution := lit "1080p";
          sb_aspect_ratio := aspectRatio |} |}.

(** The submission to piapi; its body names the duration [length]. *)
Definition piapiRequest (apiKey prompt aspectRatio : jsstring)
    (duration : Z) : Request :=
  {| rq_method := POST; rq_url := piapiUrl;
     rq_authorization := Some (lit "Bearer " ++ apiKey);
     rq_body := Some
       {| sb_model := Some (lit "minimax/hailuo-02"); sb_prompt := prompt;
          sb_duration := Z.min duration 10;
          sb_resolution := lit "768p";
          sb_aspect_ratio := aspectRatio |} |}.

(** [errorData.error || `External API error: ${status}`] where [errorData]
    is the body of the answer, or [{ error: 'Unknown error' }] when the
    body is not JSON. *)
Definition externalErrorMessage (response : Response) : jsstring :=
  orElse (match resp_body response with
          | BadJson _ => Some (lit "Unknown error")
          | Obj d => data_error d
          end)
         (lit "External API error: " ++ numberToString (resp_status response)).

(** The statements after the submission. *)
Definition register (jobId : jsstring) (jobData : SJob)
    (externalResponse : Response) : M Reply :=
  if negb (resp_ok externalResponse) then
    throw (Error (externalErrorMessage externalResponse))
  else
    externalData <- json externalResponse ;;
    let stored :=
      {| sj_id := sj_id jobData; sj_prompt := sj_prompt jobData;
         sj_aspectRatio := sj_aspectRatio jobData;
         sj_duration := sj_duration jobData; sj_tier := sj_tier jobData;
         sj_provider := sj_provider jobData;
         sj_status := lit "processing";
         sj_createdAt := sj_createdAt jobData;
         sj_externalJobId :=
           Some (orElse (request_id externalData)
                   (orElse (taskId externalData)
                      (orElse (data_id externalData) jobId)));
         sj_error := sj_error jobData |} in
    Api.jobStore_set jobId stored ;;;
    ret {| code := 200;
           answer :=
             Created jobId (lit "queued")
               (lit "Video generation job created successfully")
               (if bool_decide (sj_provider jobData = lit "fal")
                then lit "30-60 seconds" else lit "60-120 seconds") |}.

(** [createVideoJob(req, res)] on the body of the request. *)
Definition createVideoJob (b : ReqBody) : M Reply :=
  if negb (truthy (prompt b)) || negb (truthy (aspectRatio b))
     || negb (truthyNumber (duration b)) || negb (truthy (tier b)) then
    ret {| code := 400;
           answer :=
             Rejected400 (lit "Missing required parameters")
               (Some (lit "Please provide prompt, aspectRatio, duration, and tier")) |}
  else
    let prompt := orElse (prompt b) [] in
    let aspectRatio := orElse (aspectRatio b) [] in
    let duration := default 0 (duration b) in
    let tier := orElse (tier b) [] in
    let selectedProvider :=
      orElse (provider b)
             (if bool_decide (tier = lit "free") then lit "piapi"
              else lit "fal") in
    apiKey <- Api.readApiKey selectedProvider ;;
    if negb (truthy apiKey || inheritedName selectedProvider) then
      ret {| code := 503;
             answer :=
               Unavailable503 (lit "Video generation unavailable")
                 (lit "API keys not configured. Please set environment variables.")
                 true (lit "use_image_sequence") |}
    else
      t <- Date_now ;;
      r <- randomSuffix ;;
      let jobId := lit "job_" ++ numberToString t ++ lit "_" ++ r in
      tryCatch
        (c <- Date_now ;;
         let jobData :=
           {| sj_id := jobId; sj_prompt := prompt;
              sj_aspectRatio := aspectRatio; sj_duration := duration;
              sj_tier := tier; sj_provider := selectedProvider;
              sj_status := lit "queued"; sj_createdAt := c;
              sj_externalJobId := None; sj_error := None |} in
         if bool_decide (selectedProvider = lit "fal") then
           externalResponse <-
             fetch (falRequest (orElse apiKey []) prompt aspectRatio tier
                      duration) ;;
           register jobId jobData externalResponse
         else if bool_decide (selectedProvider = lit "piapi") then
           externalResponse <-
             fetch (piapiRequest (orElse apiKey []) prompt aspectRatio
                      duration) ;;
           register jobId jobData externalResponse
         else
           ret {| code := 400;
                  answer := Rejected400 (lit "Unsupported provider") None |})
        (fun e =>
           ret {| code := 500;
                  answer :=
                    Failed500 (lit "Failed to create video job")
                      (orElse (Some (message e))
                         (lit "Something went wrong creating the video job")) |}).

(** A request as the dispatcher reads it. *)
Record Req := {
  method : jsstring;
  action : Api.QueryParam;
  query_jobId : Api.QueryParam;
  body : option ReqBody
}.

(** What the dispatcher answers: an empty 200, or the answer of one of the
    three endpoints. *)
Inductive HandlerReply :=
  | Ended (code : Z)
  | OfCreate (r : Reply)
  | OfApi (r : Api.HttpResponse).

(** The TypeError of [const { ... } = req.body] on a request without a
    body. *)
Definition noBody : exn :=
  Error (lit "Cannot destructure property of 'req.body' as it is undefined.").

(** [handler(req, res)]; the CORS headers it sets are not recorded. *)
Definition handler (req : Req) : M HandlerReply :=
  if bool_decide (method req = lit "OPTIONS") then ret (Ended 200)
  else
    tryCatch
      (match action req with
       | Api.QString a =>
           if bool_decide (a = lit "create") then
             match body req with
             | None => throw noBody
             | Some b => r <- createVideoJob b ;; ret (OfCreate r)
             end
           else if bool_decide (a = lit "status") then
             r <- Api.getVideoJobStatus (query_jobId req) ;; ret (OfApi r)
           else if bool_decide (a = lit "complete") then
             match body req with
             | None => throw noBody
             | Some b => r <- Api.completeVideoJob (jobId b) ;; ret (OfApi r)
             end
           else
             ret (OfApi {| Api.code := 400;
                           Api.body :=
                             Api.ErrorBody (lit "Invalid action parameter")
                                           None |})
       | _ =>
           ret (OfApi {| Api.code := 400;
                         Api.body :=
                           Api.ErrorBody (lit "Invalid action parameter")
                                         None |})
       end)
      (fun _ =>
         ret (OfApi {| Api.code := 500;
                       Api.body :=
                         Api.ErrorBody (lit "Internal server error")
                           (Some (lit "Something went wrong with video generation")) |})).

End ApiCreate.


(** ** The runtime of the service *)

(** The service reads the global [localStorage].  A browser has it; the
    Node runtime of the Vercel functions that import the service has
    none, and there evaluating the identifier throws a ReferenceError
    before the method and its arguments are looked at. *)
Inductive Runtime := Browser | NodeJs.

(** The ReferenceError, with V8's message. *)
Definition localStorageUndefined : exn :=
  Error (lit "localStorage is not defined").

(** [localStorage.getItem(k)] and [localStorage.setItem(k, v)] in a
    runtime. *)
Definition localStorage_getItemIn (rt : Runtime) (k : jsstring)
    : M (option Item) :=
  match rt with
  | Browser => localStorage_getItem k
  | NodeJs => throw localStorageUndefined
  end.

Definition localStorage_setItemIn (rt : Runtime) (k : jsstring) (v : Item)
    : M unit :=
  match rt with
  | Browser => localStorage_setItem k v
  | NodeJs => throw localStorageUndefined
  end.

(** [createVideoJob] and [getVideoJobStatus] of the service, statement by
    statement as in [Service], with the runtime they run in; in the
    browser they are the functions of [Service]. *)
Module OnRuntime.

Definition createImageSequenceJob (rt : Runtime) (config : VideoConfig)
    : M Service.CreateResult :=
  t <- Date_now ;;
  r <- randomSuffix ;;
  let jobId := lit "img_" ++ numberToString t ++ lit "_" ++ r in
  c <- Date_now ;;
  let jobData :=
    {| j_id := jobId; j_falJobId := None; j_provider := lit "image";
       j_prompt := cfg_prompt config;
       j_aspectRatio := cfg_aspectRatio config;
       j_duration := Z.min (cfg_duration config) 16;
       j_status := lit "queued"; j_createdAt := c;
       j_isImageSequence := true |} in
  localStorage_setItemIn rt (Service.storageKey jobId) (Parsed jobData) ;;;
  ret {| Service.cr_jobId := jobId; Service.cr_status := lit "queued";
         Service.cr_error := None;
         Service.cr_isImageSequence := Some true |}.

Definition createVideoJob_body (rt : Runtime) (config : VideoConfig)
    (tier : UserTier) : M Service.CreateResult :=
  match tier with
  | free => createImageSequenceJob rt config
  | _ =>
      let provider := lit "fal" in
      apiKey <- Service.readApiKey provider ;;
      if negb (Service.usableKey apiKey) then createImageSequenceJob rt config
      else
        t <- Date_now ;;
        r <- randomSuffix ;;
        let jobId := lit "job_" ++ numberToString t ++ lit "_" ++ r in
        response <- fetch (Service.falSubmitRequest apiKey config tier) ;;
        if negb (resp_ok response) then
          throw (Error (lit "FAL API error: "
                        ++ numberToString (resp_status response)))
        else
          data <- json response ;;
          c <- Date_now ;;
          let jobData :=
            {| j_id := jobId;
               j_falJobId :=
                 Some (orElse (request_id data) (orElse (job_id data) jobId));
               j_provider := lit "fal";
               j_prompt := cfg_prompt config;
               j_aspectRatio := cfg_aspectRatio config;
               j_duration :=
                 Z.min (cfg_duration config)
                       (match tier with pro => 30 | _ => 15 end);
               j_status := lit "queued"; j_createdAt := c;
               j_isImageSequence := false |} in
          localStorage_setItemIn rt (Service.storageKey jobId)
            (Parsed jobData) ;;;
          ret {| Service.cr_jobId := jobId; Service.cr_status := lit "queued";
                 Service.cr_error := None;
                 Service.cr_isImageSequence := None |}
  end.

Definition createVideoJob (rt : Runtime) (config : VideoConfig)
    (tier : UserTier) : M Service.CreateResult :=
  tryCatch (createVideoJob_body rt config tier)
           (fun e => ret (Service.createVideoJob_failure e)).

Definition getVideoJobStatus_body (rt : Runtime) (jobId : jsstring)
    : M Service.StatusResult :=
  jobData <- localStorage_getItemIn rt (Service.storageKey jobId) ;;
  match jobData with
  | None => ret (Service.failedWith (lit "Job not found"))
  | Some item =>
      job <- JSON_parse item ;;
      if j_isImageSequence job || bool_decide (j_provider job = lit "image")
      then Service.imageSequenceStatus job
      else
        apiKey <- Service.readApiKey (j_provider job) ;;
        if bool_decide (j_provider job = lit "fal") then
          real <- (if Service.usableKey apiKey
                   then Service.falRealStatus apiKey job
                   else ret None) ;;
          match real with
          | Some result => ret result
          | None => Service.falSimulatedStatus jobId job
          end
        else ret (Service.failedWith (lit "Unknown provider"))
  end.

Definition getVideoJobStatus (rt : Runtime) (jobId : jsstring)
    : M Service.StatusResult :=
  tryCatch (getVideoJobStatus_body rt jobId)
           (fun e => ret (Service.failedWith
                            (orElse (Some (message e))
                                    (lit "Failed to check job status")))).

End OnRuntime.

(** ** api/video/status.ts: the status endpoint over the service *)

Module StatusEndpoint.

Inductive Answer :=
  | Ended
  | Failure (err : jsstring) (detail : option jsstring)
  | Status (success : bool) (jobId status : jsstring)
           (videoUrl thumbnailUrl error : option jsstring).

Record Reply := { code : Z; answer : Answer }.

(** [handler(req, res)] on the method and the [jobId] of the query, in the
    runtime [rt].  The poll result is an object, so the [!status] test that
    guards the 404 answer never holds; the object has no [thumbnailUrl],
    [progress], [duration], [createdAt] or [updatedAt], so these read as
    [undefined] (of them only [thumbnailUrl] is kept in the answer
    here). *)
Definition handler (rt : Runtime) (method : jsstring)
    (jobId : Api.QueryParam) : M Reply :=
  if bool_decide (method = lit "OPTIONS") then
    ret {| code := 200; answer := Ended |}
  else if negb (bool_decide (method = lit "GET")) then
    ret {| code := 405; answer := Failure (lit "Method not allowed") None |}
  else
    tryCatch
      (match jobId with
       | Api.QString (c :: s) =>
           status <- OnRuntime.getVideoJobStatus rt (c :: s) ;;
           ret {| code := 200;
                  answer :=
                    Status true (c :: s) (Service.status status)
                           (Service.videoUrl status) None
                           (Service.error status) |}
       | _ =>
           ret {| code := 400;
                  answer :=
                    Failure (lit "Missing jobId parameter")
                      (Some (lit "/api/video/status?jobId=fal_abc123")) |}
       end)
      (fun e =>
         ret {| code := 500;
                answer :=
                  Failure (lit "Failed to check video status")
                          (Some (message e)) |}).

End StatusEndpoint.


(** An event a poll of the service may add to the trace: a 5 second sleep,
    a probe of a pollinations locator that carries neither credentials nor
    a body, or a status call to the fal endpoint that carries the real key
    of the world. *)
Definition pollEventAllowed (w : World) (ev : Event) : Prop :=
  match ev with
  | EvSleep ms => ms = 5000
  | EvFetch rq =>
      rq_body rq = None
      /\ ((rq_method rq = HEAD
           /\ rq_authorization rq = None
           /\ startsWith (lit "https://image.pollinations.ai/prompt/")
                         (rq_url rq) = true)
          \/ (rq_method rq = GET
              /\ startsWith (Service.API_ENDPOINTS_falStatus ++ lit "/")
                            (rq_url rq) = true
              /\ rq_authorization rq
                 = Some (lit "Key " ++ Service.getApiKey w (lit "fal"))
              /\ Service.usableKey (Service.getApiKey w (lit "fal")) = true))
  end.

(** The requests of a trace. *)
Fixpoint requests (tr : list Event) : list Request :=
  match tr with
  | [] => []
  | EvFetch rq :: rest => rq :: requests rest
  | EvSleep _ :: rest => requests rest
  end.

(** A provider that answers [n] status calls with the status [s]. *)
Definition answering (s : jsstring) (n : nat) : list FetchOutcome :=
  replicate n (Responded 200 (Obj (dataWithStatus s))).


(** A pro request to the server with no provider named. *)
Definition proBody (d : Z) : ApiCreate.ReqBody :=
  {| ApiCreate.prompt := Some (lit "sunset");
     ApiCreate.aspectRatio := Some (lit "16:9");
     ApiCreate.duration := Some d;
     ApiCreate.tier := Some (lit "pro");
     ApiCreate.provider := None;
     ApiCreate.jobId := None |}.


(** Two records of the server's store that agree on every field but the
    status and the error, the two a status check assigns. *)
Definition sameJob (j j' : SJob) : Prop :=
  sj_id j' = sj_id j /\ sj_prompt j' = sj_prompt j
  /\ sj_aspectRatio j' = sj_aspectRatio j /\ sj_duration j' = sj_duration j
  /\ sj_tier j' = sj_tier j /\ sj_provider j' = sj_provider j
  /\ sj_createdAt j' = sj_createdAt j
  /\ sj_externalJobId j' = sj_externalJobId j.

(** The store [s'] holds the ids of [s], each with the same job. *)
Definition storeKept (s s' : gmap jsstring SJob) : Prop :=
  forall k,
    match s !! k, s' !! k with
    | Some j, Some j' => sameJob j j'
    | None, None => True
    | _, _ => False
    end.

(** A server world whose only job is a piapi job the provider reports
    failed. *)
Definition piapiFailedWorld : World :=
  serverWorld (lit "piapi") (lit "processing") 0
    [Responded 200 (Obj (dataWithStatus (lit "failed")))].



(** The part of a locator before its first occurrence of the code unit
    [c], and the part after it: for [c] the question mark, the path and
    the query a server reads. *)
Fixpoint beforeFirst (c : N) (s : jsstring) : jsstring :=
  match s with
  | [] => []
  | x :: rest => if (x =? c)%N then [] else x :: beforeFirst c rest
  end.

Fixpoint afterFirst (c : N) (s : jsstring) : jsstring :=
  match s with
  | [] => []
  | x :: rest => if (x =? c)%N then rest else afterFirst c rest
  end.

(** A stored image-sequence job whose prompt is made of delimiters. *)
Definition delimiterJob : Job :=
  {| j_id := sunsetId; j_falJobId := None; j_provider := lit "image";
     j_prompt := lit "a?b&c=d #/"; j_aspectRatio := R9_16; j_duration := 10;
     j_status := lit "queued"; j_createdAt := 0; j_isImageSequence := true |}.



(** A usable credential of the backing provider in the environment: a fal
    key that is set, not empty and not a demo key. *)
Definition credentialConfigured (w : World) : bool :=
  match FAL_API_KEY w with
  | Some (c :: k) => negb (startsWith (lit "demo_") (c :: k))
  | _ => false
  end.

(** The routing policy as the claim words it: creation succeeds and stores
    a job, routed to the synthetic path for the free tier or without a
    usable credential, and to the provider otherwise. *)
Definition routing_policy (config : VideoConfig) (tier : UserTier)
    (w : World) : Prop :=
  exists r w' job,
    Service.createVideoJob config tier w = (Normal r, w')
    /\ localStorage w' !! Service.storageKey (Service.cr_jobId r)
       = Some (Parsed job)
    /\ routingMode job
       = match tier with
         | free => Synthetic
         | _ => if credentialConfigured w then Provider else Synthetic
         end.

(** A paid request whose submission the provider refuses with a 500. *)
Definition refusingWorld : World :=
  liveWorld 0 [Responded 500 (Obj noData)].

(** The [try] block of the provider status call inside
    [getVideoJobStatus]; [Service.falRealStatus] is this block under its
    [catch]. *)
Definition falStatusCall (apiKey : jsstring) (job : Job)
    : M (option Service.StatusResult) :=
  response <- fetch (Service.falStatusRequest apiKey job) ;;
  if negb (resp_ok response) then
    throw (Error (lit "FAL API error: "
                  ++ numberToString (resp_status response)))
  else
    data <- json response ;;
    ret (Some (Service.falSnapshot data)).

(** An error [e] raised inside the poll of [jobId]: by the status call to
    the provider, or by the first availability probe of a synthetic job
    past its processing time. *)
Definition raisedInPoll (jobId : jsstring) (w : World) (e : exn) : Prop :=
  exists job,
    localStorage w !! Service.storageKey jobId = Some (Parsed job)
    /\ ((consultsProvider w job = true
         /\ exists w1,
              falStatusCall (Service.getApiKey w (lit "fal")) job w
              = (Throw e, w1))
        \/ (routingMode job = Synthetic
            /\ 5000 <= now w - j_createdAt job
            /\ exists enc w1,
                 encodeURIComponent (j_prompt job) = Some enc
                 /\ fetch (Service.headRequest
                             (Service.pollinationsVideoUrl enc job)) w
                    = (Throw e, w1))).

(** The error boundary as the claim words it, at the poll: an error raised
    inside comes back as a failure value, status failed with a message. *)
Definition errors_surfaced (jobId : jsstring) (w : World) : Prop :=
  forall e,
    raisedInPoll jobId w e ->
    exists s w',
      Service.getVideoJobStatus jobId w = (Normal s, w')
      /\ Service.status s = lit "failed"
      /\ truthy (Service.error s) = true.



(** ** Reasoning about computations *)

Arguments lit : simpl never.
Arguments numberToString : simpl never.

(** A handler that only builds a value makes the whole block return. *)
Lemma tryCatch_ret_total {A} (m : M A) (f : exn -> A) w :
  exists a w1,
    tryCatch m (fun e => ret (f e)) w = (Normal a, w1)
    /\ (forall e w2, m w = (Throw e, w2) -> a = f e /\ w1 = w2)
    /\ (forall b w2, m w = (Normal b, w2) -> a = b /\ w1 = w2).
Proof.
  unfold tryCatch, ret. destruct (m w) as [[a|e] w1].
  - exists a, w1. repeat split; congruence.
  - exists (f e), w1. repeat split; congruence.
Qed.

Lemma stable_refl w : stable w w.
Proof. split; auto; lia. Qed.

Lemma stable_trans w1 w2 w3 : stable w1 w2 -> stable w2 w3 -> stable w1 w3.
Proof.
  intros [] []. split; try congruence; lia.
Qed.

Lemma waited_app tr1 tr2 : waited (tr1 ++ tr2) = waited tr1 + waited tr2.
Proof.
  induction tr1 as [|[rq|ms] tr1 IH]; simpl; rewrite ?IH; lia.
Qed.

Section Keeping.

Variable R : World -> World -> Prop.
Hypothesis R_refl : forall w, R w w.
Hypothesis R_trans : forall w1 w2 w3, R w1 w2 -> R w2 w3 -> R w1 w3.

Lemma keeps_unchanged {A} (m : M A) :
  (forall w, snd (m w) = w) -> Keeps R m.
Proof. intros H w. rewrite H. apply R_refl. Qed.

Lemma keeps_ret {A} (a : A) : Keeps R (ret a).
Proof. now apply keeps_unchanged. Qed.

Lemma keeps_throw {A} (e : exn) : Keeps R (@throw A e).
Proof. now apply keeps_unchanged. Qed.

Lemma keeps_bind {A B} (m : M A) (k : A -> M B) :
  Keeps R m -> (forall a, Keeps R (k a)) -> Keeps R (bind m k).
Proof.
  intros Hm Hk w. unfold bind. specialize (Hm w).
  destruct (m w) as [[a|e] w1]; simpl in *; [|exact Hm].
  eapply R_trans; [exact Hm | apply Hk].
Qed.

Lemma keeps_tryCatch {A} (m : M A) (h : exn -> M A) :
  Keeps R m -> (forall e, Keeps R (h e)) -> Keeps R (tryCatch m h).
Proof.
  intros Hm Hh w. unfold tryCatch. specialize (Hm w).
  destruct (m w) as [[a|e] w1]; simpl in *; [exact Hm|].
  eapply R_trans; [exact Hm | apply Hh].
Qed.

Lemma keeps_Date_now : Keeps R Date_now.
Proof. now apply keeps_unchanged. Qed.

Lemma keeps_json r : Keeps R (json r).
Proof.
  unfold json. destruct (resp_body r); [apply keeps_throw | apply keeps_ret].
Qed.

Lemma keeps_getItem k : Keeps R (localStorage_getItem k).
Proof. now apply keeps_unchanged. Qed.

Lemma keeps_JSON_parse i : Keeps R (JSON_parse i).
Proof. destruct i; [apply keeps_throw | apply keeps_ret]. Qed.

Lemma keeps_encodeURIComponentM s : Keeps R (encodeURIComponentM s).
Proof.
  unfold encodeURIComponentM.
  destruct (encodeURIComponent s); [apply keeps_ret | apply keeps_throw].
Qed.

Lemma keeps_service_readApiKey p : Keeps R (Service.readApiKey p).
Proof. now apply keeps_unchanged. Qed.

Lemma keeps_api_readApiKey p : Keeps R (Api.readApiKey p).
Proof. now apply keeps_unchanged. Qed.

End Keeping.

Lemma sameWait_refl w : sameWait w w.
Proof. reflexivity. Qed.

Lemma sameWait_trans w1 w2 w3 :
  sameWait w1 w2 -> sameWait w2 w3 -> sameWait w1 w3.
Proof. unfold sameWait. congruence. Qed.

Lemma stable_fetch rq : Keeps stable (fetch rq).
Proof.
  intros w. unfold fetch.
  destruct (network w) as [|[e|st b] rest]; simpl; split; simpl; auto; lia.
Qed.

Lemma stable_sleep ms : 0 <= ms -> Keeps stable (sleep ms).
Proof. intros H w. unfold sleep. simpl. split; simpl; auto; lia. Qed.

Lemma sameWait_fetch rq : Keeps sameWait (fetch rq).
Proof.
  intros w. unfold fetch, sameWait.
  destruct (network w) as [|[e|st b] rest]; simpl;
    rewrite waited_app; simpl; lia.
Qed.

Create HintDb keeps.
#[local] Hint Resolve stable_refl sameWait_refl : keeps.
#[local] Hint Resolve keeps_ret keeps_throw keeps_Date_now keeps_json
  keeps_getItem keeps_JSON_parse keeps_encodeURIComponentM
  keeps_service_readApiKey keeps_api_readApiKey stable_fetch sameWait_fetch
  : keeps.

(** Splits a goal [Keeps R m] along the shape of [m]. *)
Ltac keeps :=
  repeat first
    [ apply keeps_bind; [solve [eauto using stable_trans, sameWait_trans] | |intros ?]
    | apply keeps_tryCatch; [solve [eauto using stable_trans, sameWait_trans] | |intros ?]
    | apply stable_sleep; lia
    | solve [auto with keeps]
    | match goal with
      | |- Keeps _ (if ?b then _ else _) => destruct b
      | |- Keeps _ (match ?x with _ => _ end) => destruct x
      end ].

Lemma stable_availabilityLoop url n :
  Keeps stable (Service.availabilityLoop url n).
Proof.
  induction n as [|n IH]; simpl; [auto with keeps|].
  keeps.
Qed.
#[local] Hint Resolve stable_availabilityLoop : keeps.

Lemma frames_getVideoJobStatus jobId :
  Keeps stable (Service.getVideoJobStatus jobId).
Proof.
  unfold Service.getVideoJobStatus, Service.getVideoJobStatus_body,
    Service.imageSequenceStatus, Service.falRealStatus,
    Service.falSimulatedStatus.
  keeps.
Qed.

(** ** Facts about statuses *)



(** ** Poll and finalize of the service, step by step *)

Lemma poll_unknown jobId w :
  localStorage w !! Service.storageKey jobId = None ->
  Service.getVideoJobStatus jobId w
  = (Normal (Service.failedWith (lit "Job not found")), w).
Proof.
  intros H.
  unfold Service.getVideoJobStatus, tryCatch, Service.getVideoJobStatus_body,
    bind, localStorage_getItem.
  now rewrite H.
Qed.

Lemma finalize_of_poll jobId tier w s w1 :
  Service.getVideoJobStatus jobId w = (Normal s, w1) ->
  Service.completeVideoGeneration jobId tier w
  = if bool_decide (Service.status s = lit "completed") then
      (Normal {| Service.success := true;
                 Service.gr_videoUrl := Service.videoUrl s;
                 Service.gr_thumbnail := Service.thumbnail s;
                 Service.gr_error := None;
                 Service.gr_tier := Some tier;
                 Service.gr_hasAdCard :=
                   Some (match tier with free => true | _ => false end);
                 Service.gr_jobId := Some jobId |},
       setLocalStorage
         (delete (Service.storageKey jobId) (localStorage w1)) w1)
    else
      (Normal (Service.failure
                 (lit "Job not completed. Status: " ++ Service.status s)), w1).
Proof.
  intros H.
  unfold Service.completeVideoGeneration, tryCatch,
    Service.completeVideoGeneration_body, bind.
  rewrite H.
  destruct (bool_decide (Service.status s = lit "completed")); reflexivity.
Qed.



(** ** Unknown ids and the retention window *)

Lemma finalize_unknown jobId tier w :
  localStorage w !! Service.storageKey jobId = None ->
  Service.completeVideoGeneration jobId tier w
  = (Normal (Service.failure (lit "Job not completed. Status: failed")), w).
Proof.
  intros H.
  rewrite (finalize_of_poll _ _ _ _ _ (poll_unknown jobId w H)).
  reflexivity.
Qed.

Lemma api_poll_present jobId job w :
  jobId <> [] ->
  jobStore w !! jobId = Some job ->
  exists r w',
    Api.getVideoJobStatus (Api.QString jobId) w = (Normal r, w')
    /\ (Api.code r = 200 \/ Api.code r = 500).
Proof.
  intros Hne Hjob. destruct jobId as [|c s]; [congruence|].
  cbv beta iota zeta delta [Api.getVideoJobStatus bind Api.jobStore_get].
  rewrite Hjob. unfold tryCatch, bind, ret.
  destruct (Api.statusData_of (c :: s) job w) as [[d|e] w1];
    eexists; eexists; (split; [reflexivity|]); simpl; auto.
Qed.

(** C4, the claim at an old record: a record one day old, far past the
    retention window, is still polled to a completed result by the service
    and by the server handler; neither answers not-found. *)
Lemma expired_is_not_found_counterexample :
  ~ expired_is_not_found sunsetId (sunsetWorld 86400000 [ok200])
  /\ ~ api_expired_is_not_found falId
         (serverWorld (lit "fal") (lit "processing") 86400000 []).
Proof.
  split.
  - intros H. destruct H as [(r & w' & Hp & Hn) _].
    + right. exists sunsetJob. split; vm_compute; reflexivity.
    + vm_compute in Hp. injection Hp as <- _.
      unfold pollNotFound in Hn. discriminate Hn.
  - intros H. destruct H as [[w' Hp] _].
    + right. exists (serverJob (lit "fal") (lit "processing")).
      split; vm_compute; reflexivity.
    + vm_compute in Hp. discriminate Hp.
Qed.

(** C4, amended. An id with no record: the service's poll returns status
    failed with the error "Job not found" and its finalize returns the
    failure "Job not completed. Status: failed", both leaving the world as
    it was; the two endpoints of the server handler answer 404 "Job not
    found".  A record that is present is never answered with 404 by the
    status endpoint, whatever its age. *)
Theorem unknown_job_reports :
  (forall jobId w,
     localStorage w !! Service.storageKey jobId = None ->
     Service.getVideoJobStatus jobId w
     = (Normal (Service.failedWith (lit "Job not found")), w)
     /\ forall tier,
          Service.completeVideoGeneration jobId tier w
          = (Normal (Service.failure
                       (lit "Job not completed. Status: failed")), w))
  /\
  (forall jobId w,
     jobId <> [] ->
     jobStore w !! jobId = None ->
     Api.getVideoJobStatus (Api.QString jobId) w = (Normal notFound404, w)
     /\ Api.completeVideoJob (Some jobId) w = (Normal notFound404, w))
  /\
  (forall jobId job w,
     jobId <> [] ->
     jobStore w !! jobId = Some job ->
     exists r w',
       Api.getVideoJobStatus (Api.QString jobId) w = (Normal r, w')
       /\ Api.code r <> 404).
Proof.
  split; [|split].
  - intros jobId w H. split; [apply poll_unknown, H|].
    intros tier. apply finalize_unknown, H.
  - intros jobId w Hne H. destruct jobId as [|c s]; [congruence|].
    split.
    + cbv beta iota zeta delta [Api.getVideoJobStatus bind Api.jobStore_get].
      now rewrite H.
    + cbv beta iota zeta delta [Api.completeVideoJob bind Api.jobStore_get].
      now rewrite H.
  - intros jobId job w Hne H.
    destruct (api_poll_present jobId job w Hne H) as (r & w' & Hr & Hc).
    exists r, w'. split; [exact Hr|]. destruct Hc as [-> | ->]; discriminate.
Qed.

Lemma unknown_job_reports_witness :
  (Service.getVideoJobStatus sunsetId (quietWorld 0)
   = (Normal (Service.failedWith (lit "Job not found")), quietWorld 0)
   /\ Service.completeVideoGeneration sunsetId free (quietWorld 0)
      = (Normal (Service.failure (lit "Job not completed. Status: failed")),
         quietWorld 0))
  /\ (Api.getVideoJobStatus (Api.QString falId) (quietWorld 0)
      = (Normal notFound404, quietWorld 0)
      /\ Api.completeVideoJob (Some falId) (quietWorld 0)
         = (Normal notFound404, quietWorld 0))
  /\ exists r w',
       Api.getVideoJobStatus (Api.QString falId)
         (serverWorld (lit "fal") (lit "processing") 86400000 [])
       = (Normal r, w')
       /\ Api.code r <> 404.
Proof.
  destruct unknown_job_reports as (Hs & Ha & Hp).
  split; [|split].
  - destruct (Hs sunsetId (quietWorld 0)) as [H1 H2].
    + vm_compute. reflexivity.
    + split; [exact H1 | apply H2].
  - apply (Ha falId (quietWorld 0)).
    + discriminate.
    + vm_compute. reflexivity.
  - apply (Hp falId (serverJob (lit "fal") (lit "processing"))).
    + discriminate.
    + vm_compute. reflexivity.
Defined.

(** ** Finalize as a one-shot claim *)

(** C5, the claim at the sunset job: the first finalize succeeds and
    removes the record, but the second one fails with "Job not completed.
    Status: failed", which does not name the missing job and is, word for
    word, the failure of finalize on a record that is present and whose
    poll reports a failed job. *)
Lemma finalize_one_shot_counterexample :
  ~ finalize_one_shot sunsetId free (sunsetWorld 6000 [ok200])
  /\ fst (Service.completeVideoGeneration sunsetId free
            (snd (Service.completeVideoGeneration sunsetId free
                    (sunsetWorld 6000 [ok200]))))
     = fst (Service.completeVideoGeneration falId free (strangeWorld 6000)).
Proof.
  split.
  - intros H.
    destruct (H (Service.videoReady
                   (Service.pollinationsVideoUrl (lit "sunset") sunsetJob))
                (snd (Service.getVideoJobStatus sunsetId
                        (sunsetWorld 6000 [ok200]))))
      as (r & w2 & H1 & _ & _ & _ & r' & w3 & H2 & _ & Herr).
    + vm_compute. reflexivity.
    + reflexivity.
    + vm_compute in H1. injection H1 as <- <-.
      vm_compute in H2. injection H2 as <- _.
      discriminate Herr.
  - vm_compute. reflexivity.
Qed.

(** C5, amended. In the service, when the poll reports completed, finalize
    succeeds, returns the locators of that poll and removes the record; a
    finalize on the id afterwards fails with "Job not completed. Status:
    failed".  In the server handler, finalize on a record whose status is
    completed answers 200 with the fields of the record and deletes it; a
    second call answers 404 "Job not found". *)
Theorem finalize_claims_once :
  (forall jobId tier w s w1,
     Service.getVideoJobStatus jobId w = (Normal s, w1) ->
     Service.status s = lit "completed" ->
     let w2 := setLocalStorage
                 (delete (Service.storageKey jobId) (localStorage w1)) w1 in
     Service.completeVideoGeneration jobId tier w
     = (Normal {| Service.success := true;
                  Service.gr_videoUrl := Service.videoUrl s;
                  Service.gr_thumbnail := Service.thumbnail s;
                  Service.gr_error := None;
                  Service.gr_tier := Some tier;
                  Service.gr_hasAdCard :=
                    Some (match tier with free => true | _ => false end);
                  Service.gr_jobId := Some jobId |}, w2)
     /\ localStorage w2 = delete (Service.storageKey jobId) (localStorage w)
     /\ forall tier',
          Service.completeVideoGeneration jobId tier' w2
          = (Normal (Service.failure
                       (lit "Job not completed. Status: failed")), w2))
  /\
  (forall jobId job w,
     jobId <> [] ->
     jobStore w !! jobId = Some job ->
     sj_status job = lit "completed" ->
     let w2 := setJobStore (delete jobId (jobStore w)) w in
     (exists d,
        Api.completeVideoJob (Some jobId) w
        = (Normal {| Api.code := 200; Api.body := Api.CompleteBody d |}, w2)
        /\ Api.success d = true
        /\ Api.cd_jobId d = sj_id job
        /\ Api.cd_prompt d = sj_prompt job
        /\ Api.cd_aspectRatio d = sj_aspectRatio job
        /\ Api.cd_duration d = sj_duration job
        /\ Api.cd_tier d = sj_tier job
        /\ Api.cd_provider d = sj_provider job)
     /\ Api.completeVideoJob (Some jobId) w2 = (Normal notFound404, w2)).
Proof.
  split.
  - intros jobId tier w s w1 Hpoll Hst w2.
    assert (Hstore : localStorage w1 = localStorage w).
    { pose proof (frames_getVideoJobStatus jobId w) as Hs.
      rewrite Hpoll in Hs. apply Hs. }
    split; [|split].
    + rewrite (finalize_of_poll _ _ _ _ _ Hpoll).
      now rewrite bool_decide_eq_true_2.
    + unfold w2. simpl. now rewrite Hstore.
    + intros tier'. apply finalize_unknown.
      unfold w2. simpl. apply lookup_delete_eq.
  - intros jobId job w Hne Hjob Hst w2.
    destruct jobId as [|c s]; [congruence|].
    split.
    + eexists.
      cbv beta iota zeta delta
        [Api.completeVideoJob bind Api.jobStore_get Api.jobStore_delete ret].
      rewrite Hjob, bool_decide_eq_true_2 by exact Hst.
      simpl. repeat split; reflexivity.
    + cbv beta iota zeta delta [Api.completeVideoJob bind Api.jobStore_get].
      unfold w2. cbn [jobStore setJobStore]. now rewrite lookup_delete_eq.
Qed.

Lemma finalize_claims_once_witness :
  (exists w2,
     Service.completeVideoGeneration sunsetId free (sunsetWorld 6000 [ok200])
     = (Normal {| Service.success := true;
                  Service.gr_videoUrl :=
                    Some (Service.pollinationsVideoUrl (lit "sunset") sunsetJob);
                  Service.gr_thumbnail :=
                    Some (Service.pollinationsVideoUrl (lit "sunset") sunsetJob);
                  Service.gr_error := None;
                  Service.gr_tier := Some free;
                  Service.gr_hasAdCard := Some true;
                  Service.gr_jobId := Some sunsetId |}, w2)
     /\ localStorage w2 !! Service.storageKey sunsetId = None
     /\ Service.completeVideoGeneration sunsetId free w2
        = (Normal (Service.failure (lit "Job not completed. Status: failed")),
           w2))
  /\ exists w2,
       fst (Api.completeVideoJob (Some falId)
              (serverWorld (lit "fal") (lit "completed") 40000 []))
       = Normal
           {| Api.code := 200;
              Api.body :=
                Api.CompleteBody
                  {| Api.success := true; Api.cd_videoUrl := None;
                     Api.cd_thumbnail := None; Api.cd_jobId := falId;
                     Api.cd_prompt := lit "sunset";
                     Api.cd_aspectRatio := lit "16:9";
                     Api.cd_duration := 15; Api.cd_tier := lit "pro";
                     Api.cd_provider := lit "fal" |} |}
       /\ Api.completeVideoJob (Some falId) w2 = (Normal notFound404, w2).
Proof.
  destruct finalize_claims_once as [Hs Ha].
  split.
  - destruct (Hs sunsetId free (sunsetWorld 6000 [ok200])
                (Service.videoReady
                   (Service.pollinationsVideoUrl (lit "sunset") sunsetJob))
                (snd (Service.getVideoJobStatus sunsetId
                        (sunsetWorld 6000 [ok200]))))
      as (H1 & H2 & H3).
    + vm_compute. reflexivity.
    + reflexivity.
    + eexists. split; [exact H1|]. split; [|apply H3].
      rewrite H2. apply lookup_delete_eq.
  - destruct (Ha falId (serverJob (lit "fal") (lit "completed"))
                (serverWorld (lit "fal") (lit "completed") 40000 []))
      as ((d & H1 & _) & H2).
    + discriminate.
    + vm_compute. reflexivity.
    + reflexivity.
    + eexists. split; [|exact H2]. vm_compute. reflexivity.
Defined.

(** ** Creation: routing and the stored duration *)

Lemma createImageSequenceJob_spec config w :
  exists jobId w',
    Service.createImageSequenceJob config w
    = (Normal {| Service.cr_jobId := jobId;
                 Service.cr_status := lit "queued";
                 Service.cr_error := None;
                 Service.cr_isImageSequence := Some true |}, w')
    /\ localStorage w'
       = <[Service.storageKey jobId :=
             Parsed {| j_id := jobId; j_falJobId := None;
                       j_provider := lit "image";
                       j_prompt := cfg_prompt config;
                       j_aspectRatio := cfg_aspectRatio config;
                       j_duration := Z.min (cfg_duration config) 16;
                       j_status := lit "queued"; j_createdAt := now w;
                       j_isImageSequence := true |}]> (localStorage w)
    /\ trace w' = trace w.
Proof.
  unfold Service.createImageSequenceJob, bind, Date_now, randomSuffix,
    localStorage_setItem, ret.
  destruct (entropy w) as [|r rest];
    eexists; eexists; (split; [reflexivity|]); split; reflexivity.
Qed.

Lemma createVideoJob_synthetic config tier w :
  tier = free \/ Service.usableKey (Service.getApiKey w (lit "fal")) = false ->
  Service.createVideoJob config tier w
  = Service.createImageSequenceJob config w.
Proof.
  intros H.
  destruct (createImageSequenceJob_spec config w) as (jobId & w' & Hc & _).
  unfold Service.createVideoJob, tryCatch, Service.createVideoJob_body.
  destruct H as [-> | H].
  - now rewrite Hc.
  - destruct tier; [now rewrite Hc| |];
      unfold bind at 1, Service.readApiKey; rewrite H; cbn [negb];
      now rewrite Hc.
Qed.

Lemma routingMode_image job :
  j_isImageSequence job = true -> routingMode job = Synthetic.
Proof. intros H. unfold routingMode. now rewrite H. Qed.

Lemma routingMode_fal job :
  j_isImageSequence job = false -> j_provider job = lit "fal" ->
  routingMode job = Provider.
Proof. intros H1 H2. unfold routingMode. now rewrite H1, H2. Qed.

Lemma createVideoJob_provider config tier w :
  tier <> free ->
  Service.usableKey (Service.getApiKey w (lit "fal")) = true ->
  exists r w',
    Service.createVideoJob config tier w = (Normal r, w')
    /\ trace w'
       = trace w
         ++ [EvFetch (Service.falSubmitRequest
                        (Service.getApiKey w (lit "fal")) config tier)]
    /\ match accepted (network w) with
       | Some d =>
           Service.cr_status r = lit "queued"
           /\ Service.cr_error r = None
           /\ Service.cr_isImageSequence r = None
           /\ localStorage w'
              = <[Service.storageKey (Service.cr_jobId r) :=
                    Parsed
                      {| j_id := Service.cr_jobId r;
                         j_falJobId :=
                           Some (orElse (request_id d)
                                   (orElse (job_id d) (Service.cr_jobId r)));
                         j_provider := lit "fal";
                         j_prompt := cfg_prompt config;
                         j_aspectRatio := cfg_aspectRatio config;
                         j_duration :=
                           Z.min (cfg_duration config)
                                 (match tier with pro => 30 | _ => 15 end);
                         j_status := lit "queued"; j_createdAt := now w;
                         j_isImageSequence := false |}]> (localStorage w)
       | None =>
           Service.cr_jobId r = []
           /\ Service.cr_status r = lit "failed"
           /\ is_Some (Service.cr_error r)
           /\ localStorage w' = localStorage w
       end.
Proof.
  intros Hfree Hkey.
  assert (Hbody : Service.createVideoJob_body config tier w
    = bind (Service.readApiKey (lit "fal")) (fun apiKey =>
        t <- Date_now ;;
        r <- randomSuffix ;;
        let jobId := lit "job_" ++ numberToString t ++ lit "_" ++ r in
        response <- fetch (Service.falSubmitRequest apiKey config tier) ;;
        if negb (resp_ok response) then
          throw (Error (lit "FAL API error: "
                        ++ numberToString (resp_status response)))
        else
          data <- json response ;;
          c <- Date_now ;;
          localStorage_setItem (Service.storageKey jobId)
            (Parsed {| j_id := jobId;
               j_falJobId :=
                 Some (orElse (request_id data) (orElse (job_id data) jobId));
               j_provider := lit "fal";
               j_prompt := cfg_prompt config;
               j_aspectRatio := cfg_aspectRatio config;
               j_duration :=
                 Z.min (cfg_duration config)
                       (match tier with pro => 30 | _ => 15 end);
               j_status := lit "queued"; j_createdAt := c;
               j_isImageSequence := false |}) ;;;
          ret {| Service.cr_jobId := jobId; Service.cr_status := lit "queued";
                 Service.cr_error := None;
                 Service.cr_isImageSequence := None |}) w).
  { unfold Service.createVideoJob_body.
    destruct tier; [congruence| |];
      unfold bind at 1 3, Service.readApiKey; rewrite Hkey; reflexivity. }
  unfold Service.createVideoJob, tryCatch. rewrite Hbody. clear Hbody.
  unfold bind, Service.readApiKey, Date_now, randomSuffix, fetch, json,
    localStorage_setItem, ret, throw, accepted, resp_ok.
  destruct (entropy w) as [|sfx rest]; simpl;
    destruct (network w) as [|[e|st [e|d]] net]; simpl;
    try (eexists; eexists; split; [reflexivity|]; simpl; eauto 10; fail).
  all: destruct ((200 <=? st) && (st <=? 299)); simpl;
    eexists; eexists; (split; [reflexivity|]); simpl; eauto 10.
Qed.

Lemma credential_usable w :
  credentialConfigured w
  = Service.usableKey (Service.getApiKey w (lit "fal")).
Proof.
  unfold credentialConfigured, Service.getApiKey.
  rewrite bool_decide_eq_true_2 by reflexivity.
  destruct (FAL_API_KEY w) as [[|c k]|]; reflexivity.
Qed.

Lemma credential_key w key :
  FAL_API_KEY w = Some key -> credentialConfigured w = true ->
  Service.getApiKey w (lit "fal") = key.
Proof.
  unfold credentialConfigured, Service.getApiKey. intros -> H.
  rewrite bool_decide_eq_true_2 by reflexivity.
  destruct key; [discriminate H | reflexivity].
Qed.

(** C7, the claim at a provider that refuses.  A pro request with a real
    key whose submission the provider answers with 500: creation returns
    failed with the empty id and stores no job, so no job is routed to
    the provider. *)
Lemma routing_policy_counterexample :
  ~ routing_policy (sunsetConfig 10) pro refusingWorld.
Proof.
  intros (r & w' & job & Hc & Hs & _).
  vm_compute in Hc. injection Hc as <- <-.
  vm_compute in Hs. discriminate Hs.
Qed.

(** C7. The routing decided at creation.  The code's test for a usable
    credential is that the fal key of the environment is set, not empty
    and not a demo key.  For the free tier, or without such a key,
    [createVideoJob] succeeds with a queued image-sequence job, stores a
    record that the poll routes to the synthetic path, with no provider
    reference, and sends nothing.  Otherwise it sends one POST to the fal
    endpoint carrying the key, the prompt, the duration clamped to the
    tier's maximum, the resolution and the aspect ratio; when the provider
    accepts, creation succeeds and the stored record is routed to the
    provider and holds the reference the provider returned; when the
    provider does not accept, creation reports failed with the empty id
    and stores nothing. *)
Theorem createVideoJob_routing (config : VideoConfig) (tier : UserTier)
    (w : World) :
  credentialConfigured w
  = Service.usableKey (Service.getApiKey w (lit "fal"))
  /\
  (tier = free \/ credentialConfigured w = false ->
   exists jobId job w',
     Service.createVideoJob config tier w
     = (Normal {| Service.cr_jobId := jobId;
                  Service.cr_status := lit "queued";
                  Service.cr_error := None;
                  Service.cr_isImageSequence := Some true |}, w')
     /\ localStorage w'
        = <[Service.storageKey jobId := Parsed job]> (localStorage w)
     /\ routingMode job = Synthetic
     /\ j_falJobId job = None
     /\ trace w' = trace w)
  /\
  (tier <> free ->
   forall key,
     FAL_API_KEY w = Some key -> credentialConfigured w = true ->
     exists r w',
       Service.createVideoJob config tier w = (Normal r, w')
       /\ trace w'
          = trace w
            ++ [EvFetch
                  {| rq_method := POST;
                     rq_url :=
                       lit "https://fal.run/fal-ai/kling-video/v2.5-turbo/text-to-video";
                     rq_authorization := Some (lit "Key " ++ key);
                     rq_body :=
                       Some {| sb_model := None;
                               sb_prompt := cfg_prompt config;
                               sb_duration :=
                                 Z.min (cfg_duration config)
                                   (match tier with pro => 30 | _ => 15 end);
                               sb_resolution := lit "1080p";
                               sb_aspect_ratio :=
                                 match cfg_aspectRatio config with
                                 | R9_16 => lit "9:16"
                                 | R16_9 => lit "16:9"
                                 | R1_1 => lit "1:1"
                                 end |} |}]
       /\ (forall d,
             accepted (network w) = Some d ->
             exists job,
               Service.cr_status r = lit "queued"
               /\ Service.cr_error r = None
               /\ localStorage w'
                  = <[Service.storageKey (Service.cr_jobId r) := Parsed job]>
                      (localStorage w)
               /\ routingMode job = Provider
               /\ j_falJobId job
                  = Some (orElse (request_id d)
                            (orElse (job_id d) (Service.cr_jobId r))))
       /\ (accepted (network w) = None ->
           Service.cr_status r = lit "failed"
           /\ Service.cr_jobId r = []
           /\ localStorage w' = localStorage w)).
Proof.
  split; [apply credential_usable|]. split.
  - intros H. rewrite credential_usable in H.
    rewrite (createVideoJob_synthetic config tier w H).
    destruct (createImageSequenceJob_spec config w)
      as (jobId & w' & Hc & Hs & Ht).
    exists jobId. eexists. exists w'.
    split; [exact Hc|]. split; [exact Hs|].
    split; [|split]; [apply routingMode_image| |]; auto.
  - intros Hfree key Hk Hcc.
    pose proof Hcc as Hkey. rewrite credential_usable in Hkey.
    destruct (createVideoJob_provider config tier w Hfree Hkey)
      as (r & w' & Hc & Ht & Hcase).
    rewrite (credential_key w key Hk Hcc) in Ht.
    exists r, w'. split; [exact Hc|]. split.
    { rewrite Ht. unfold Service.falSubmitRequest.
      destruct (cfg_aspectRatio config); reflexivity. }
    destruct (accepted (network w)) as [d|].
    + split; [|discriminate].
      intros d' [= <-]. destruct Hcase as (Hq & He & _ & Hs).
      eexists. split; [exact Hq|]. split; [exact He|]. split; [exact Hs|].
      split; [apply routingMode_fal|]; reflexivity.
    + split; [discriminate|]. intros _.
      destruct Hcase as (Hid & Hst & _ & Hl). auto.
Qed.

Lemma createVideoJob_routing_witness :
  (exists jobId job w',
     Service.createVideoJob (sunsetConfig 10) pro (quietWorld 0)
     = (Normal {| Service.cr_jobId := jobId;
                  Service.cr_status := lit "queued";
                  Service.cr_error := None;
                  Service.cr_isImageSequence := Some true |}, w')
     /\ localStorage w'
        = <[Service.storageKey jobId := Parsed job]>
            (localStorage (quietWorld 0))
     /\ routingMode job = Synthetic
     /\ j_falJobId job = None
     /\ trace w' = trace (quietWorld 0))
  /\ (exists r w' job,
        Service.createVideoJob (sunsetConfig 10) pro
          (liveWorld 0 [acceptedAs9])
        = (Normal r, w')
        /\ Service.cr_status r = lit "queued"
        /\ localStorage w'
           = <[Service.storageKey (Service.cr_jobId r) := Parsed job]>
               (localStorage (liveWorld 0 [acceptedAs9]))
        /\ routingMode job = Provider
        /\ j_falJobId job = Some (lit "req-9"))
  /\ exists r w',
       Service.createVideoJob (sunsetConfig 10) pro refusingWorld
       = (Normal r, w')
       /\ Service.cr_status r = lit "failed"
       /\ Service.cr_jobId r = []
       /\ localStorage w' = localStorage refusingWorld.
Proof.
  split; [|split].
  - apply (proj1 (proj2 (createVideoJob_routing (sunsetConfig 10) pro
                           (quietWorld 0)))).
    right. vm_compute. reflexivity.
  - destruct (proj2 (proj2 (createVideoJob_routing (sunsetConfig 10) pro
                              (liveWorld 0 [acceptedAs9])))
                ltac:(discriminate) (lit "live-key") eq_refl eq_refl)
      as (r & w' & Hc & _ & Hacc & _).
    destruct (Hacc _ eq_refl) as (job & Hq & _ & Hs & Hr & Hf).
    exists r, w', job. repeat split; assumption.
  - destruct (proj2 (proj2 (createVideoJob_routing (sunsetConfig 10) pro
                              refusingWorld))
                ltac:(discriminate) (lit "live-key") eq_refl eq_refl)
      as (r & w' & Hc & _ & _ & Hrej).
    exists r, w'. split; [exact Hc|]. apply Hrej. reflexivity.
Defined.

(** C8, the claim at a free request of 12 seconds: the stored duration is
    12, above the maximum of 10 that the tier table gives the free tier. *)
Lemma duration_clamped_to_tier_counterexample :
  ~ duration_clamped_to_tier (sunsetConfig 12) free (quietWorld 0).
Proof.
  intros H.
  specialize (H _ _
    {| j_id := lit "img_0_"; j_falJobId := None; j_provider := lit "image";
       j_prompt := lit "sunset"; j_aspectRatio := R9_16; j_duration := 12;
       j_status := lit "queued"; j_createdAt := 0;
       j_isImageSequence := true |} eq_refl).
  vm_compute in H. specialize (H eq_refl). discriminate H.
Qed.

(** C8, amended. The duration stored in a created job is the requested
    duration clamped to 16 for a job routed to the synthetic path (free
    tier, or no usable key), and clamped to the maximum that the tier table
    gives the tier (15 for basic, 30 for pro) for a job routed to the
    provider; for the latter the same value is the duration of the
    submission sent to the provider. *)
Theorem stored_duration (config : VideoConfig) (tier : UserTier)
    (w : World) (r : Service.CreateResult) (w' : World) :
  Service.createVideoJob config tier w = (Normal r, w') ->
  Service.cr_status r = lit "queued" ->
  exists job,
    localStorage w' !! Service.storageKey (Service.cr_jobId r)
    = Some (Parsed job)
    /\ j_duration job
       = Z.min (cfg_duration config)
               (match routingMode job with
                | Synthetic => 16
                | Provider => maxLength (PRICING tier)
                end)
    /\ (routingMode job = Provider ->
        exists rq b,
          last (trace w') = Some (EvFetch rq)
          /\ rq_body rq = Some b
          /\ sb_duration b = j_duration job).
Proof.
  intros Hc Hq.
  assert (Hcase : tier = free
                  \/ Service.usableKey (Service.getApiKey w (lit "fal")) = false
                  \/ (tier <> free
                      /\ Service.usableKey (Service.getApiKey w (lit "fal"))
                         = true)).
  { destruct tier; auto;
      destruct (Service.usableKey (Service.getApiKey w (lit "fal")));
      auto; right; right; split; auto; discriminate. }
  destruct Hcase as [Hs | [Hs | [Hfree Hkey]]].
  1, 2: rewrite (createVideoJob_synthetic config tier w) in Hc by auto;
    destruct (createImageSequenceJob_spec config w)
      as (jobId & w1 & Hc1 & Hs1 & _);
    rewrite Hc1 in Hc; injection Hc as <- <-;
    eexists; (split; [simpl; rewrite Hs1; apply lookup_insert_eq|]);
    (split; [reflexivity|]); simpl; discriminate.
  destruct (createVideoJob_provider config tier w Hfree Hkey)
    as (r1 & w1 & Hc1 & Ht & Hcase).
  rewrite Hc1 in Hc. injection Hc as <- <-.
  destruct (accepted (network w)) as [d|].
  - destruct Hcase as (_ & _ & _ & Hs1).
    eexists. split; [rewrite Hs1; apply lookup_insert_eq|].
    split; [destruct tier; [congruence|reflexivity|reflexivity]|]. intros _.
    eexists. eexists. split; [rewrite Ht; apply last_snoc|].
    split; reflexivity.
  - destruct Hcase as (_ & Hf & _). rewrite Hf in Hq. discriminate Hq.
Qed.

Lemma stored_duration_witness :
  exists job,
    localStorage (snd proCreation)
      !! Service.storageKey (lit "job_0_")
    = Some (Parsed job)
    /\ j_duration job = 30
    /\ exists rq b,
         last (trace (snd proCreation)) = Some (EvFetch rq)
         /\ rq_body rq = Some b
         /\ sb_duration b = j_duration job.
Proof.
  destruct (stored_duration (sunsetConfig 40) pro (liveWorld 0 [acceptedAs9])
              (valueOf (Service.createVideoJob_failure networkError)
                       (fst proCreation))
              (snd proCreation))
    as (job & Hl & Hd & Hp).
  - vm_compute. reflexivity.
  - vm_compute. reflexivity.
  - assert (Hr : routingMode job = Provider).
    { vm_compute in Hl. injection Hl as <-. reflexivity. }
    exists job. split; [exact Hl|]. split.
    + rewrite Hd, Hr. reflexivity.
    + apply Hp, Hr.
Defined.


(** ** The poll of the service, path by path *)

Lemma failedProbes_le net n : (failedProbes net n <= n)%nat.
Proof.
  revert net. induction n as [|n IH]; intros net; simpl; [lia|].
  destruct net as [|o rest]; [specialize (IH []); lia|].
  destruct (probeOk o); [lia|]. specialize (IH rest). lia.
Qed.

(** One round of the availability loop. *)
Lemma availabilityLoop_round url n w :
  Service.availabilityLoop url (S n) w
  = match network w with
    | o :: rest =>
        if probeOk o then
          (Normal (Some (Service.videoReady url)),
           record (EvFetch (Service.headRequest url)) (setNetwork rest w))
        else
          Service.availabilityLoop url n
            (record (EvSleep 5000)
               (setNow (now w + 5000)
                  (record (EvFetch (Service.headRequest url))
                     (setNetwork rest w))))
    | [] =>
        Service.availabilityLoop url n
          (record (EvSleep 5000)
             (setNow (now w + 5000)
                (record (EvFetch (Service.headRequest url))
                   (setNetwork [] w))))
    end.
Proof.
  cbn [Service.availabilityLoop].
  unfold bind at 1, tryCatch, bind at 1, fetch.
  destruct (network w) as [|[e|st b] rest]; simpl; try reflexivity.
  unfold resp_ok. simpl.
  destruct ((200 <=? st) && (st <=? 299)); reflexivity.
Qed.

Lemma availabilityLoop_spec url n : forall w,
  exists w',
    Service.availabilityLoop url n w
    = (Normal (if reachable (network w) n
               then Some (Service.videoReady url) else None), w')
    /\ waited (trace w')
       = waited (trace w) + 5000 * Z.of_nat (failedProbes (network w) n).
Proof.
  induction n as [|n IH]; intros w.
  - exists w. split; [reflexivity|]. simpl. lia.
  - rewrite availabilityLoop_round.
    destruct (network w) as [|o rest] eqn:Hnet.
    + destruct (IH (record (EvSleep 5000)
                      (setNow (now w + 5000)
                         (record (EvFetch (Service.headRequest url))
                            (setNetwork [] w))))) as (w' & Hl & Hw).
      exists w'. split.
      * rewrite Hl. reflexivity.
      * rewrite Hw. cbn [trace record setNow setNetwork network failedProbes].
        rewrite !waited_app. simpl waited. lia.
    + destruct (probeOk o) eqn:Hok.
      * eexists. split.
        -- unfold reachable. cbn [failedProbes]. rewrite Hok. reflexivity.
        -- cbn [trace record setNetwork failedProbes]. rewrite Hok.
           rewrite waited_app. simpl. lia.
      * destruct (IH (record (EvSleep 5000)
                        (setNow (now w + 5000)
                           (record (EvFetch (Service.headRequest url))
                              (setNetwork rest w))))) as (w' & Hl & Hw).
        exists w'. split.
        -- rewrite Hl. unfold reachable. cbn [failedProbes network record
             setNow setNetwork]. rewrite Hok. reflexivity.
        -- rewrite Hw.
           cbn [trace record setNow setNetwork network failedProbes].
           rewrite Hok, !waited_app. simpl waited. lia.
Qed.

(** The image-sequence path, case by case. *)
Lemma imageSequenceStatus_early job w :
  now w - j_createdAt job < 5000 ->
  Service.imageSequenceStatus job w
  = (Normal (Service.onlyStatus (lit "processing")), w).
Proof.
  intros H. unfold Service.imageSequenceStatus, bind, Date_now.
  destruct (Z.ltb_spec (now w - j_createdAt job) 5000); [reflexivity|lia].
Qed.

Lemma imageSequenceStatus_malformed job w :
  5000 <= now w - j_createdAt job ->
  encodeURIComponent (j_prompt job) = None ->
  Service.imageSequenceStatus job w = (Throw URIError, w).
Proof.
  intros H He. unfold Service.imageSequenceStatus, bind, Date_now.
  destruct (Z.ltb_spec (now w - j_createdAt job) 5000); [lia|].
  unfold encodeURIComponentM. rewrite He. reflexivity.
Qed.

Lemma imageSequenceStatus_late job w enc :
  5000 <= now w - j_createdAt job ->
  encodeURIComponent (j_prompt job) = Some enc ->
  exists w',
    Service.imageSequenceStatus job w
    = (Normal (if reachable (network w) 40
               then Service.videoReady (Service.pollinationsVideoUrl enc job)
               else Service.imageInstead
                      (Service.pollinationsImageUrl enc job)), w')
    /\ waited (trace w')
       = waited (trace w) + 5000 * Z.of_nat (failedProbes (network w) 40).
Proof.
  intros H He. unfold Service.imageSequenceStatus, bind at 1, Date_now.
  destruct (Z.ltb_spec (now w - j_createdAt job) 5000); [lia|].
  unfold bind at 1, encodeURIComponentM at 1. rewrite He. unfold ret at 1.
  destruct (availabilityLoop_spec
              (Service.pollinationsVideoUrl enc job) 40 w) as (w' & Hl & Hw).
  exists w'. split; [|exact Hw].
  unfold bind at 1. rewrite Hl.
  destruct (reachable (network w) 40); [reflexivity|].
  unfold bind, encodeURIComponentM. rewrite He. reflexivity.
Qed.

(** The dispatch of the poll on a stored record. *)
Lemma poll_body_parsed jobId job w :
  localStorage w !! Service.storageKey jobId = Some (Parsed job) ->
  Service.getVideoJobStatus_body jobId w
  = match routingMode job with
    | Synthetic => Service.imageSequenceStatus job w
    | Provider =>
        if bool_decide (j_provider job = lit "fal") then
          bind (if Service.usableKey (Service.getApiKey w (j_provider job))
                then Service.falRealStatus
                       (Service.getApiKey w (j_provider job)) job
                else ret None)
               (fun real =>
                  match real with
                  | Some result => ret result
                  | None => Service.falSimulatedStatus jobId job
                  end) w
        else (Normal (Service.failedWith (lit "Unknown provider")), w)
    end.
Proof.
  intros H.
  unfold Service.getVideoJobStatus_body, bind at 1, localStorage_getItem.
  rewrite H. unfold bind at 1, JSON_parse, ret at 1. unfold routingMode.
  destruct (j_isImageSequence job || bool_decide (j_provider job = lit "image"));
    [reflexivity|].
  unfold bind at 1, Service.readApiKey.
  destruct (bool_decide (j_provider job = lit "fal")); reflexivity.
Qed.

(** ** The synthetic path *)

Lemma poll_synthetic jobId job w :
  localStorage w !! Service.storageKey jobId = Some (Parsed job) ->
  routingMode job = Synthetic ->
  Service.getVideoJobStatus jobId w
  = tryCatch (Service.imageSequenceStatus job)
      (fun e => ret (Service.failedWith
                       (orElse (Some (message e))
                               (lit "Failed to check job status")))) w.
Proof.
  intros H Hr. unfold Service.getVideoJobStatus, tryCatch.
  rewrite (poll_body_parsed jobId job w H), Hr. reflexivity.
Qed.

(** C3, the claim at two jobs past the threshold.  The sunset job, with a
    network that answers one probe and then falls silent: the first poll
    returns the video locator, the poll that follows returns the image
    locator with a time-out note.  A job whose prompt ends in a lone
    surrogate: the poll returns failed, not completed. *)
Lemma synthetic_poll_contract_counterexample :
  ~ synthetic_poll_contract sunsetId sunsetJob (sunsetWorld 6000 [ok200])
  /\ ~ synthetic_poll_contract sunsetId loneJob (loneWorld 6000 [ok200]).
Proof.
  split.
  - intros [_ H]. destruct H as (r & w' & Hp & _ & _ & Hsame).
    + vm_compute. discriminate.
    + vm_compute in Hp. injection Hp as <- <-.
      specialize (Hsame
        (Service.imageInstead
           (Service.pollinationsImageUrl (lit "sunset") sunsetJob))
        (snd (Service.getVideoJobStatus sunsetId
                (snd (Service.getVideoJobStatus sunsetId
                        (sunsetWorld 6000 [ok200])))))).
      vm_compute in Hsame. specialize (Hsame eq_refl). discriminate Hsame.
  - intros [_ H]. destruct H as (r & w' & Hp & Hst & _).
    + vm_compute. discriminate.
    + vm_compute in Hp. injection Hp as <- _. discriminate Hst.
Qed.

(** C3, amended. For a job routed to the synthetic path: a poll less than
    5000 ms after creation returns processing and changes nothing; a poll
    from 5000 ms on, for a prompt that [encodeURIComponent] accepts,
    returns completed with a non-empty locator built from the encoded
    prompt and the dimensions mapped from the aspect ratio, namely the
    video locator (which also carries the clamped duration) when one of
    the at most 40 probes of that locator answers ok, and the image
    locator otherwise; two such polls return the same result whenever
    their probes agree on whether the locator is reachable. *)
Theorem synthetic_poll (jobId : jsstring) (job : Job) (w : World) :
  localStorage w !! Service.storageKey jobId = Some (Parsed job) ->
  routingMode job = Synthetic ->
  (now w - j_createdAt job < 5000 ->
   Service.getVideoJobStatus jobId w
   = (Normal (Service.onlyStatus (lit "processing")), w))
  /\
  (5000 <= now w - j_createdAt job ->
   forall enc, encodeURIComponent (j_prompt job) = Some enc ->
     (exists r w',
        Service.getVideoJobStatus jobId w = (Normal r, w')
        /\ r = (if reachable (network w) 40
                then Service.videoReady (Service.pollinationsVideoUrl enc job)
                else Service.imageInstead
                       (Service.pollinationsImageUrl enc job))
        /\ Service.status r = lit "completed"
        /\ exists u rest,
             Service.videoUrl r = Some u
             /\ u <> []
             /\ u = lit "https://image.pollinations.ai/prompt/" ++ enc
                    ++ lit "?width="
                    ++ numberToString (Service.width (j_aspectRatio job))
                    ++ lit "&height="
                    ++ numberToString (Service.height (j_aspectRatio job))
                    ++ rest)
     /\ forall w2,
          localStorage w2 !! Service.storageKey jobId = Some (Parsed job) ->
          5000 <= now w2 - j_createdAt job ->
          reachable (network w2) 40 = reachable (network w) 40 ->
          fst (Service.getVideoJobStatus jobId w2)
          = fst (Service.getVideoJobStatus jobId w)).
Proof.
  intros Hjob Hr. split.
  - intros Hearly. rewrite (poll_synthetic jobId job w Hjob Hr).
    unfold tryCatch. now rewrite imageSequenceStatus_early.
  - intros Hlate enc Henc.
    assert (Hpoll : forall v,
      localStorage v !! Service.storageKey jobId = Some (Parsed job) ->
      5000 <= now v - j_createdAt job ->
      exists v',
        Service.getVideoJobStatus jobId v
        = (Normal (if reachable (network v) 40
                   then Service.videoReady
                          (Service.pollinationsVideoUrl enc job)
                   else Service.imageInstead
                          (Service.pollinationsImageUrl enc job)), v')).
    { intros v Hv Hl. rewrite (poll_synthetic jobId job v Hv Hr).
      destruct (imageSequenceStatus_late job v enc Hl Henc) as (v' & Hi & _).
      exists v'. unfold tryCatch. now rewrite Hi. }
    split.
    + destruct (Hpoll w Hjob Hlate) as (w' & Hp).
      eexists. exists w'. split; [exact Hp|]. split; [reflexivity|].
      destruct (reachable (network w) 40).
      * split; [reflexivity|]. eexists. eexists.
        split; [reflexivity|]. split; [discriminate|].
        unfold Service.pollinationsVideoUrl. reflexivity.
      * split; [reflexivity|]. eexists. eexists.
        split; [reflexivity|]. split; [discriminate|].
        unfold Service.pollinationsImageUrl. reflexivity.
    + intros w2 Hjob2 Hlate2 Hsame.
      destruct (Hpoll w Hjob Hlate) as (w' & ->).
      destruct (Hpoll w2 Hjob2 Hlate2) as (w2' & ->).
      simpl. now rewrite Hsame.
Qed.

Lemma synthetic_poll_witness :
  Service.getVideoJobStatus sunsetId (sunsetWorld 0 [])
  = (Normal (Service.onlyStatus (lit "processing")), sunsetWorld 0 [])
  /\ exists r w',
       Service.getVideoJobStatus sunsetId (sunsetWorld 5000 [ok200])
       = (Normal r, w')
       /\ Service.status r = lit "completed"
       /\ Service.videoUrl r
          = Some (lit "https://image.pollinations.ai/prompt/sunset?width=576&height=1024&duration=10&format=mp4&nologo=true").
Proof.
  split.
  - apply (proj1 (synthetic_poll sunsetId sunsetJob (sunsetWorld 0 [])
                    eq_refl eq_refl)).
    vm_compute. reflexivity.
  - destruct (proj2 (synthetic_poll sunsetId sunsetJob
                       (sunsetWorld 5000 [ok200]) eq_refl eq_refl))
      with (enc := lit "sunset") as ((r & w' & Hp & Hr & Hst & _) & _).
    + vm_compute. discriminate.
    + vm_compute. reflexivity.
    + exists r, w'. split; [exact Hp|]. split; [exact Hst|].
      rewrite Hr. vm_compute. reflexivity.
Defined.

(** ** Waiting inside a poll *)

Lemma sameWait_falRealStatus apiKey job :
  Keeps sameWait (Service.falRealStatus apiKey job).
Proof. unfold Service.falRealStatus. keeps. Qed.

Lemma sameWait_falSimulatedStatus jobId job :
  Keeps sameWait (Service.falSimulatedStatus jobId job).
Proof. unfold Service.falSimulatedStatus. keeps. Qed.

Lemma poll_provider_sameWait jobId job w :
  localStorage w !! Service.storageKey jobId = Some (Parsed job) ->
  routingMode job = Provider ->
  sameWait w (snd (Service.getVideoJobStatus jobId w)).
Proof.
  intros Hjob Hr. unfold Service.getVideoJobStatus, tryCatch.
  rewrite (poll_body_parsed jobId job w Hjob), Hr.
  destruct (bool_decide (j_provider job = lit "fal")); [|reflexivity].
  generalize (Service.getApiKey w (j_provider job)). intros k.
  assert (Hk : Keeps sameWait
    (bind (if Service.usableKey k then Service.falRealStatus k job
           else ret None)
          (fun real => match real with
                       | Some result => ret result
                       | None => Service.falSimulatedStatus jobId job
                       end))).
  { apply keeps_bind; [exact sameWait_trans| |intros [r|]].
    - destruct (Service.usableKey k);
        [apply sameWait_falRealStatus | apply keeps_ret, sameWait_refl].
    - apply keeps_ret, sameWait_refl.
    - apply sameWait_falSimulatedStatus. }
  specialize (Hk w).
  destruct (bind _ _ w) as [[a|e] w1]; exact Hk.
Qed.

(** C9, the claim at the sunset job past the threshold with a silent
    network: one poll sleeps forty times five seconds. *)
Lemma poll_never_waits_counterexample :
  ~ poll_never_waits sunsetId (sunsetWorld 6000 [])
  /\ waited (trace (snd (Service.getVideoJobStatus sunsetId
                           (sunsetWorld 6000 []))))
     = 200000.
Proof.
  split; [|vm_compute; reflexivity].
  unfold poll_never_waits. vm_compute. discriminate.
Qed.

(** C9, amended. A single poll of the service sleeps only in the
    availability loop of the synthetic path: when the record is an
    image-sequence job past its processing time (with a prompt that
    encodes), the poll sleeps 5000 ms after each probe that fails before
    the first probe that answers ok, at most 40 times; in every other case
    it does not sleep.  The caller-side loop [pollForJobCompletion] sleeps
    5000 ms after each poll that reports neither completed nor failed. *)
Theorem poll_waits (jobId : jsstring) (w : World) :
  waited (trace (snd (Service.getVideoJobStatus jobId w)))
  = waited (trace w)
    + (if probesAvailability jobId w
       then 5000 * Z.of_nat (failedProbes (network w) 40) else 0)
  /\ (failedProbes (network w) 40 <= 40)%nat
  /\ forall n s w1,
       Service.getVideoJobStatus jobId w = (Normal s, w1) ->
       Service.status s <> lit "completed" ->
       Service.status s <> lit "failed" ->
       pollForJobCompletion jobId (S n) w
       = pollForJobCompletion jobId n
           (record (EvSleep 5000) (setNow (now w1 + 5000) w1)).
Proof.
  split; [|split].
  - unfold probesAvailability.
    destruct (localStorage w !! Service.storageKey jobId) as [[e|job]|] eqn:Hjob.
    + unfold Service.getVideoJobStatus, tryCatch,
        Service.getVideoJobStatus_body, bind, localStorage_getItem.
      rewrite Hjob. simpl. lia.
    + destruct (routingMode job) eqn:Hr.
      * rewrite (poll_synthetic jobId job w Hjob Hr). unfold tryCatch.
        destruct (Z.leb_spec 5000 (now w - j_createdAt job)) as [Hl|Hl].
        -- destruct (encodeURIComponent (j_prompt job)) as [enc|] eqn:He.
           ++ destruct (imageSequenceStatus_late job w enc Hl He)
                as (w' & Hi & Hw).
              rewrite Hi. simpl snd. rewrite Hw.
              rewrite bool_decide_eq_true_2 by (now exists enc).
              reflexivity.
           ++ rewrite (imageSequenceStatus_malformed job w Hl He).
              rewrite bool_decide_eq_false_2 by (intros [x Hx]; discriminate).
              simpl. lia.
        -- rewrite (imageSequenceStatus_early job w) by lia. simpl. lia.
      * rewrite (poll_provider_sameWait jobId job w Hjob Hr). lia.
    + rewrite (poll_unknown jobId w Hjob). simpl. lia.
  - apply failedProbes_le.
  - intros n s w1 Hp Hc Hf. cbn [pollForJobCompletion].
    unfold bind at 1. rewrite Hp.
    rewrite !bool_decide_eq_false_2 by assumption.
    reflexivity.
Qed.

Lemma poll_waits_witness :
  waited (trace (snd (Service.getVideoJobStatus sunsetId
                        (sunsetWorld 6000 [Rejected networkError; ok200]))))
  = 5000
  /\ pollForJobCompletion sunsetId 2 (sunsetWorld 0 [])
     = pollForJobCompletion sunsetId 1
         (record (EvSleep 5000) (setNow 5000 (sunsetWorld 0 []))).
Proof.
  destruct (poll_waits sunsetId
              (sunsetWorld 6000 [Rejected networkError; ok200]))
    as (Hw & _ & _).
  destruct (poll_waits sunsetId (sunsetWorld 0 [])) as (_ & _ & Hloop).
  split.
  - rewrite Hw. vm_compute. reflexivity.
  - apply (Hloop 1%nat (Service.onlyStatus (lit "processing"))
             (sunsetWorld 0 [])).
    + vm_compute. reflexivity.
    + discriminate.
    + discriminate.
Defined.

(** ** The provider path *)

Lemma poll_fal jobId job w :
  localStorage w !! Service.storageKey jobId = Some (Parsed job) ->
  routingMode job = Provider ->
  j_provider job = lit "fal" ->
  Service.getVideoJobStatus jobId w
  = tryCatch
      (bind (if Service.usableKey (Service.getApiKey w (lit "fal"))
             then Service.falRealStatus (Service.getApiKey w (lit "fal")) job
             else ret None)
            (fun real =>
               match real with
               | Some result => ret result
               | None => Service.falSimulatedStatus jobId job
               end))
      (fun e => ret (Service.failedWith
                       (orElse (Some (message e))
                               (lit "Failed to check job status")))) w.
Proof.
  intros Hjob Hr Hp. unfold Service.getVideoJobStatus, tryCatch.
  rewrite (poll_body_parsed jobId job w Hjob), Hr, Hp.
  rewrite bool_decide_eq_true_2 by reflexivity. reflexivity.
Qed.

(** A failure that the provider reports in its answer is relayed. *)
Lemma reported_failure_relayed jobId job w st d net :
  localStorage w !! Service.storageKey jobId = Some (Parsed job) ->
  routingMode job = Provider ->
  j_provider job = lit "fal" ->
  Service.usableKey (Service.getApiKey w (lit "fal")) = true ->
  network w = Responded st (Obj d) :: net ->
  (200 <=? st) && (st <=? 299) = true ->
  data_status d = Some (lit "failed") ->
  exists w',
    Service.getVideoJobStatus jobId w
    = (Normal (Service.failedWith
                 (orElse (data_error d) (lit "Video generation failed"))), w').
Proof.
  intros Hjob Hr Hp Hkey Hnet Hok Hd.
  rewrite (poll_fal jobId job w Hjob Hr Hp), Hkey.
  unfold tryCatch, bind, Service.falRealStatus, tryCatch, bind, fetch.
  rewrite Hnet. unfold resp_ok. simpl. rewrite Hok. simpl.
  unfold Service.falSnapshot. rewrite Hd. simpl.
  eexists. reflexivity.
Qed.

(** C1, what the code does when the status check fails.  For a job routed
    to the fal provider with a real key configured, a poll 30 seconds or
    more after creation whose status call fails (the request is rejected,
    the answer is not ok, or its body is not JSON) sends that call and
    then returns completed with the placeholder sample video as the result
    locator. *)
Theorem failed_check_reported_completed (jobId : jsstring) (job : Job)
    (w : World) :
  localStorage w !! Service.storageKey jobId = Some (Parsed job) ->
  routingMode job = Provider ->
  j_provider job = lit "fal" ->
  Service.usableKey (Service.getApiKey w (lit "fal")) = true ->
  statusCheckFails (network w) = true ->
  30000 <= now w - j_createdAt job ->
  exists w',
    Service.getVideoJobStatus jobId w
    = (Normal {| Service.status := lit "completed";
                 Service.videoUrl := Some Service.sampleVideoUrl;
                 Service.thumbnail :=
                   Some (lit "https://picsum.photos/320/180?random=" ++ jobId);
                 Service.error := None;
                 Service.isImageSequence := None |}, w')
    /\ trace w'
       = trace w
         ++ [EvFetch (Service.falStatusRequest
                        (Service.getApiKey w (lit "fal")) job)].
Proof.
  intros Hjob Hr Hp Hkey Hfail Hlate.
  rewrite (poll_fal jobId job w Hjob Hr Hp), Hkey.
  unfold tryCatch, bind, Service.falRealStatus, tryCatch, bind, fetch,
    Service.falSimulatedStatus, bind, Date_now, json, throw, ret.
  unfold statusCheckFails in Hfail.
  destruct (network w) as [|[e|st [e|d]] net]; simpl;
    try (destruct (Z.ltb_spec (now w - j_createdAt job) 30000); [lia|];
         eexists; split; reflexivity).
  - unfold resp_ok. simpl.
    destruct ((200 <=? st) && (st <=? 299)); simpl;
      destruct (Z.ltb_spec (now w - j_createdAt job) 30000); try lia;
      eexists; split; reflexivity.
  - unfold resp_ok. simpl.
    destruct ((200 <=? st) && (st <=? 299)); [discriminate|]. simpl.
    destruct (Z.ltb_spec (now w - j_createdAt job) 30000); [lia|].
    eexists; split; reflexivity.
Qed.

Lemma failed_check_reported_completed_witness :
  exists w',
    Service.getVideoJobStatus falId
      (falWorld 30000 [Responded 500 (Obj noData)])
    = (Normal {| Service.status := lit "completed";
                 Service.videoUrl := Some Service.sampleVideoUrl;
                 Service.thumbnail :=
                   Some (lit "https://picsum.photos/320/180?random=job_0_abc123");
                 Service.error := None;
                 Service.isImageSequence := None |}, w')
    /\ trace w'
       = [EvFetch (Service.falStatusRequest (lit "live-key") falJob)].
Proof.
  apply (failed_check_reported_completed falId falJob
           (falWorld 30000 [Responded 500 (Obj noData)])).
  - vm_compute. reflexivity.
  - vm_compute. reflexivity.
  - reflexivity.
  - vm_compute. reflexivity.
  - vm_compute. reflexivity.
  - vm_compute. discriminate.
Defined.

(** ** The order of the observed statuses *)

Lemma forward_processing_processing : forward (lit "processing") (lit "processing").
Proof. unfold forward. vm_compute. split; [lia | discriminate]. Qed.

Lemma forward_processing_completed : forward (lit "processing") (lit "completed").
Proof. unfold forward. vm_compute. split; [lia | discriminate]. Qed.

Lemma forward_processing_failed : forward (lit "processing") (lit "failed").
Proof. unfold forward. vm_compute. split; [lia | discriminate]. Qed.

Lemma forward_completed_completed : forward (lit "completed") (lit "completed").
Proof. unfold forward. vm_compute. split; [lia | reflexivity]. Qed.

Lemma forward_failed_failed : forward (lit "failed") (lit "failed").
Proof. unfold forward. vm_compute. split; [lia | reflexivity]. Qed.

Create HintDb forward.
#[local] Hint Resolve forward_processing_processing
  forward_processing_completed forward_processing_failed
  forward_completed_completed forward_failed_failed : forward.

Lemma clockStatus_forward job t1 t2 :
  t1 <= t2 -> forward (clockStatus job t1) (clockStatus job t2).
Proof.
  intros H. unfold clockStatus.
  destruct (routingMode job).
  - destruct (Z.ltb_spec (t1 - j_createdAt job) 5000),
             (Z.ltb_spec (t2 - j_createdAt job) 5000);
      try lia; destruct (encodeURIComponent (j_prompt job));
      auto with forward.
  - destruct (bool_decide (j_provider job = lit "fal"));
      [|auto with forward].
    destruct (Z.ltb_spec (t1 - j_createdAt job) 30000),
             (Z.ltb_spec (t2 - j_createdAt job) 30000);
      try lia; auto with forward.
Qed.

Lemma apiClockStatus_forward c t1 t2 :
  t1 <= t2 -> forward (apiClockStatus c t1) (apiClockStatus c t2).
Proof.
  intros H. unfold apiClockStatus.
  destruct (Z.leb_spec 30000 (t1 - c)), (Z.leb_spec 30000 (t2 - c));
    try lia; auto with forward.
Qed.

Lemma ascendingFrom_weaken t t' ts :
  t' <= t -> ascendingFrom t ts -> ascendingFrom t' ts.
Proof. destruct ts as [|x rest]; simpl; [auto|]. intros H [H1 H2]. split; [lia|auto]. Qed.

Lemma ascendingFrom_lookup ts : forall t (i : nat) x,
  ascendingFrom t ts -> ts !! i = Some x -> t <= x.
Proof.
  induction ts as [|y rest IH]; intros t i x Ha Hi; [discriminate|].
  destruct Ha as [H1 H2]. destruct i as [|i]; simpl in Hi.
  - injection Hi as <-. exact H1.
  - specialize (IH y i x H2 Hi). lia.
Qed.

Lemma ascendingFrom_ordered ts : forall t (i j : nat) a b,
  ascendingFrom t ts -> (i <= j)%nat ->
  ts !! i = Some a -> ts !! j = Some b -> a <= b.
Proof.
  induction ts as [|y rest IH]; intros t i j a b Ha Hij Hi Hj; [discriminate|].
  destruct Ha as [H1 H2]. destruct i as [|i], j as [|j]; simpl in *;
    try lia.
  - injection Hi as <-. injection Hj as <-. lia.
  - injection Hi as <-. eapply ascendingFrom_lookup; eauto.
  - apply (IH y i j a b H2); [lia|assumption|assumption].
Qed.

(** Statuses read off a monotone function of ascending clock readings
    only move forward. *)
Lemma forwardAll_of_clock (f : Z -> jsstring) t ts :
  (forall t1 t2, t1 <= t2 -> forward (f t1) (f t2)) ->
  ascendingFrom t ts -> forwardAll (map f ts).
Proof.
  intros Hf Ha i j a b Hij Hi Hj.
  rewrite list_lookup_fmap in Hi, Hj.
  destruct (ts !! i) as [x|] eqn:Hx; [|discriminate].
  destruct (ts !! j) as [y|] eqn:Hy; [|discriminate].
  simpl in Hi, Hj. injection Hi as <-. injection Hj as <-.
  apply Hf. eapply ascendingFrom_ordered; eauto.
Qed.

Lemma getApiKey_fal w :
  Service.getApiKey w (lit "fal") = orElse (FAL_API_KEY w) (lit "demo_fal_key").
Proof. reflexivity. Qed.

Lemma consultsProvider_stable w w' job :
  stable w w' -> consultsProvider w' job = consultsProvider w job.
Proof.
  intros Hs. unfold consultsProvider.
  now rewrite !getApiKey_fal, (st_fal _ _ Hs).
Qed.

(** A poll that does not ask the provider reports the status of the
    clock. *)
Lemma poll_clock jobId job w :
  localStorage w !! Service.storageKey jobId = Some (Parsed job) ->
  consultsProvider w job = false ->
  exists r w',
    Service.getVideoJobStatus jobId w = (Normal r, w')
    /\ Service.status r = clockStatus job (now w)
    /\ stable w w'.
Proof.
  intros Hjob Hc.
  pose proof (frames_getVideoJobStatus jobId w) as Hst.
  unfold consultsProvider in Hc. unfold clockStatus.
  destruct (routingMode job) eqn:Hr.
  - rewrite (poll_synthetic jobId job w Hjob Hr) in *. unfold tryCatch in *.
    destruct (Z.ltb_spec (now w - j_createdAt job) 5000) as [Hl|Hl].
    + rewrite (imageSequenceStatus_early job w Hl) in *.
      eexists. eexists. split; [reflexivity|]. split; [reflexivity|exact Hst].
    + destruct (encodeURIComponent (j_prompt job)) as [enc|] eqn:He.
      * destruct (imageSequenceStatus_late job w enc Hl He) as (w' & Hi & _).
        rewrite Hi in *.
        eexists. eexists. split; [reflexivity|]. split; [|exact Hst].
        destruct (reachable (network w) 40); reflexivity.
      * rewrite (imageSequenceStatus_malformed job w Hl He) in *.
        eexists. eexists. split; [reflexivity|]. split; [reflexivity|exact Hst].
  - destruct (bool_decide (j_provider job = lit "fal")) eqn:Hp.
    + apply bool_decide_eq_true_1 in Hp. simpl in Hc.
      rewrite (poll_fal jobId job w Hjob Hr Hp), Hc in *.
      unfold tryCatch, bind, ret, Service.falSimulatedStatus, bind, Date_now
        in *.
      destruct (now w - j_createdAt job <? 30000);
        eexists; eexists; (split; [reflexivity|]);
        (split; [reflexivity|exact Hst]).
    + unfold Service.getVideoJobStatus, tryCatch in *.
      rewrite (poll_body_parsed jobId job w Hjob), Hr, Hp in *.
      eexists. eexists. split; [reflexivity|]. split; [reflexivity|exact Hst].
Qed.

Lemma pollSequence_clock jobId job waits : forall w rs w',
  localStorage w !! Service.storageKey jobId = Some (Parsed job) ->
  consultsProvider w job = false ->
  Forall (fun d => 0 <= d) waits ->
  pollSequence jobId waits w = (Normal rs, w') ->
  exists ts,
    map Service.status rs = map (clockStatus job) ts
    /\ ascendingFrom (now w) ts.
Proof.
  induction waits as [|d rest IH]; intros w rs w' Hjob Hc Hw Hseq.
  - injection Hseq as <- _. exists []. split; [reflexivity|exact I].
  - apply Forall_cons in Hw as [Hd Hrest].
    cbn [pollSequence] in Hseq. unfold bind at 1, elapse in Hseq.
    destruct (poll_clock jobId job (setNow (now w + d) w) Hjob Hc)
      as (r & w1 & Hp & Hs & Hst).
    unfold bind at 1 in Hseq. rewrite Hp in Hseq.
    unfold bind at 1 in Hseq.
    destruct (pollSequence jobId rest w1) as [[rs1|e] w2] eqn:Hrec;
      [|discriminate].
    injection Hseq as <- _.
    destruct (IH w1 rs1 w2) as (ts & Hts & Hasc); auto.
    + rewrite (st_localStorage _ _ Hst). exact Hjob.
    + rewrite (consultsProvider_stable _ _ job Hst). exact Hc.
    + exists ((now w + d) :: ts). split.
      * simpl. rewrite Hs, Hts. reflexivity.
      * simpl. split; [lia|].
        apply (ascendingFrom_weaken (now w1)); [|exact Hasc].
        pose proof (st_now _ _ Hst) as Hn. simpl in Hn. exact Hn.
Qed.

Lemma api_poll_fal jobId job w :
  jobId <> [] ->
  jobStore w !! jobId = Some job ->
  sj_provider job = lit "fal" ->
  exists d w',
    Api.getVideoJobStatus (Api.QString jobId) w
    = (Normal {| Api.code := 200; Api.body := Api.StatusBody d |}, w')
    /\ Api.status d = apiClockStatus (sj_createdAt job) (now w)
    /\ now w' = now w
    /\ exists job',
         jobStore w' !! jobId = Some job'
         /\ sj_provider job' = lit "fal"
         /\ sj_createdAt job' = sj_createdAt job.
Proof.
  intros Hne Hjob Hp. destruct jobId as [|c s]; [congruence|].
  cbv beta iota zeta delta [Api.getVideoJobStatus bind Api.jobStore_get].
  rewrite Hjob.
  unfold tryCatch, Api.statusData_of, bind, Api.readApiKey, Date_now,
    Api.jobStore_set, ret, apiClockStatus.
  rewrite bool_decide_eq_true_2 by exact Hp.
  destruct (30000 <=? now w - sj_createdAt job).
  - eexists. eexists. split; [reflexivity|]. split; [reflexivity|].
    split; [reflexivity|].
    eexists. split; [simpl; apply lookup_insert_eq|]. split; [exact Hp|].
    reflexivity.
  - eexists. eexists. split; [reflexivity|]. split; [reflexivity|].
    split; [reflexivity|].
    exists job. split; [exact Hjob|]. split; [exact Hp|]. reflexivity.
Qed.

Lemma apiPollSequence_clock jobId c waits : forall job w rs w',
  jobId <> [] ->
  jobStore w !! jobId = Some job ->
  sj_provider job = lit "fal" ->
  sj_createdAt job = c ->
  Forall (fun d => 0 <= d) waits ->
  apiPollSequence jobId waits w = (Normal rs, w') ->
  exists ts,
    map apiStatus rs = map (fun t => Some (apiClockStatus c t)) ts
    /\ ascendingFrom (now w) ts.
Proof.
  induction waits as [|d rest IH]; intros job w rs w' Hne Hjob Hp Hc Hw Hseq.
  - injection Hseq as <- _. exists []. split; [reflexivity|exact I].
  - apply Forall_cons in Hw as [Hd Hrest].
    cbn [apiPollSequence] in Hseq. unfold bind at 1, elapse in Hseq.
    destruct (api_poll_fal jobId job (setNow (now w + d) w) Hne Hjob Hp)
      as (sd & w1 & Hpoll & Hs & Hn & job' & Hjob' & Hp' & Hc').
    unfold bind at 1 in Hseq. rewrite Hpoll in Hseq.
    unfold bind at 1 in Hseq.
    destruct (apiPollSequence jobId rest w1) as [[rs1|e] w2] eqn:Hrec;
      [|discriminate].
    injection Hseq as <- _.
    destruct (IH job' w1 rs1 w2) as (ts & Hts & Hasc); auto; [congruence|].
    exists ((now w + d) :: ts). split.
    + simpl. unfold apiStatus at 1. simpl. rewrite Hs, Hc, Hts. reflexivity.
    + simpl. split; [lia|]. rewrite Hn in Hasc. exact Hasc.
Qed.

(** C2, the claim at two provider jobs.  In the service, with a real key:
    the provider reports the job failed, the next status call answers 500
    within 30 seconds of creation, and the two polls observe failed and
    then processing.  In the server handler, a piapi job whose provider
    reports failed and then processing is observed the same way, although
    the record keeps the status failed. *)
Lemma status_moves_forward_counterexample :
  ~ status_moves_forward falId (falWorld 1000 failedThen500)
  /\ ~ api_status_moves_forward falId
         (serverWorld (lit "piapi") (lit "processing") 1000
            failedThenProcessing).
Proof.
  split.
  - intros H.
    specialize (H [0; 0]
      (valueOf [] (fst (pollSequence falId [0; 0]
                          (falWorld 1000 failedThen500))))
      (snd (pollSequence falId [0; 0] (falWorld 1000 failedThen500)))).
    assert (Hf : forward (lit "failed") (lit "processing")).
    { apply (H ltac:(repeat constructor; lia) ltac:(vm_compute; reflexivity)
               0%nat 1%nat); [lia| |]; vm_compute; reflexivity. }
    unfold forward in Hf. vm_compute in Hf. destruct Hf as [Hf _]. lia.
  - intros H.
    destruct (H [0; 0]
      (valueOf [] (fst (apiPollSequence falId [0; 0]
                          (serverWorld (lit "piapi") (lit "processing") 1000
                             failedThenProcessing))))
      (snd (apiPollSequence falId [0; 0]
              (serverWorld (lit "piapi") (lit "processing") 1000
                 failedThenProcessing)))) as (ss & Hss & Hfw).
    + repeat constructor; lia.
    + vm_compute. reflexivity.
    + vm_compute in Hss.
      destruct ss as [|a [|b [|x ss]]]; try discriminate Hss.
      injection Hss as <- <-.
      assert (Hf : forward (lit "failed") (lit "processing")).
      { apply (Hfw 0%nat 1%nat); [lia| |]; reflexivity. }
      unfold forward in Hf. vm_compute in Hf. destruct Hf as [Hf _]. lia.
Qed.

(** C2, amended. For a job whose poll does not ask the provider for its
    status (in the service: a job on the synthetic path, a fal job polled
    with no usable key, a job of an unknown provider; in the server
    handler: a fal job), every sequence of polls separated by waits
    observes statuses that only move forward through
    processing -> {completed | failed}: no poll returns a status earlier in
    the order than one observed before, and after completed or failed every
    later poll returns that same status. *)
Theorem clock_driven_status_moves_forward :
  (forall jobId job w waits rs w',
     localStorage w !! Service.storageKey jobId = Some (Parsed job) ->
     consultsProvider w job = false ->
     Forall (fun d => 0 <= d) waits ->
     pollSequence jobId waits w = (Normal rs, w') ->
     length rs = length waits /\ forwardAll (map Service.status rs))
  /\
  (forall jobId job w waits rs w',
     jobId <> [] ->
     jobStore w !! jobId = Some job ->
     sj_provider job = lit "fal" ->
     Forall (fun d => 0 <= d) waits ->
     apiPollSequence jobId waits w = (Normal rs, w') ->
     exists ss,
       map apiStatus rs = map Some ss
       /\ length ss = length waits
       /\ forwardAll ss).
Proof.
  split.
  - intros jobId job w waits rs w' Hjob Hc Hw Hseq.
    destruct (pollSequence_clock jobId job waits w rs w' Hjob Hc Hw Hseq)
      as (ts & Hts & Hasc).
    split.
    + clear - Hseq. revert w rs w' Hseq.
      induction waits as [|d rest IH]; intros w rs w' Hseq.
      * injection Hseq as <- _. reflexivity.
      * cbn [pollSequence] in Hseq. unfold bind at 1, elapse in Hseq.
        unfold bind at 1 in Hseq.
        destruct (Service.getVideoJobStatus jobId _) as [[r|e] w1];
          [|discriminate].
        unfold bind at 1 in Hseq.
        destruct (pollSequence jobId rest w1) as [[rs1|e] w2] eqn:Hrec;
          [|discriminate].
        injection Hseq as <- _. simpl. f_equal. eapply IH. exact Hrec.
    + rewrite Hts.
      eapply forwardAll_of_clock; [apply clockStatus_forward | exact Hasc].
  - intros jobId job w waits rs w' Hne Hjob Hp Hw Hseq.
    destruct (apiPollSequence_clock jobId (sj_createdAt job) waits job w rs w'
                Hne Hjob Hp eq_refl Hw Hseq) as (ts & Hts & Hasc).
    exists (map (apiClockStatus (sj_createdAt job)) ts).
    split; [|split].
    + rewrite Hts, map_map. reflexivity.
    + rewrite length_map.
      assert (Hlen : length (map apiStatus rs) = length ts)
        by (rewrite Hts; apply length_map).
      rewrite length_map in Hlen. rewrite <- Hlen.
      clear - Hseq. revert w rs w' Hseq.
      induction waits as [|d rest IH]; intros w rs w' Hseq.
      * injection Hseq as <- _. reflexivity.
      * cbn [apiPollSequence] in Hseq. unfold bind at 1, elapse in Hseq.
        unfold bind at 1 in Hseq.
        destruct (Api.getVideoJobStatus _ _) as [[r|e] w1]; [|discriminate].
        unfold bind at 1 in Hseq.
        destruct (apiPollSequence jobId rest w1) as [[rs1|e] w2] eqn:Hrec;
          [|discriminate].
        injection Hseq as <- _. simpl. f_equal. eapply IH. exact Hrec.
    + eapply forwardAll_of_clock;
        [apply apiClockStatus_forward | exact Hasc].
Qed.

Lemma clock_driven_status_moves_forward_witness :
  forwardAll
    (map Service.status
       (valueOf [] (fst (pollSequence sunsetId [0; 3000; 3000; 60000]
                           (sunsetWorld 0 [ok200])))))
  /\ map Service.status
       (valueOf [] (fst (pollSequence sunsetId [0; 3000; 3000; 60000]
                           (sunsetWorld 0 [ok200]))))
     = [lit "processing"; lit "processing"; lit "completed"; lit "completed"]
  /\ exists ss,
       map apiStatus
         (valueOf [] (fst (apiPollSequence falId [0; 20000; 20000]
                             (serverWorld (lit "fal") (lit "processing") 0 []))))
       = map Some ss
       /\ length ss = 3%nat
       /\ forwardAll ss.
Proof.
  destruct clock_driven_status_moves_forward as [Hs Ha].
  split; [|split].
  - apply (Hs sunsetId sunsetJob (sunsetWorld 0 [ok200])
              [0; 3000; 3000; 60000] _
              (snd (pollSequence sunsetId [0; 3000; 3000; 60000]
                      (sunsetWorld 0 [ok200])))).
    + vm_compute. reflexivity.
    + vm_compute. reflexivity.
    + repeat constructor; lia.
    + vm_compute. reflexivity.
  - vm_compute. reflexivity.
  - apply (Ha falId (serverJob (lit "fal") (lit "processing"))
              (serverWorld (lit "fal") (lit "processing") 0 [])
              [0; 20000; 20000] _
              (snd (apiPollSequence falId [0; 20000; 20000]
                      (serverWorld (lit "fal") (lit "processing") 0 [])))).
    + discriminate.
    + vm_compute. reflexivity.
    + reflexivity.
    + repeat constructor; lia.
    + vm_compute. reflexivity.
Defined.

(** ** The callers of the service: the wait loop and the whole flow *)

Lemma poll_returns jobId w :
  exists s w1, Service.getVideoJobStatus jobId w = (Normal s, w1).
Proof.
  destruct (tryCatch_ret_total (Service.getVideoJobStatus_body jobId)
    (fun e => Service.failedWith
       (orElse (Some (message e)) (lit "Failed to check job status"))) w)
    as (a & w1 & H & _).
  exists a, w1. exact H.
Qed.

Lemma truthy_orElse a c s : truthy (Some (orElse a (c :: s))) = true.
Proof. destruct a as [[|x l]|]; reflexivity. Qed.

(** What the creation leaves behind: a queued job under a non-empty id
    with its record written at the clock of the call, or a failure with an
    error text and an untouched store. *)
Lemma createVideoJob_outcome config tier w :
  exists r w',
    Service.createVideoJob config tier w = (Normal r, w')
    /\ now w' = now w
    /\ ((truthy (Service.cr_error r) = false
         /\ Service.cr_jobId r <> []
         /\ exists job,
              localStorage w'
              = <[Service.storageKey (Service.cr_jobId r) := Parsed job]>
                  (localStorage w)
              /\ j_prompt job = cfg_prompt config
              /\ j_aspectRatio job = cfg_aspectRatio config
              /\ j_createdAt job = now w)
        \/ (truthy (Service.cr_error r) = true
            /\ localStorage w' = localStorage w)).
Proof.
  assert (Hcase : tier = free
                  \/ Service.usableKey (Service.getApiKey w (lit "fal")) = false
                  \/ (tier <> free
                      /\ Service.usableKey (Service.getApiKey w (lit "fal"))
                         = true)).
  { destruct tier; auto;
      destruct (Service.usableKey (Service.getApiKey w (lit "fal")));
      auto; right; right; split; auto; discriminate. }
  destruct Hcase as [Hs | [Hs | [Hfree Hkey]]].
  1, 2: rewrite (createVideoJob_synthetic config tier w) by auto;
    unfold Service.createImageSequenceJob, bind, Date_now, randomSuffix,
      localStorage_setItem, ret;
    destruct (entropy w) as [|sfx rest];
    eexists; eexists; (split; [reflexivity|]); (split; [reflexivity|]);
    left; (split; [reflexivity|]); (split; [discriminate|]);
    eexists; (split; [reflexivity|]); repeat split.
  unfold Service.createVideoJob, tryCatch, Service.createVideoJob_body.
  assert (Hb : forall (k : jsstring -> M Service.CreateResult),
             bind (Service.readApiKey (lit "fal")) k w
             = k (Service.getApiKey w (lit "fal")) w) by reflexivity.
  destruct tier; [congruence| |];
    rewrite Hb, Hkey; cbn [negb];
    unfold bind, Date_now, randomSuffix, fetch, json, localStorage_setItem,
      ret, throw, resp_ok;
    destruct (entropy w) as [|sfx rest]; simpl;
    destruct (network w) as [|[e|st [e|d]] net]; simpl;
    try destruct ((200 <=? st) && (st <=? 299)); simpl;
    eexists; eexists; (split; [reflexivity|]); (split; [reflexivity|]);
    first
      [ right; split; [apply truthy_orElse | reflexivity]
      | left; (split; [reflexivity|]); (split; [discriminate|]);
        eexists; (split; [reflexivity|]); repeat split ].
Qed.

Lemma stable_pollForJobCompletion jobId n :
  Keeps stable (pollForJobCompletionWith jobId n None).
Proof.
  induction n as [|n IH]; cbn [pollForJobCompletionWith];
    [auto with keeps|].
  apply keeps_bind; [exact stable_trans|apply frames_getVideoJobStatus|].
  intros s. unfold notify. keeps.
Qed.

Lemma pollForJobCompletion_returns jobId n : forall w,
  exists r w',
    pollForJobCompletionWith jobId n None w = (Normal r, w')
    /\ forall j, Service.gr_jobId r = Some j -> j = jobId.
Proof.
  induction n as [|n IH]; intros w; cbn [pollForJobCompletionWith].
  - eexists. eexists. split; [reflexivity|]. discriminate.
  - destruct (poll_returns jobId w) as (s & w1 & Hp).
    unfold bind at 1. rewrite Hp. unfold notify, bind at 1, ret at 1.
    destruct (bool_decide (Service.status s = lit "completed")).
    + eexists. eexists. split; [reflexivity|]. simpl. congruence.
    + destruct (bool_decide (Service.status s = lit "failed")).
      * eexists. eexists. split; [reflexivity|]. discriminate.
      * unfold bind at 1, sleep at 1. apply IH.
Qed.

(** The flow after a creation that returned [createResult] in world [w1]. *)
Lemma generateVideoAsync_after_create config tier onProgress w createResult w1 :
  Service.createVideoJob config tier w = (Normal createResult, w1) ->
  generateVideoAsync config tier onProgress w
  = if truthy (Service.cr_error createResult)
       || negb (truthy (Some (Service.cr_jobId createResult)))
    then (Normal (unavailableResponse tier), w1)
    else
      bind
        (if bool_decide (Service.cr_isImageSequence createResult = Some true)
         then
           statusResult <- Service.getVideoJobStatus
                             (Service.cr_jobId createResult) ;;
           if bool_decide (Service.status statusResult = lit "completed") then
             ret (Some
               {| ar_response :=
                    {| Service.success := true;
                       Service.gr_videoUrl := Service.videoUrl statusResult;
                       Service.gr_thumbnail := Service.thumbnail statusResult;
                       Service.gr_error := None;
                       Service.gr_tier := Some tier;
                       Service.gr_hasAdCard := None;
                       Service.gr_jobId :=
                         Some (Service.cr_jobId createResult) |};
                  ar_isImageSequence := Some true;
                  ar_message := Some (lit "Image preview generated") |})
           else ret None
         else ret None)
        (fun early =>
           match early with
           | Some response => ret response
           | None =>
               completionResult <-
                 pollForJobCompletionWith (Service.cr_jobId createResult) 60
                   onProgress ;;
               ret {| ar_response := completionResult;
                      ar_isImageSequence := None; ar_message := None |}
           end) w1.
Proof.
  intros Hc. unfold generateVideoAsync, bind at 1. rewrite Hc.
  destruct (truthy (Service.cr_error createResult)
            || negb (truthy (Some (Service.cr_jobId createResult))));
    reflexivity.
Qed.

Lemma truthy_nonempty (s : jsstring) : s <> [] -> truthy (Some s) = true.
Proof. destruct s; [congruence|reflexivity]. Qed.

(** X1. The two callers have no [try] of their own, yet without a callback
    they always return: [pollForJobCompletion] for every attempt bound and
    [generateVideoAsync] for every request.  The one error they let
    through is the callback's: a callback that throws makes the wait loop
    throw that error at the first poll. *)
Theorem callers_throw_only_from_callback :
  (forall jobId n w,
     exists r w', pollForJobCompletionWith jobId n None w = (Normal r, w'))
  /\ (forall config tier w,
        exists r w', generateVideoAsync config tier None w = (Normal r, w'))
  /\ (forall jobId n (callback : jsstring -> M unit) e w,
        (forall s v, callback s v = (Throw e, v)) ->
        exists w',
          pollForJobCompletionWith jobId (S n) (Some callback) w
          = (Throw e, w')).
Proof.
  split; [|split].
  - intros jobId n w.
    destruct (pollForJobCompletion_returns jobId n w) as (r & w' & H & _).
    eauto.
  - intros config tier w.
    destruct (createVideoJob_outcome config tier w) as (cr & w1 & Hc & _ & _).
    rewrite (generateVideoAsync_after_create _ _ _ _ _ _ Hc).
    destruct (truthy (Service.cr_error cr)
              || negb (truthy (Some (Service.cr_jobId cr))));
      [eauto|].
    assert (Hloop : forall v, exists r w',
      bind (pollForJobCompletionWith (Service.cr_jobId cr) 60 None)
           (fun completionResult =>
              ret {| ar_response := completionResult;
                     ar_isImageSequence := None; ar_message := None |}) v
      = (Normal r, w')).
    { intros v.
      destruct (pollForJobCompletion_returns (Service.cr_jobId cr) 60 v)
        as (r & w' & H & _).
      unfold bind. rewrite H. eauto. }
    unfold bind at 1.
    destruct (bool_decide (Service.cr_isImageSequence cr = Some true));
      [|apply Hloop].
    destruct (poll_returns (Service.cr_jobId cr) w1) as (s & w2 & Hp).
    unfold bind at 1. rewrite Hp.
    destruct (bool_decide (Service.status s = lit "completed"));
      [eauto|apply Hloop].
  - intros jobId n callback e w Hcb. cbn [pollForJobCompletionWith].
    destruct (poll_returns jobId w) as (s & w1 & Hp).
    unfold bind at 1. rewrite Hp. unfold notify, bind at 1.
    rewrite Hcb. eauto.
Qed.

Lemma callers_throw_only_from_callback_witness :
  exists w',
    pollForJobCompletionWith sunsetId 60
      (Some (fun _ => throw (Error (lit "callback failed"))))
      (sunsetWorld 0 [])
    = (Throw (Error (lit "callback failed")), w').
Proof.
  apply (proj2 (proj2 callers_throw_only_from_callback) sunsetId 59%nat
           (fun _ => throw (Error (lit "callback failed")))
           (Error (lit "callback failed")) (sunsetWorld 0 [])).
  reflexivity.
Defined.

(** X2. The flow never retires the record it creates: whenever
    [generateVideoAsync] (without a callback) returns a response that names
    a job id, the record of that job, with the prompt of the request, is
    still in [localStorage] when it returns. *)
Theorem generated_job_record_stays (config : VideoConfig) (tier : UserTier)
    (w : World) (r : AsyncResponse) (w' : World) (jobId : jsstring) :
  generateVideoAsync config tier None w = (Normal r, w') ->
  Service.gr_jobId (ar_response r) = Some jobId ->
  exists job,
    localStorage w' !! Service.storageKey jobId = Some (Parsed job)
    /\ j_prompt job = cfg_prompt config.
Proof.
  intros Hg Hj.
  destruct (createVideoJob_outcome config tier w)
    as (cr & w1 & Hc & _ & Hcase).
  rewrite (generateVideoAsync_after_create _ _ _ _ _ _ Hc) in Hg.
  destruct Hcase as [(Herr & Hid & job & Hstore & Hprompt & _) | (Herr & _)].
  2: { rewrite Herr in Hg. cbn [orb] in Hg. injection Hg as <- _.
       discriminate Hj. }
  rewrite Herr, (truthy_nonempty _ Hid) in Hg. cbn [orb negb] in Hg.
  assert (Hfound : forall v, stable w1 v ->
            localStorage v !! Service.storageKey (Service.cr_jobId cr)
            = Some (Parsed job)).
  { intros v Hv. rewrite (st_localStorage _ _ Hv), Hstore.
    apply lookup_insert_eq. }
  assert (Hloop : forall v, stable w1 v ->
    bind (pollForJobCompletionWith (Service.cr_jobId cr) 60 None)
         (fun completionResult =>
            ret {| ar_response := completionResult;
                   ar_isImageSequence := None; ar_message := None |}) v
    = (Normal r, w') ->
    exists job0,
      localStorage w' !! Service.storageKey jobId = Some (Parsed job0)
      /\ j_prompt job0 = cfg_prompt config).
  { intros v Hv Hl.
    pose proof (stable_pollForJobCompletion (Service.cr_jobId cr) 60 v) as Hs.
    destruct (pollForJobCompletion_returns (Service.cr_jobId cr) 60 v)
      as (r0 & v' & Hr0 & Hid0).
    rewrite Hr0 in Hs. simpl in Hs.
    unfold bind in Hl. rewrite Hr0 in Hl. injection Hl as <- <-.
    simpl in Hj. rewrite (Hid0 _ Hj).
    exists job. split; [|exact Hprompt].
    apply Hfound. eapply stable_trans; eassumption. }
  unfold bind at 1 in Hg.
  destruct (bool_decide (Service.cr_isImageSequence cr = Some true)).
  - pose proof (frames_getVideoJobStatus (Service.cr_jobId cr) w1) as Hs.
    destruct (poll_returns (Service.cr_jobId cr) w1) as (s & w2 & Hp).
    rewrite Hp in Hs. simpl in Hs.
    unfold bind at 1 in Hg. rewrite Hp in Hg.
    destruct (bool_decide (Service.status s = lit "completed")).
    + injection Hg as <- <-. simpl in Hj. injection Hj as <-.
      exists job. split; [apply Hfound, Hs | exact Hprompt].
    + apply (Hloop w2 Hs Hg).
  - apply (Hloop w1 (stable_refl w1) Hg).
Qed.

Lemma generated_job_record_stays_witness :
  exists job,
    localStorage (snd (generateVideoAsync (sunsetConfig 10) free None
                         (quietWorld 0)))
      !! Service.storageKey (lit "img_0_")
    = Some (Parsed job)
    /\ j_prompt job = lit "sunset".
Proof.
  apply (generated_job_record_stays (sunsetConfig 10) free (quietWorld 0)
           (valueOf (unavailableResponse free)
              (fst (generateVideoAsync (sunsetConfig 10) free None
                      (quietWorld 0))))
           (snd (generateVideoAsync (sunsetConfig 10) free None
                   (quietWorld 0)))
           (lit "img_0_")).
  - vm_compute. reflexivity.
  - vm_compute. reflexivity.
Defined.

(** X3. A creation that fails is answered as a success: for a paid tier
    with a real key, when the provider does not accept the submission,
    [generateVideoAsync] returns [success: true] with the empty string as
    locator and the image-preview message, writes no record, polls nothing
    and never calls the callback. *)
Theorem failed_creation_answered_as_success (config : VideoConfig)
    (tier : UserTier) (onProgress : option (jsstring -> M unit)) (w : World) :
  tier <> free ->
  Service.usableKey (Service.getApiKey w (lit "fal")) = true ->
  accepted (network w) = None ->
  exists w',
    generateVideoAsync config tier onProgress w
    = (Normal (unavailableResponse tier), w')
    /\ localStorage w' = localStorage w
    /\ trace w'
       = trace w
         ++ [EvFetch (Service.falSubmitRequest
                        (Service.getApiKey w (lit "fal")) config tier)].
Proof.
  intros Hfree Hkey Hacc.
  destruct (createVideoJob_provider config tier w Hfree Hkey)
    as (cr & w1 & Hc & Ht & Hcase).
  rewrite Hacc in Hcase. destruct Hcase as (Hid & _ & _ & Hs).
  rewrite (generateVideoAsync_after_create _ _ _ _ _ _ Hc), Hid.
  rewrite orb_true_r. eauto.
Qed.

Lemma failed_creation_answered_as_success_witness :
  exists w',
    generateVideoAsync (sunsetConfig 10) pro None
      (liveWorld 0 [Responded 500 (Obj noData)])
    = (Normal (unavailableResponse pro), w')
    /\ localStorage w' = ∅.
Proof.
  destruct (failed_creation_answered_as_success (sunsetConfig 10) pro None
              (liveWorld 0 [Responded 500 (Obj noData)]))
    as (w' & H & Hs & _).
  - discriminate.
  - vm_compute. reflexivity.
  - vm_compute. reflexivity.
  - exists w'. split; [exact H | exact Hs].
Defined.

Lemma createVideoJob_free config w :
  exists jobId w1,
    Service.createVideoJob config free w
    = (Normal {| Service.cr_jobId := jobId;
                 Service.cr_status := lit "queued";
                 Service.cr_error := None;
                 Service.cr_isImageSequence := Some true |}, w1)
    /\ jobId <> []
    /\ localStorage w1
       = <[Service.storageKey jobId :=
             Parsed {| j_id := jobId; j_falJobId := None;
                       j_provider := lit "image";
                       j_prompt := cfg_prompt config;
                       j_aspectRatio := cfg_aspectRatio config;
                       j_duration := Z.min (cfg_duration config) 16;
                       j_status := lit "queued"; j_createdAt := now w;
                       j_isImageSequence := true |}]> (localStorage w)
    /\ now w1 = now w
    /\ network w1 = network w
    /\ trace w1 = trace w.
Proof.
  rewrite (createVideoJob_synthetic config free w) by auto.
  unfold Service.createImageSequenceJob, bind, Date_now, randomSuffix,
    localStorage_setItem, ret.
  destruct (entropy w) as [|sfx rest];
    eexists; eexists; (split; [reflexivity|]); (split; [discriminate|]);
    repeat split.
Qed.

(** X4. The free tier from end to end.  For a prompt that
    [encodeURIComponent] accepts, [generateVideoAsync] (without a callback)
    succeeds whatever the network does: it writes the image-sequence
    record, finds it processing, sleeps 5 s and returns the result of the
    second poll, the video locator when a probe answers ok within 40 tries
    and the image locator otherwise.  It has then slept 5000 ms plus
    5000 ms per failed probe, and the response carries neither the tier,
    nor the image-sequence mark, nor the time-out note of the poll. *)
Theorem free_tier_flow (config : VideoConfig) (w : World) (enc : jsstring) :
  encodeURIComponent (cfg_prompt config) = Some enc ->
  exists jobId job w',
    let s := if reachable (network w) 40
             then Service.videoReady (Service.pollinationsVideoUrl enc job)
             else Service.imageInstead
                    (Service.pollinationsImageUrl enc job) in
    generateVideoAsync config free None w
    = (Normal {| ar_response :=
                   {| Service.success := true;
                      Service.gr_videoUrl := Service.videoUrl s;
                      Service.gr_thumbnail := Service.thumbnail s;
                      Service.gr_error := None;
                      Service.gr_tier := None;
                      Service.gr_hasAdCard := None;
                      Service.gr_jobId := Some jobId |};
                 ar_isImageSequence := None;
                 ar_message := None |}, w')
    /\ j_aspectRatio job = cfg_aspectRatio config
    /\ j_duration job = Z.min (cfg_duration config) 16
    /\ waited (trace w')
       = waited (trace w) + 5000
         + 5000 * Z.of_nat (failedProbes (network w) 40).
Proof.
  intros Henc.
  destruct (createVideoJob_free config w)
    as (jobId & w1 & Hc & Hid & Hstore & Hnow & Hnet & Htr).
  set (job := {| j_id := jobId; j_falJobId := None;
                 j_provider := lit "image";
                 j_prompt := cfg_prompt config;
                 j_aspectRatio := cfg_aspectRatio config;
                 j_duration := Z.min (cfg_duration config) 16;
                 j_status := lit "queued"; j_createdAt := now w;
                 j_isImageSequence := true |}) in *.
  assert (Hfound : forall v, localStorage v = localStorage w1 ->
            localStorage v !! Service.storageKey jobId = Some (Parsed job)).
  { intros v ->. rewrite Hstore. apply lookup_insert_eq. }
  (* the poll right after the creation *)
  assert (Hp1 : Service.getVideoJobStatus jobId w1
                = (Normal (Service.onlyStatus (lit "processing")), w1)).
  { rewrite (poll_synthetic jobId job w1 (Hfound w1 eq_refl) eq_refl).
    unfold tryCatch. rewrite imageSequenceStatus_early; [reflexivity|].
    simpl. lia. }
  (* the poll after the sleep *)
  set (w2 := record (EvSleep 5000) (setNow (now w1 + 5000) w1)).
  destruct (imageSequenceStatus_late job w2 enc) as (w3 & Hi & Hw);
    [simpl; lia | exact Henc |].
  assert (Hp2 : Service.getVideoJobStatus jobId w2
                = (Normal (if reachable (network w) 40
                           then Service.videoReady
                                  (Service.pollinationsVideoUrl enc job)
                           else Service.imageInstead
                                  (Service.pollinationsImageUrl enc job)),
                   w3)).
  { rewrite (poll_synthetic jobId job w2 (Hfound w2 eq_refl) eq_refl).
    unfold tryCatch. rewrite Hi. simpl network. rewrite Hnet. reflexivity. }
  exists jobId, job, w3. cbv zeta.
  split; [|split; [reflexivity|split; [reflexivity|]]].
  - rewrite (generateVideoAsync_after_create _ _ _ _ _ _ Hc).
    cbn [Service.cr_error Service.cr_jobId Service.cr_isImageSequence].
    rewrite (truthy_nonempty _ Hid). cbn [truthy orb negb].
    rewrite bool_decide_eq_true_2 by reflexivity.
    unfold bind at 1. unfold bind at 1. rewrite Hp1.
    rewrite bool_decide_eq_false_2 by discriminate.
    unfold ret at 1.
    change 60%nat with (S (S 58)).
    cbn [pollForJobCompletionWith notify].
    unfold bind at 1. unfold bind at 1. rewrite Hp1.
    unfold bind at 1, ret at 1.
    rewrite !bool_decide_eq_false_2 by discriminate.
    unfold bind at 1, sleep at 1. fold w2.
    unfold bind at 1. rewrite Hp2. unfold bind at 1, ret at 1.
    destruct (reachable (network w) 40); reflexivity.
  - rewrite Hw. simpl network. simpl trace. rewrite Hnet, Htr.
    rewrite waited_app. simpl. lia.
Qed.

Lemma free_tier_flow_witness :
  exists w',
    generateVideoAsync (sunsetConfig 10) free None
      (setNetwork [Rejected networkError; ok200] (quietWorld 0))
    = (Normal {| ar_response :=
                   {| Service.success := true;
                      Service.gr_videoUrl :=
                        Some (lit "https://image.pollinations.ai/prompt/sunset?width=576&height=1024&duration=10&format=mp4&nologo=true");
                      Service.gr_thumbnail :=
                        Some (lit "https://image.pollinations.ai/prompt/sunset?width=576&height=1024&duration=10&format=mp4&nologo=true");
                      Service.gr_error := None;
                      Service.gr_tier := None;
                      Service.gr_hasAdCard := None;
                      Service.gr_jobId := Some (lit "img_0_") |};
                 ar_isImageSequence := None;
                 ar_message := None |}, w')
    /\ waited (trace w') = 10000.
Proof.
  destruct (free_tier_flow (sunsetConfig 10)
              (setNetwork [Rejected networkError; ok200] (quietWorld 0))
              (lit "sunset") eq_refl)
    as (jobId & job & w' & Hg & _ & _ & Hw).
  exists w'. split.
  - rewrite Hg. f_equal.
    assert (E : fst (generateVideoAsync (sunsetConfig 10) free None
                       (setNetwork [Rejected networkError; ok200]
                          (quietWorld 0)))
                = Normal
                    {| ar_response :=
                         {| Service.success := true;
                            Service.gr_videoUrl :=
                              Some (lit "https://image.pollinations.ai/prompt/sunset?width=576&height=1024&duration=10&format=mp4&nologo=true");
                            Service.gr_thumbnail :=
                              Some (lit "https://image.pollinations.ai/prompt/sunset?width=576&height=1024&duration=10&format=mp4&nologo=true");
                            Service.gr_error := None;
                            Service.gr_tier := None;
                            Service.gr_hasAdCard := None;
                            Service.gr_jobId := Some (lit "img_0_") |};
                       ar_isImageSequence := None;
                       ar_message := None |})
      by (vm_compute; reflexivity).
    rewrite Hg in E. simpl in E. exact E.
  - rewrite Hw. vm_compute. reflexivity.
Defined.

(** The poll of a fal job whose status call is answered ok with JSON. *)
Lemma poll_fal_answer jobId job w st d net :
  localStorage w !! Service.storageKey jobId = Some (Parsed job) ->
  routingMode job = Provider ->
  j_provider job = lit "fal" ->
  Service.usableKey (Service.getApiKey w (lit "fal")) = true ->
  network w = Responded st (Obj d) :: net ->
  (200 <=? st) && (st <=? 299) = true ->
  Service.getVideoJobStatus jobId w
  = (Normal (Service.falSnapshot d),
     record (EvFetch (Service.falStatusRequest
                        (Service.getApiKey w (lit "fal")) job))
            (setNetwork net w)).
Proof.
  intros Hjob Hr Hp Hkey Hnet Hok.
  rewrite (poll_fal jobId job w Hjob Hr Hp), Hkey.
  unfold tryCatch, bind, Service.falRealStatus, tryCatch, bind, fetch.
  rewrite Hnet. unfold resp_ok. simpl. rewrite Hok. reflexivity.
Qed.

Lemma falSnapshot_in_progress s :
  s <> lit "completed" -> s <> lit "failed" ->
  Service.status (Service.falSnapshot (dataWithStatus s)) <> lit "completed"
  /\ Service.status (Service.falSnapshot (dataWithStatus s)) <> lit "failed".
Proof.
  intros Hc Hf. unfold Service.falSnapshot, dataWithStatus. simpl.
  rewrite andb_false_r.
  rewrite bool_decide_eq_false_2 by congruence. simpl.
  destruct s as [|c s]; simpl; split; try assumption; discriminate.
Qed.

(** X5. The wait loop is bounded by its attempt count.  For a fal job
    with a real key whose provider answers [n] status calls in a row with
    a status that is neither completed nor failed,
    [pollForJobCompletion(jobId, n)] makes exactly those [n] calls,
    sleeps 5000 ms after each, and returns the failure "Video generation
    timed out after 5 minutes" (whatever [n] is), leaving the store as it
    was. *)
Theorem wait_loop_times_out (jobId : jsstring) (job : Job) (s : jsstring)
    (n : nat) : forall (w : World) (rest : list FetchOutcome),
  localStorage w !! Service.storageKey jobId = Some (Parsed job) ->
  routingMode job = Provider ->
  j_provider job = lit "fal" ->
  Service.usableKey (Service.getApiKey w (lit "fal")) = true ->
  s <> lit "completed" ->
  s <> lit "failed" ->
  network w = answering s n ++ rest ->
  exists w',
    pollForJobCompletionWith jobId n None w
    = (Normal (Service.failure
                 (lit "Video generation timed out after 5 minutes")), w')
    /\ waited (trace w') = waited (trace w) + 5000 * Z.of_nat n
    /\ length (requests (trace w')) = (length (requests (trace w)) + n)%nat
    /\ network w' = rest
    /\ localStorage w' = localStorage w.
Proof.
  induction n as [|n IH]; intros w rest Hjob Hr Hp Hkey Hc Hf Hnet.
  - exists w. split; [reflexivity|]. simpl in *. repeat split; auto; lia.
  - cbn [pollForJobCompletionWith notify]. unfold bind at 1.
    rewrite (poll_fal_answer jobId job w 200 (dataWithStatus s)
               (answering s n ++ rest) Hjob Hr Hp Hkey Hnet eq_refl).
    unfold bind at 1, ret at 1.
    destruct (falSnapshot_in_progress s Hc Hf) as [Hc' Hf'].
    rewrite !bool_decide_eq_false_2 by assumption.
    unfold bind at 1, sleep at 1.
    match goal with
    | |- exists w', pollForJobCompletionWith _ _ _ ?v = _ /\ _ =>
        destruct (IH v rest) as (w' & Hl & Hw & Hq & Hn & Hs); auto
    end.
    exists w'. split; [exact Hl|].
    rewrite Hw, Hq, Hn, Hs. simpl trace. simpl localStorage.
    assert (Hreq : forall tr ev1 ms,
              length (requests ((tr ++ [EvFetch ev1]) ++ [EvSleep ms]))
              = S (length (requests tr))).
    { induction tr as [|[rq|m] tr IHtr]; intros; simpl; auto. }
    rewrite Hreq, !waited_app. simpl. repeat split; lia.
Qed.

Lemma wait_loop_times_out_witness :
  exists w',
    pollForJobCompletionWith falId 2 None
      (falWorld 0 (answering (lit "IN_PROGRESS") 2 ++ [ok200]))
    = (Normal (Service.failure
                 (lit "Video generation timed out after 5 minutes")), w')
    /\ waited (trace w') = 10000
    /\ length (requests (trace w')) = 2%nat
    /\ network w' = [ok200].
Proof.
  destruct (wait_loop_times_out falId falJob (lit "IN_PROGRESS") 2
              (falWorld 0 (answering (lit "IN_PROGRESS") 2 ++ [ok200]))
              [ok200])
    as (w' & H & Hw & Hq & Hn & _).
  - vm_compute. reflexivity.
  - vm_compute. reflexivity.
  - reflexivity.
  - vm_compute. reflexivity.
  - discriminate.
  - discriminate.
  - reflexivity.
  - exists w'. repeat split; assumption.
Defined.

(** ** What a poll sends *)

Lemma availabilityLoop_trace url n : forall w,
  exists evs,
    trace (snd (Service.availabilityLoop url n w)) = trace w ++ evs
    /\ Forall (fun ev => ev = EvFetch (Service.headRequest url)
                         \/ ev = EvSleep 5000) evs
    /\ (length (requests evs) <= n)%nat.
Proof.
  induction n as [|n IH]; intros w.
  - exists []. simpl. rewrite app_nil_r. repeat split; auto.
  - rewrite availabilityLoop_round.
    destruct (network w) as [|o rest].
    + match goal with
      | |- context [Service.availabilityLoop url n ?v] =>
          destruct (IH v) as (evs & Ht & Hf & Hl)
      end.
      exists (EvFetch (Service.headRequest url) :: EvSleep 5000 :: evs).
      split; [rewrite Ht; simpl; rewrite <- !app_assoc; reflexivity|].
      split; [constructor; [left; reflexivity|constructor; [right; reflexivity|exact Hf]]|]. simpl. lia.
    + destruct (probeOk o).
      * exists [EvFetch (Service.headRequest url)].
        split; [reflexivity|].
        split; [constructor; [left; reflexivity|constructor]|].
        simpl. lia.
      * match goal with
        | |- context [Service.availabilityLoop url n ?v] =>
            destruct (IH v) as (evs & Ht & Hf & Hl)
        end.
        exists (EvFetch (Service.headRequest url) :: EvSleep 5000 :: evs).
        split; [rewrite Ht; simpl; rewrite <- !app_assoc; reflexivity|].
        split; [constructor; [left; reflexivity|constructor; [right; reflexivity|exact Hf]]|]. simpl. lia.
Qed.

Lemma head_probe_allowed w enc job ev :
  ev = EvFetch (Service.headRequest (Service.pollinationsVideoUrl enc job))
  \/ ev = EvSleep 5000 ->
  pollEventAllowed w ev.
Proof.
  intros [-> | ->]; simpl; [|reflexivity].
  split; [reflexivity|]. left. repeat split; reflexivity.
Qed.

(** X6. What one poll of the service sends.  Every event a poll adds to
    the trace is a 5 second sleep, a HEAD probe of a pollinations locator
    without credentials, or a GET to the fal status endpoint carrying the
    configured key, which is then a real key; no request has a body.  So a
    demo key is never sent, and the key is never sent to pollinations.  A
    poll sends at most 40 requests, and at most one for a job routed to
    the provider. *)
Theorem poll_sends (jobId : jsstring) (w : World) :
  exists evs,
    trace (snd (Service.getVideoJobStatus jobId w)) = trace w ++ evs
    /\ Forall (pollEventAllowed w) evs
    /\ (length (requests evs) <= 40)%nat
    /\ forall job,
         localStorage w !! Service.storageKey jobId = Some (Parsed job) ->
         routingMode job = Provider ->
         (length (requests evs) <= 1)%nat.
Proof.
  assert (Hnone : forall v : World, trace v = trace w ->
            exists evs, trace v = trace w ++ evs
                        /\ Forall (pollEventAllowed w) evs
                        /\ (length (requests evs) <= 40)%nat
                        /\ forall job : Job,
                             localStorage w !! Service.storageKey jobId
                             = Some (Parsed job) ->
                             routingMode job = Provider ->
                             (length (requests evs) <= 1)%nat).
  { intros v Hv. exists []. rewrite app_nil_r. repeat split; auto; simpl; lia. }
  destruct (localStorage w !! Service.storageKey jobId) as [[e|job]|] eqn:Hjob.
  - apply Hnone.
    unfold Service.getVideoJobStatus, tryCatch,
      Service.getVideoJobStatus_body, bind, localStorage_getItem.
    rewrite Hjob. reflexivity.
  - destruct (routingMode job) eqn:Hr.
    + rewrite (poll_synthetic jobId job w Hjob Hr). unfold tryCatch.
      destruct (Z.ltb_spec (now w - j_createdAt job) 5000) as [Hl|Hl].
      * rewrite (imageSequenceStatus_early job w Hl). apply Hnone. reflexivity.
      * destruct (encodeURIComponent (j_prompt job)) as [enc|] eqn:He.
        -- unfold Service.imageSequenceStatus, bind at 1, Date_now.
           destruct (Z.ltb_spec (now w - j_createdAt job) 5000); [lia|].
           unfold bind at 1, encodeURIComponentM at 1. rewrite He.
           unfold ret at 1. unfold bind at 1.
           destruct (availabilityLoop_trace
                       (Service.pollinationsVideoUrl enc job) 40 w)
             as (evs & Ht & Hf & Hlen).
           destruct (availabilityLoop_spec
                       (Service.pollinationsVideoUrl enc job) 40 w)
             as (w1 & Hloop & _).
           rewrite Hloop in Ht |- *. simpl in Ht.
           exists evs.
           split.
           { destruct (reachable (network w) 40); [exact Ht|].
             unfold bind, encodeURIComponentM. rewrite He. exact Ht. }
           split.
           { eapply Forall_impl; [exact Hf|].
             intros ev Hev. eapply head_probe_allowed. exact Hev. }
           split; [exact Hlen|].
           intros job0 [= <-]. congruence.
        -- rewrite (imageSequenceStatus_malformed job w Hl He).
           apply Hnone. reflexivity.
    + unfold Service.getVideoJobStatus, tryCatch.
      rewrite (poll_body_parsed jobId job w Hjob), Hr.
      destruct (bool_decide (j_provider job = lit "fal")) eqn:Hp;
        [|apply Hnone; reflexivity].
      apply bool_decide_eq_true_1 in Hp. rewrite Hp.
      destruct (Service.usableKey (Service.getApiKey w (lit "fal"))) eqn:Hkey.
      * unfold bind, Service.falRealStatus, tryCatch, bind, fetch,
          Service.falSimulatedStatus, bind, Date_now, json, throw, ret,
          resp_ok.
        exists [EvFetch (Service.falStatusRequest
                           (Service.getApiKey w (lit "fal")) job)].
        split.
        -- destruct (network w) as [|[e|st [e|d]] net]; simpl;
             try destruct ((200 <=? st) && (st <=? 299)); simpl;
             try destruct (now w - j_createdAt job <? 30000); reflexivity.
        -- split.
           ++ constructor; [|constructor]. simpl.
              split; [reflexivity|]. right.
              split; [reflexivity|]. split; [|split; [reflexivity|exact Hkey]].
              destruct (j_falJobId job); reflexivity.
           ++ simpl. split; [lia|]. intros; lia.
      * apply Hnone.
        unfold bind, ret, Service.falSimulatedStatus, bind, Date_now.
        destruct (now w - j_createdAt job <? 30000); reflexivity.
  - apply Hnone. rewrite (poll_unknown jobId w Hjob). reflexivity.
Qed.

Lemma poll_sends_witness :
  exists evs,
    trace (snd (Service.getVideoJobStatus falId (falWorld 1000 [ok200])))
    = trace (falWorld 1000 [ok200]) ++ evs
    /\ (length (requests evs) <= 1)%nat.
Proof.
  destruct (poll_sends falId (falWorld 1000 [ok200]))
    as (evs & Ht & _ & _ & Hp).
  exists evs. split; [exact Ht|].
  apply (Hp falJob); vm_compute; reflexivity.
Defined.

(** ** The encoding of the prompt *)

Lemma hexDigit_unreserved d : (d < 16)%N -> isUnreserved (hexDigit d) = true.
Proof.
  intros H. destruct d as [|p]; [reflexivity|].
  do 5 (try (destruct p as [p|p|]; try reflexivity; try lia)).
Qed.

Lemma percentOctet_safe b :
  (b < 256)%N ->
  Forall (fun c => isUnreserved c = true \/ c = 37%N) (percentOctet b).
Proof.
  intros H. unfold percentOctet.
  assert (b / 16 < 16)%N by (apply N.Div0.div_lt_upper_bound; lia).
  assert (b mod 16 < 16)%N by (apply N.mod_lt; lia).
  constructor; [right; reflexivity|].
  constructor; [left; apply hexDigit_unreserved; assumption|].
  constructor; [left; apply hexDigit_unreserved; assumption|].
  constructor.
Qed.

Lemma utf8_octets cp :
  (cp < 1114112)%N -> Forall (fun b => (b < 256)%N) (utf8 cp).
Proof.
  intros H. unfold utf8.
  pose proof (N.mod_lt cp 64 ltac:(lia)).
  pose proof (N.mod_lt (cp / 64) 64 ltac:(lia)).
  pose proof (N.mod_lt (cp / 4096) 64 ltac:(lia)).
  destruct (N.ltb_spec cp 128); [repeat constructor; lia|].
  destruct (N.ltb_spec cp 2048).
  { assert (cp / 64 < 32)%N by (apply N.Div0.div_lt_upper_bound; lia).
    repeat constructor; lia. }
  destruct (N.ltb_spec cp 65536).
  { assert (cp / 4096 < 16)%N by (apply N.Div0.div_lt_upper_bound; lia).
    repeat constructor; lia. }
  assert (cp / 262144 < 5)%N by (apply N.Div0.div_lt_upper_bound; lia).
  repeat constructor; lia.
Qed.

Lemma percentEncode_safe cp :
  (cp < 1114112)%N ->
  Forall (fun c => isUnreserved c = true \/ c = 37%N) (percentEncode cp).
Proof.
  intros H. unfold percentEncode.
  pose proof (utf8_octets cp H) as Hb.
  induction Hb as [|b bs Hb1 Hb2 IH]; cbn [map concat]; [constructor|].
  apply Forall_app_2; [apply percentOctet_safe, Hb1 | exact IH].
Qed.

Lemma codePointOfPair_bound hi lo :
  isLeadSurrogate hi = true -> isTrailSurrogate lo = true ->
  (codePointOfPair hi lo < 1114112)%N.
Proof.
  unfold isLeadSurrogate, isTrailSurrogate, inRange, codePointOfPair.
  intros [H1 H2]%andb_true_iff [H3 H4]%andb_true_iff.
  apply N.leb_le in H1, H2, H3, H4. nia.
Qed.

Lemma encodeURIComponent_safe n : forall s e,
  (length s <= n)%nat ->
  Forall (fun c => (c < 65536)%N) s ->
  encodeURIComponent s = Some e ->
  Forall (fun c => isUnreserved c = true \/ c = 37%N) e.
Proof.
  induction n as [|n IH]; intros s e Hlen Hv He.
  - destruct s; [|simpl in Hlen; lia]. injection He as <-. constructor.
  - destruct s as [|c rest]; [injection He as <-; constructor|].
    apply Forall_cons in Hv as [Hc Hrest]. simpl in Hlen.
    cbn [encodeURIComponent] in He.
    destruct (isUnreserved c) eqn:Hu.
    + destruct (encodeURIComponent rest) as [e'|] eqn:He'; [|discriminate].
      injection He as <-. constructor; [left; exact Hu|].
      apply (IH rest e'); auto; lia.
    + destruct (isTrailSurrogate c); [discriminate|].
      destruct (isLeadSurrogate c) eqn:Hlead.
      * destruct rest as [|d rest']; [discriminate|].
        destruct (isTrailSurrogate d) eqn:Htrail; [|discriminate].
        destruct (encodeURIComponent rest') as [e'|] eqn:He'; [|discriminate].
        injection He as <-.
        apply Forall_cons in Hrest as [_ Hrest']. simpl in Hlen.
        apply Forall_app_2.
        -- apply percentEncode_safe, codePointOfPair_bound; assumption.
        -- apply (IH rest' e'); auto; lia.
      * destruct (encodeURIComponent rest) as [e'|] eqn:He'; [|discriminate].
        injection He as <-.
        apply Forall_app_2.
        -- apply percentEncode_safe. lia.
        -- apply (IH rest e'); auto; lia.
Qed.

Lemma beforeFirst_app c a b :
  Forall (fun x => x <> c) a -> beforeFirst c (a ++ c :: b) = a.
Proof.
  induction 1 as [|x a Hx _ IH]; simpl.
  - now rewrite N.eqb_refl.
  - destruct (N.eqb_spec x c); [contradiction|]. now rewrite IH.
Qed.

Lemma afterFirst_app c a b :
  Forall (fun x => x <> c) a -> afterFirst c (a ++ c :: b) = b.
Proof.
  induction 1 as [|x a Hx _ IH]; simpl.
  - now rewrite N.eqb_refl.
  - destruct (N.eqb_spec x c); [contradiction|]. exact IH.
Qed.

Lemma encoded_no_question s e :
  Forall (fun c => (c < 65536)%N) s ->
  encodeURIComponent s = Some e ->
  Forall (fun c => c <> 63%N)
    (lit "https://image.pollinations.ai/prompt/" ++ e).
Proof.
  intros Hv He. apply Forall_app_2.
  - repeat constructor; discriminate.
  - pose proof (encodeURIComponent_safe (length s) s e (le_n _) Hv He) as Hs.
    eapply Forall_impl; [exact Hs|].
    intros c [Hc | ->] E; [subst c; vm_compute in Hc|]; discriminate.
Qed.

(** X7. A prompt cannot reach the query of a locator.  For a job whose
    prompt [encodeURIComponent] accepts, the first question mark of the
    video locator and of the image locator that [getVideoJobStatus]
    builds is the one of the template: before it stands the prompt path
    with the encoded prompt, made of unreserved characters and percent
    signs only, and after it exactly the parameters of the template. *)
Theorem prompt_stays_in_path (job : Job) (e : jsstring) :
  Forall (fun c => (c < 65536)%N) (j_prompt job) ->
  encodeURIComponent (j_prompt job) = Some e ->
  Forall (fun c => isUnreserved c = true \/ c = 37%N) e
  /\ beforeFirst 63 (Service.pollinationsVideoUrl e job)
     = lit "https://image.pollinations.ai/prompt/" ++ e
  /\ afterFirst 63 (Service.pollinationsVideoUrl e job)
     = lit "width=" ++ numberToString (Service.width (j_aspectRatio job))
       ++ lit "&height=" ++ numberToString (Service.height (j_aspectRatio job))
       ++ lit "&duration=" ++ numberToString (Service.videoDuration job)
       ++ lit "&format=mp4&nologo=true"
  /\ beforeFirst 63 (Service.pollinationsImageUrl e job)
     = lit "https://image.pollinations.ai/prompt/" ++ e
  /\ afterFirst 63 (Service.pollinationsImageUrl e job)
     = lit "width=" ++ numberToString (Service.width (j_aspectRatio job))
       ++ lit "&height=" ++ numberToString (Service.height (j_aspectRatio job))
       ++ lit "&nologo=true".
Proof.
  intros Hv He.
  pose proof (encoded_no_question _ _ Hv He) as Hq.
  split; [exact (encodeURIComponent_safe _ _ e (le_n _) Hv He)|].
  unfold Service.pollinationsVideoUrl, Service.pollinationsImageUrl.
  change (lit "?width=") with (63%N :: lit "width=").
  rewrite !(app_assoc (lit "https://image.pollinations.ai/prompt/") e).
  cbn [app].
  repeat split;
    first [apply (beforeFirst_app 63 _ _ Hq) | apply (afterFirst_app 63 _ _ Hq)].
Qed.

Lemma prompt_stays_in_path_witness :
  beforeFirst 63
    (Service.pollinationsVideoUrl (lit "a%3Fb%26c%3Dd%20%23%2F") delimiterJob)
  = lit "https://image.pollinations.ai/prompt/a%3Fb%26c%3Dd%20%23%2F"
  /\ afterFirst 63
       (Service.pollinationsVideoUrl (lit "a%3Fb%26c%3Dd%20%23%2F")
          delimiterJob)
     = lit "width=576&height=1024&duration=10&format=mp4&nologo=true".
Proof.
  destruct (prompt_stays_in_path delimiterJob (lit "a%3Fb%26c%3Dd%20%23%2F"))
    as (_ & Hb & Ha & _).
  - repeat constructor.
  - vm_compute. reflexivity.
  - split; [rewrite Hb | rewrite Ha]; vm_compute; reflexivity.
Defined.

(** ** The thumbnail of a ready video *)

Lemma lit_cons a s : lit (String a s) = N_of_ascii a :: lit s.
Proof. reflexivity. Qed.

Lemma string_of_uint_no_dot d :
  Forall (fun c => c <> 46%N) (lit (NilEmpty.string_of_uint d)).
Proof.
  induction d; cbn [NilEmpty.string_of_uint]; rewrite ?lit_cons;
    constructor; try discriminate; assumption.
Qed.

Lemma numberToString_no_dot n :
  Forall (fun c => c <> 46%N) (numberToString n).
Proof.
  unfold numberToString, NilZero.string_of_int, NilZero.string_of_uint.
  destruct (Z.to_int n) as [d|d].
  - destruct d; try apply string_of_uint_no_dot.
    rewrite lit_cons. repeat constructor. discriminate.
  - rewrite lit_cons. constructor; [discriminate|].
    destruct d; try apply string_of_uint_no_dot.
    rewrite lit_cons. repeat constructor. discriminate.
Qed.

Lemma hexDigit_no_dot d : hexDigit d <> 46%N.
Proof. unfold hexDigit. destruct (N.ltb_spec d 10); lia. Qed.

Lemma percentEncode_no_dot cp :
  Forall (fun c => c <> 46%N) (percentEncode cp).
Proof.
  unfold percentEncode.
  induction (utf8 cp) as [|b bs IH]; cbn [map concat]; [constructor|].
  apply Forall_app_2; [|exact IH].
  unfold percentOctet.
  repeat constructor; try apply hexDigit_no_dot. discriminate.
Qed.

Lemma encodeURIComponent_no_dot n : forall s e,
  (length s <= n)%nat ->
  Forall (fun c => c <> 46%N) s ->
  encodeURIComponent s = Some e ->
  Forall (fun c => c <> 46%N) e.
Proof.
  induction n as [|n IH]; intros s e Hlen Hv He.
  - destruct s; [|simpl in Hlen; lia]. injection He as <-. constructor.
  - destruct s as [|c rest]; [injection He as <-; constructor|].
    apply Forall_cons in Hv as [Hc Hrest]. simpl in Hlen.
    cbn [encodeURIComponent] in He.
    destruct (isUnreserved c).
    + destruct (encodeURIComponent rest) as [e'|] eqn:He'; [|discriminate].
      injection He as <-. constructor; [exact Hc|].
      apply (IH rest e'); auto; lia.
    + destruct (isTrailSurrogate c); [discriminate|].
      destruct (isLeadSurrogate c).
      * destruct rest as [|d rest']; [discriminate|].
        destruct (isTrailSurrogate d); [|discriminate].
        destruct (encodeURIComponent rest') as [e'|] eqn:He'; [|discriminate].
        injection He as <-.
        apply Forall_cons in Hrest as [_ Hrest']. simpl in Hlen.
        apply Forall_app_2; [apply percentEncode_no_dot|].
        apply (IH rest' e'); auto; lia.
      * destruct (encodeURIComponent rest) as [e'|] eqn:He'; [|discriminate].
        injection He as <-.
        apply Forall_app_2; [apply percentEncode_no_dot|].
        apply (IH rest e'); auto; lia.
Qed.

(** A pattern that begins with a character the text does not contain is
    not found, and [replace] returns the text. *)
Lemma replaceFirst_absent c pat rep s :
  Forall (fun x => x <> c) s -> replaceFirst (c :: pat) rep s = s.
Proof.
  induction 1 as [|x s Hx Hs IH]; [reflexivity|].
  cbn [replaceFirst startsWith].
  destruct (N.eqb_spec c x) as [->|_]; [congruence|].
  cbn [andb]. now rewrite IH.
Qed.

Lemma replaceFirst_pollinations s :
  replaceFirst (lit ".mp4") (lit ".jpg")
    (lit "https://image.pollinations.ai/prompt/" ++ s)
  = lit "https://image.pollinations.ai/prompt/"
    ++ replaceFirst (lit ".mp4") (lit ".jpg") s.
Proof. reflexivity. Qed.

Lemma lit_no_dot_width : Forall (fun c => c <> 46%N) (lit "?width=").
Proof. repeat constructor; discriminate. Qed.
Lemma lit_no_dot_height : Forall (fun c => c <> 46%N) (lit "&height=").
Proof. repeat constructor; discriminate. Qed.
Lemma lit_no_dot_duration : Forall (fun c => c <> 46%N) (lit "&duration=").
Proof. repeat constructor; discriminate. Qed.
Lemma lit_no_dot_format :
  Forall (fun c => c <> 46%N) (lit "&format=mp4&nologo=true").
Proof. repeat constructor; discriminate. Qed.

(** X8. The thumbnail of a ready video is the video itself.  For a job on
    the synthetic path, past its processing time, whose prompt encodes and
    contains no full stop, a poll that finds the locator reachable returns
    the same locator as [videoUrl] and as [thumbnail]: the locator ends in
    [format=mp4], so [replace('.mp4', '.jpg')] finds nothing to replace. *)
Theorem ready_thumbnail_is_video (jobId : jsstring) (job : Job) (w : World)
    (enc : jsstring) :
  localStorage w !! Service.storageKey jobId = Some (Parsed job) ->
  routingMode job = Synthetic ->
  5000 <= now w - j_createdAt job ->
  encodeURIComponent (j_prompt job) = Some enc ->
  Forall (fun c => c <> 46%N) (j_prompt job) ->
  reachable (network w) 40 = true ->
  exists w',
    Service.getVideoJobStatus jobId w
    = (Normal {| Service.status := lit "completed";
                 Service.videoUrl :=
                   Some (Service.pollinationsVideoUrl enc job);
                 Service.thumbnail :=
                   Some (Service.pollinationsVideoUrl enc job);
                 Service.error := None;
                 Service.isImageSequence := Some true |}, w').
Proof.
  intros Hjob Hr Hl He Hdot Hreach.
  rewrite (poll_synthetic jobId job w Hjob Hr). unfold tryCatch.
  destruct (imageSequenceStatus_late job w enc Hl He) as (w' & Hi & _).
  rewrite Hi, Hreach. exists w'. unfold Service.videoReady.
  repeat f_equal.
  unfold Service.pollinationsVideoUrl.
  rewrite replaceFirst_pollinations. f_equal.
  apply replaceFirst_absent.
  repeat (apply Forall_app_2);
    eauto using numberToString_no_dot, lit_no_dot_width, lit_no_dot_height,
      lit_no_dot_duration, lit_no_dot_format, encodeURIComponent_no_dot.
Qed.

Lemma ready_thumbnail_is_video_witness :
  exists w',
    Service.getVideoJobStatus sunsetId (sunsetWorld 6000 [ok200])
    = (Normal {| Service.status := lit "completed";
                 Service.videoUrl :=
                   Some (Service.pollinationsVideoUrl (lit "sunset") sunsetJob);
                 Service.thumbnail :=
                   Some (Service.pollinationsVideoUrl (lit "sunset") sunsetJob);
                 Service.error := None;
                 Service.isImageSequence := Some true |}, w').
Proof.
  apply (ready_thumbnail_is_video sunsetId sunsetJob
           (sunsetWorld 6000 [ok200]) (lit "sunset")).
  - vm_compute. reflexivity.
  - vm_compute. reflexivity.
  - vm_compute. discriminate.
  - vm_compute. reflexivity.
  - repeat constructor; discriminate.
  - vm_compute. reflexivity.
Defined.

(** ** The create endpoint of the server handler *)

Lemma orElse_nonempty a b : b <> [] -> orElse a b <> [].
Proof. destruct a as [[|c s]|]; simpl; auto; discriminate. Qed.

Lemma job_id_nonempty t r : lit "job_" ++ numberToString t ++ lit "_" ++ r <> [].
Proof. discriminate. Qed.

(** The statements after the submission, case by case on the answer. *)
Lemma register_cases jobId jobData response w :
  exists r w',
    ApiCreate.register jobId jobData response w = (r, w')
    /\ trace w' = trace w
    /\ match r with
       | Normal reply =>
           exists d,
             resp_ok response = true /\ resp_body response = Obj d
             /\ reply
                = {| ApiCreate.code := 200;
                     ApiCreate.answer :=
                       ApiCreate.Created jobId (lit "queued")
                         (lit "Video generation job created successfully")
                         (if bool_decide (sj_provider jobData = lit "fal")
                          then lit "30-60 seconds"
                          else lit "60-120 seconds") |}
             /\ jobStore w'
                = <[jobId :=
                      {| sj_id := sj_id jobData;
                         sj_prompt := sj_prompt jobData;
                         sj_aspectRatio := sj_aspectRatio jobData;
                         sj_duration := sj_duration jobData;
                         sj_tier := sj_tier jobData;
                         sj_provider := sj_provider jobData;
                         sj_status := lit "processing";
                         sj_createdAt := sj_createdAt jobData;
                         sj_externalJobId :=
                           Some (orElse (request_id d)
                                   (orElse (taskId d)
                                      (orElse (data_id d) jobId)));
                         sj_error := sj_error jobData |}]> (jobStore w)
       | Throw e =>
           jobStore w' = jobStore w
           /\ (resp_ok response = false
               \/ exists e', resp_body response = BadJson e')
       end.
Proof.
  unfold ApiCreate.register, bind, json, throw, ret, Api.jobStore_set.
  destruct (resp_ok response) eqn:Hok; simpl.
  - destruct (resp_body response) as [e|d] eqn:Hb; simpl.
    + eexists. eexists. split; [reflexivity|]. split; [reflexivity|].
      split; [reflexivity|]. right. eauto.
    + eexists. eexists. split; [reflexivity|]. split; [reflexivity|].
      exists d. repeat split.
  - eexists. eexists. split; [reflexivity|]. split; [reflexivity|].
    split; [reflexivity|]. left. reflexivity.
Qed.

(** X9. The server stores a job exactly when it answers 200.  Whatever the
    body of the request, [createVideoJob] returns an answer; either the
    answer is 200 "queued" and one record was written under the returned
    id, with status processing and a non-empty provider reference, the
    provider having accepted the submission; or the answer is 400, 503 or
    500 and the store is as it was.  At most one request is sent. *)
Theorem create_stores_iff_accepted (b : ApiCreate.ReqBody) (w : World) :
  exists r w',
    ApiCreate.createVideoJob b w = (Normal r, w')
    /\ (length (requests (trace w')) <= S (length (requests (trace w))))%nat
    /\ ((exists jobId message estimatedTime job d,
           r = {| ApiCreate.code := 200;
                  ApiCreate.answer :=
                    ApiCreate.Created jobId (lit "queued") message
                                      estimatedTime |}
           /\ jobStore w' = <[jobId := job]> (jobStore w)
           /\ sj_id job = jobId
           /\ sj_status job = lit "processing"
           /\ truthy (sj_externalJobId job) = true
           /\ accepted (network w) = Some d)
        \/ (ApiCreate.code r ∈ [400; 503; 500]
            /\ jobStore w' = jobStore w)).
Proof.
  assert (Hreq : forall tr rq,
            length (requests (tr ++ [EvFetch rq])) = S (length (requests tr))).
  { induction tr as [|[x|m] tr IH]; intros; simpl; auto. }
  unfold ApiCreate.createVideoJob.
  destruct (negb (truthy (ApiCreate.prompt b))
            || negb (truthy (ApiCreate.aspectRatio b))
            || negb (ApiCreate.truthyNumber (ApiCreate.duration b))
            || negb (truthy (ApiCreate.tier b))).
  { eexists. eexists. split; [reflexivity|]. split; [lia|].
    right. split; [set_solver|reflexivity]. }
  cbv zeta. unfold bind at 1, Api.readApiKey.
  match goal with
  | |- context [negb (?k || ?i)] => destruct (k || i)
  end; cbn [negb].
  2: { eexists. eexists. split; [reflexivity|]. split; [lia|].
       right. split; [set_solver|reflexivity]. }
  unfold bind at 1, Date_now. unfold bind at 1, randomSuffix.
  assert (Hgo : forall v : World,
    jobStore v = jobStore w -> trace v = trace w -> network v = network w ->
    now v = now w ->
    exists r w',
      tryCatch
        (c <- Date_now ;;
         let jobData :=
           {| sj_id := lit "job_" ++ numberToString (now w) ++ lit "_"
                       ++ match entropy w with [] => [] | x :: _ => x end;
              sj_prompt := orElse (ApiCreate.prompt b) [];
              sj_aspectRatio := orElse (ApiCreate.aspectRatio b) [];
              sj_duration := default 0 (ApiCreate.duration b);
              sj_tier := orElse (ApiCreate.tier b) [];
              sj_provider :=
                orElse (ApiCreate.provider b)
                  (if bool_decide (orElse (ApiCreate.tier b) [] = lit "free")
                   then lit "piapi" else lit "fal");
              sj_status := lit "queued"; sj_createdAt := c;
              sj_externalJobId := None; sj_error := None |} in
         if bool_decide (sj_provider jobData = lit "fal") then
           externalResponse <-
             fetch (ApiCreate.falRequest
                      (orElse (Api.getApiKey w (sj_provider jobData)) [])
                      (sj_prompt jobData) (sj_aspectRatio jobData)
                      (sj_tier jobData) (sj_duration jobData)) ;;
           ApiCreate.register (sj_id jobData) jobData externalResponse
         else if bool_decide (sj_provider jobData = lit "piapi") then
           externalResponse <-
             fetch (ApiCreate.piapiRequest
                      (orElse (Api.getApiKey w (sj_provider jobData)) [])
                      (sj_prompt jobData) (sj_aspectRatio jobData)
                      (sj_duration jobData)) ;;
           ApiCreate.register (sj_id jobData) jobData externalResponse
         else
           ret {| ApiCreate.code := 400;
                  ApiCreate.answer :=
                    ApiCreate.Rejected400 (lit "Unsupported provider") None |})
        (fun e =>
           ret {| ApiCreate.code := 500;
                  ApiCreate.answer :=
                    ApiCreate.Failed500 (lit "Failed to create video job")
                      (orElse (Some (message e))
                         (lit "Something went wrong creating the video job")) |})
        v = (Normal r, w')
      /\ (length (requests (trace w')) <= S (length (requests (trace w))))%nat
      /\ ((exists jobId message estimatedTime job d,
             r = {| ApiCreate.code := 200;
                    ApiCreate.answer :=
                      ApiCreate.Created jobId (lit "queued") message
                                        estimatedTime |}
             /\ jobStore w' = <[jobId := job]> (jobStore w)
             /\ sj_id job = jobId
             /\ sj_status job = lit "processing"
             /\ truthy (sj_externalJobId job) = true
             /\ accepted (network w) = Some d)
          \/ (ApiCreate.code r ∈ [400; 503; 500]
              /\ jobStore w' = jobStore w))).
  { intros v Hjs Htr Hnet Hnow.
    unfold tryCatch, bind at 1, Date_now. cbv zeta.
    cbn [sj_provider sj_id sj_prompt sj_aspectRatio sj_tier sj_duration].
    assert (Hsub : forall rq jobData,
      sj_id jobData
      = lit "job_" ++ numberToString (now w) ++ lit "_"
        ++ match entropy w with [] => [] | x :: _ => x end ->
      exists r w',
        match bind (fetch rq)
                   (fun externalResponse =>
                      ApiCreate.register (sj_id jobData) jobData
                        externalResponse) v
        with
        | (Normal a, w'0) => (Normal a, w'0)
        | (Throw e, w'0) =>
            ret {| ApiCreate.code := 500;
                   ApiCreate.answer :=
                     ApiCreate.Failed500 (lit "Failed to create video job")
                       (orElse (Some (message e))
                          (lit "Something went wrong creating the video job")) |}
                w'0
        end = (Normal r, w')
        /\ (length (requests (trace w')) <= S (length (requests (trace w))))%nat
        /\ ((exists jobId message estimatedTime job d,
               r = {| ApiCreate.code := 200;
                      ApiCreate.answer :=
                        ApiCreate.Created jobId (lit "queued") message
                                          estimatedTime |}
               /\ jobStore w' = <[jobId := job]> (jobStore w)
               /\ sj_id job = jobId
               /\ sj_status job = lit "processing"
               /\ truthy (sj_externalJobId job) = true
               /\ accepted (network w) = Some d)
            \/ (ApiCreate.code r ∈ [400; 503; 500]
                /\ jobStore w' = jobStore w))).
    { intros rq jobData Hid. unfold bind at 1, fetch. rewrite Hnet.
      destruct (network w) as [|[e|st body] net] eqn:Hn.
      - eexists. eexists. split; [reflexivity|]. simpl.
        rewrite Htr, Hreq. split; [lia|]. right. split; [set_solver|exact Hjs].
      - eexists. eexists. split; [reflexivity|]. simpl.
        rewrite Htr, Hreq. split; [lia|]. right. split; [set_solver|exact Hjs].
      - match goal with
        | |- context [ApiCreate.register ?j ?jd ?resp ?x] =>
            destruct (register_cases j jd resp x)
              as (r & w'' & Hreg & Htr' & Hcase)
        end.
        rewrite Hreg. simpl in Htr'.
        destruct r as [reply|e].
        + destruct Hcase as (d & Hok & Hbody & -> & Hstore).
          simpl in Hok, Hbody, Hstore. subst body.
          eexists. eexists. split; [reflexivity|].
          rewrite Htr', Htr, Hreq. split; [lia|]. left.
          eexists. eexists. eexists. eexists. exists d.
          split; [reflexivity|]. rewrite Hjs in Hstore.
          split; [exact Hstore|]. split; [reflexivity|].
          split; [reflexivity|]. split.
          * simpl. apply truthy_nonempty.
            repeat apply orElse_nonempty. rewrite Hid.
            apply job_id_nonempty.
          * unfold accepted. unfold resp_ok in Hok. simpl in Hok.
            now rewrite Hok.
        + destruct Hcase as (Hstore & _). simpl in Hstore.
          eexists. eexists. split; [reflexivity|]. simpl.
          rewrite Htr', Htr, Hreq. split; [lia|]. right.
          split; [set_solver|]. now rewrite Hstore. }
    destruct (bool_decide _); [apply Hsub; reflexivity|].
    destruct (bool_decide _); [apply Hsub; reflexivity|].
    eexists. eexists. split; [reflexivity|]. rewrite Htr.
    split; [lia|]. right. split; [set_solver|exact Hjs]. }
  destruct (entropy w) as [|sfx rest] eqn:He; apply Hgo; reflexivity.
Qed.

Lemma accepted_network net d :
  accepted net = Some d ->
  exists st rest,
    net = Responded st (Obj d) :: rest
    /\ (200 <=? st) && (st <=? 299) = true.
Proof.
  unfold accepted. destruct net as [|[e|st [e|d']] rest]; try discriminate.
  destruct ((200 <=? st) && (st <=? 299)) eqn:Hok; [|discriminate].
  intros [= <-]. eauto.
Qed.

(** The successful creation on the server, in full. *)
Lemma create_success (b : ApiCreate.ReqBody) (w : World)
    (p a t key : jsstring) (d : Z) (data : ProviderData) :
  ApiCreate.prompt b = Some p -> p <> [] ->
  ApiCreate.aspectRatio b = Some a -> a <> [] ->
  ApiCreate.duration b = Some d -> d <> 0 ->
  ApiCreate.tier b = Some t -> t <> [] ->
  let sel := orElse (ApiCreate.provider b)
               (if bool_decide (t = lit "free") then lit "piapi"
                else lit "fal") in
  sel = lit "fal" \/ sel = lit "piapi" ->
  Api.getApiKey w sel = Some key -> key <> [] ->
  accepted (network w) = Some data ->
  exists jobId message estimatedTime job rq body w',
    ApiCreate.createVideoJob b w
    = (Normal {| ApiCreate.code := 200;
                 ApiCreate.answer :=
                   ApiCreate.Created jobId (lit "queued") message
                                     estimatedTime |}, w')
    /\ jobId <> []
    /\ jobStore w' = <[jobId := job]> (jobStore w)
    /\ localStorage w' = localStorage w
    /\ now w' = now w
    /\ FAL_API_KEY w' = FAL_API_KEY w
    /\ sj_id job = jobId
    /\ sj_status job = lit "processing"
    /\ sj_aspectRatio job = a
    /\ sj_tier job = t
    /\ sj_prompt job = p
    /\ sj_duration job = d
    /\ sj_provider job = sel
    /\ sj_createdAt job = now w
    /\ sj_externalJobId job
       = Some (orElse (request_id data)
                 (orElse (taskId data) (orElse (data_id data) jobId)))
    /\ trace w' = trace w ++ [EvFetch rq]
    /\ rq_body rq = Some body
    /\ sb_prompt body = p
    /\ sb_duration body
       = Z.min d (if bool_decide (sel = lit "fal")
                  then (if bool_decide (t = lit "pro") then 30 else 15)
                  else 10).
Proof.
  intros Hp Hpne Ha Hane Hd Hdne Ht Htne sel Hsel Hkey Hkne Hacc.
  destruct p as [|pc ps]; [congruence|].
  destruct a as [|ac az]; [congruence|].
  destruct t as [|tc ts]; [congruence|].
  destruct key as [|kc ks]; [congruence|].
  destruct (accepted_network _ _ Hacc) as (st & rest & Hnet & Hok).
  unfold ApiCreate.createVideoJob.
  rewrite Hp, Ha, Hd, Ht.
  cbn [truthy ApiCreate.truthyNumber negb orb orElse default].
  rewrite (proj2 (Z.eqb_neq d 0) Hdne). cbn [negb orb].
  cbv zeta. fold sel.
  unfold bind at 1, Api.readApiKey. rewrite Hkey.
  cbn [truthy orb negb orElse].
  unfold bind at 1, Date_now. unfold bind at 1, randomSuffix.
  unfold tryCatch, bind at 1, Date_now.
  destruct Hsel as [Hs | Hs]; rewrite Hs.
  - rewrite (bool_decide_eq_true_2 (lit "fal" = lit "fal")) by reflexivity.
    destruct (entropy w) as [|sfx er];
      unfold bind, fetch; simpl network; rewrite Hnet;
      unfold ApiCreate.register, bind, json, Api.jobStore_set, ret, resp_ok;
      simpl; rewrite Hok; simpl;
      do 6 eexists; eexists;
      (split; [reflexivity|]); simpl; (split; [discriminate|]);
      repeat split.
  - rewrite (bool_decide_eq_false_2 (lit "piapi" = lit "fal")) by discriminate.
    rewrite (bool_decide_eq_true_2 (lit "piapi" = lit "piapi")) by reflexivity.
    destruct (entropy w) as [|sfx er];
      unfold bind, fetch; simpl network; rewrite Hnet;
      unfold ApiCreate.register, bind, json, Api.jobStore_set, ret, resp_ok;
      simpl; rewrite Hok; simpl;
      do 6 eexists; eexists;
      (split; [reflexivity|]); simpl; (split; [discriminate|]);
      repeat split.
Qed.

(** X10. What the server keeps and what it sends.  For a request with all
    four fields, a configured key for the selected provider (the one named
    in the body, else piapi for tier free and fal otherwise) and a provider
    that accepts: the record stored under the returned id keeps the
    requested duration as it is, while the submission carries the duration
    clamped (for fal to 30 when the tier is pro and to 15 otherwise, for
    piapi to 10); the record is stamped with the clock of the call and
    holds the provider's [request_id], else [taskId], else [id], else the
    job id itself. *)
Theorem create_keeps_requested_duration (b : ApiCreate.ReqBody) (w : World)
    (p a t key : jsstring) (d : Z) (data : ProviderData) :
  ApiCreate.prompt b = Some p -> p <> [] ->
  ApiCreate.aspectRatio b = Some a -> a <> [] ->
  ApiCreate.duration b = Some d -> d <> 0 ->
  ApiCreate.tier b = Some t -> t <> [] ->
  let sel := orElse (ApiCreate.provider b)
               (if bool_decide (t = lit "free") then lit "piapi"
                else lit "fal") in
  sel = lit "fal" \/ sel = lit "piapi" ->
  Api.getApiKey w sel = Some key -> key <> [] ->
  accepted (network w) = Some data ->
  exists jobId message estimatedTime job rq body w',
    ApiCreate.createVideoJob b w
    = (Normal {| ApiCreate.code := 200;
                 ApiCreate.answer :=
                   ApiCreate.Created jobId (lit "queued") message
                                     estimatedTime |}, w')
    /\ jobStore w' !! jobId = Some job
    /\ sj_prompt job = p
    /\ sj_duration job = d
    /\ sj_provider job = sel
    /\ sj_createdAt job = now w
    /\ sj_externalJobId job
       = Some (orElse (request_id data)
                 (orElse (taskId data) (orElse (data_id data) jobId)))
    /\ trace w' = trace w ++ [EvFetch rq]
    /\ rq_body rq = Some body
    /\ sb_prompt body = p
    /\ sb_duration body
       = Z.min d (if bool_decide (sel = lit "fal")
                  then (if bool_decide (t = lit "pro") then 30 else 15)
                  else 10).
Proof.
  intros Hp Hpne Ha Hane Hd Hdne Ht Htne sel Hsel Hkey Hkne Hacc.
  destruct (create_success b w p a t key d data Hp Hpne Ha Hane Hd Hdne Ht
              Htne Hsel Hkey Hkne Hacc)
    as (jobId & message & estimatedTime & job & rq & body & w' & Hc & _
        & Hstore & _ & _ & _ & _ & _ & _ & _ & Hjp & Hjd & Hjs & Hjc & Hje
        & Htr & Hb & Hbp & Hbd).
  exists jobId, message, estimatedTime, job, rq, body, w'.
  split; [exact Hc|].
  split; [rewrite Hstore; apply lookup_insert_eq|].
  repeat split; assumption.
Qed.

Lemma create_keeps_requested_duration_witness :
  exists job rq body w',
    jobStore w' !! lit "job_0_" = Some job
    /\ sj_duration job = 40
    /\ trace w' = [EvFetch rq]
    /\ rq_body rq = Some body
    /\ sb_duration body = 30.
Proof.
  destruct (create_keeps_requested_duration (proBody 40)
              (liveWorld 0 [acceptedAs9]) (lit "sunset") (lit "16:9")
              (lit "pro") (lit "live-key") 40
              {| request_id := Some (lit "req-9"); job_id := None;
                 taskId := None; data_id := None; data_status := None;
                 video_url := None; thumbnail_url := None;
                 data_error := None |})
    as (jobId & message & estimatedTime & job & rq & body & w' & Hc & Hl
        & _ & Hd & _ & _ & _ & Ht & Hb & _ & Hbd);
    try reflexivity; try discriminate.
  - left. reflexivity.
  - exists job, rq, body, w'.
    assert (Hid : jobId = lit "job_0_").
    { assert (E : fst (ApiCreate.createVideoJob (proBody 40)
                         (liveWorld 0 [acceptedAs9]))
                  = Normal {| ApiCreate.code := 200;
                              ApiCreate.answer :=
                                ApiCreate.Created (lit "job_0_") (lit "queued")
                                  (lit "Video generation job created successfully")
                                  (lit "30-60 seconds") |})
        by (vm_compute; reflexivity).
      rewrite Hc in E. simpl in E. injection E as E _ _. exact E. }
    rewrite <- Hid. repeat split; assumption.
Defined.

(** ** The server handler from create to complete *)

Lemma api_poll_fal_late jobId job w :
  jobId <> [] ->
  jobStore w !! jobId = Some job ->
  sj_provider job = lit "fal" ->
  30000 <= now w - sj_createdAt job ->
  Api.getVideoJobStatus (Api.QString jobId) w
  = (Normal {| Api.code := 200;
               Api.body :=
                 Api.StatusBody
                   {| Api.status := lit "completed";
                      Api.jobId := sj_id job;
                      Api.videoUrl := Some Api.sampleVideoUrl;
                      Api.thumbnail :=
                        Some (lit "https://picsum.photos/320/180?random="
                              ++ jobId);
                      Api.error := None |} |},
     setJobStore (<[jobId := Api.withStatus (lit "completed") job]>
                    (jobStore w)) w).
Proof.
  intros Hne Hjob Hp Hl. destruct jobId as [|c s]; [congruence|].
  cbv beta iota zeta delta [Api.getVideoJobStatus bind Api.jobStore_get].
  rewrite Hjob.
  unfold tryCatch, Api.statusData_of, bind, Api.readApiKey, Date_now,
    Api.jobStore_set, ret.
  rewrite bool_decide_eq_true_2 by exact Hp.
  destruct (Z.leb_spec 30000 (now w - sj_createdAt job)); [reflexivity|lia].
Qed.

(** X11. The server handler from create to complete, for fal.  After a
    creation that the provider accepted, a complete call is answered 400
    "Job not completed" however much time has passed, as long as no status
    call was made; a status call 30 s or more after the creation answers
    completed with the sample video as locator; the complete call that
    follows answers 200 with the prompt, aspect ratio, duration, tier and
    provider of the request but with no locator, and deletes the
    record. *)
Theorem server_fal_lifecycle (b : ApiCreate.ReqBody) (w : World)
    (p a t key : jsstring) (d : Z) (data : ProviderData) (dt : Z) :
  ApiCreate.prompt b = Some p -> p <> [] ->
  ApiCreate.aspectRatio b = Some a -> a <> [] ->
  ApiCreate.duration b = Some d -> d <> 0 ->
  ApiCreate.tier b = Some t -> t <> [] ->
  orElse (ApiCreate.provider b)
    (if bool_decide (t = lit "free") then lit "piapi" else lit "fal")
  = lit "fal" ->
  FAL_API_KEY w = Some key -> key <> [] ->
  accepted (network w) = Some data ->
  30000 <= dt ->
  exists jobId message estimatedTime w1 w2 w3,
    ApiCreate.createVideoJob b w
    = (Normal {| ApiCreate.code := 200;
                 ApiCreate.answer :=
                   ApiCreate.Created jobId (lit "queued") message
                                     estimatedTime |}, w1)
    /\ Api.completeVideoJob (Some jobId) (setNow (now w1 + dt) w1)
       = (Normal {| Api.code := 400;
                    Api.body :=
                      Api.ErrorBody (lit "Job not completed")
                        (Some (lit "Job status is processing, not completed")) |},
          setNow (now w1 + dt) w1)
    /\ Api.getVideoJobStatus (Api.QString jobId) (setNow (now w1 + dt) w1)
       = (Normal {| Api.code := 200;
                    Api.body :=
                      Api.StatusBody
                        {| Api.status := lit "completed";
                           Api.jobId := jobId;
                           Api.videoUrl := Some Api.sampleVideoUrl;
                           Api.thumbnail :=
                             Some (lit "https://picsum.photos/320/180?random="
                                   ++ jobId);
                           Api.error := None |} |}, w2)
    /\ Api.completeVideoJob (Some jobId) w2
       = (Normal {| Api.code := 200;
                    Api.body :=
                      Api.CompleteBody
                        {| Api.success := true; Api.cd_videoUrl := None;
                           Api.cd_thumbnail := None; Api.cd_jobId := jobId;
                           Api.cd_prompt := p; Api.cd_aspectRatio := a;
                           Api.cd_duration := d; Api.cd_tier := t;
                           Api.cd_provider := lit "fal" |} |}, w3)
    /\ jobStore w3 !! jobId = None.
Proof.
  intros Hp Hpne Ha Hane Hd Hdne Ht Htne Hsel Hkey Hkne Hacc Hdt.
  destruct (create_success b w p a t key d data Hp Hpne Ha Hane Hd Hdne Ht
              Htne)
    as (jobId & message & estimatedTime & job & rq & body & w1 & Hc & Hne
        & Hstore & _ & Hnow & _ & Hid & Hst & Hja & Hjt & Hjp & Hjd & Hjs
        & Hjc & _).
  { left. exact Hsel. }
  { rewrite Hsel. unfold Api.getApiKey.
    rewrite bool_decide_eq_true_2 by reflexivity. exact Hkey. }
  { exact Hkne. }
  { exact Hacc. }
  rewrite Hsel in Hjs.
  set (v := setNow (now w1 + dt) w1).
  assert (Hv : jobStore v !! jobId = Some job)
    by (simpl; rewrite Hstore; apply lookup_insert_eq).
  exists jobId, message, estimatedTime, w1. eexists. eexists.
  split; [exact Hc|]. split; [|split; [|split]].
  - destruct jobId as [|c s]; [congruence|].
    cbv beta iota zeta delta [Api.completeVideoJob bind Api.jobStore_get].
    fold v. rewrite Hv, Hst.
    rewrite bool_decide_eq_false_2 by discriminate. reflexivity.
  - fold v. rewrite (api_poll_fal_late jobId job v Hne Hv Hjs);
      [rewrite Hid; reflexivity|].
    simpl. rewrite Hjc. lia.
  - destruct jobId as [|c s]; [congruence|].
    cbv beta iota zeta delta
      [Api.completeVideoJob bind Api.jobStore_get Api.jobStore_delete ret].
    cbn [jobStore setJobStore]. rewrite lookup_insert_eq.
    rewrite bool_decide_eq_true_2 by reflexivity.
    cbn [Api.withStatus sj_id sj_prompt sj_aspectRatio sj_duration sj_tier
         sj_provider].
    rewrite Hid, Hjp, Hja, Hjd, Hjt, Hjs. reflexivity.
  - cbn [jobStore setJobStore]. apply lookup_delete_eq.
Qed.

Lemma server_fal_lifecycle_witness :
  exists jobId w2 w3,
    Api.getVideoJobStatus (Api.QString jobId)
      (setNow 30000 (snd (ApiCreate.createVideoJob (proBody 40)
                            (liveWorld 0 [acceptedAs9]))))
    = (Normal {| Api.code := 200;
                 Api.body :=
                   Api.StatusBody
                     {| Api.status := lit "completed";
                        Api.jobId := jobId;
                        Api.videoUrl := Some Api.sampleVideoUrl;
                        Api.thumbnail :=
                          Some (lit "https://picsum.photos/320/180?random="
                                ++ jobId);
                        Api.error := None |} |}, w2)
    /\ Api.completeVideoJob (Some jobId) w2
       = (Normal {| Api.code := 200;
                    Api.body :=
                      Api.CompleteBody
                        {| Api.success := true; Api.cd_videoUrl := None;
                           Api.cd_thumbnail := None; Api.cd_jobId := jobId;
                           Api.cd_prompt := lit "sunset";
                           Api.cd_aspectRatio := lit "16:9";
                           Api.cd_duration := 40; Api.cd_tier := lit "pro";
                           Api.cd_provider := lit "fal" |} |}, w3)
    /\ jobStore w3 !! jobId = None.
Proof.
  destruct (server_fal_lifecycle (proBody 40) (liveWorld 0 [acceptedAs9])
              (lit "sunset") (lit "16:9") (lit "pro") (lit "live-key") 40
              {| request_id := Some (lit "req-9"); job_id := None;
                 taskId := None; data_id := None; data_status := None;
                 video_url := None; thumbnail_url := None;
                 data_error := None |} 30000)
    as (jobId & message & estimatedTime & w1 & w2 & w3 & Hc & _ & Hs & Hf
        & Hgone);
    try reflexivity; try discriminate; try lia.
  exists jobId, w2, w3. rewrite Hc. simpl snd.
  assert (Hnow : now w1 = 0).
  { assert (E : now (snd (ApiCreate.createVideoJob (proBody 40)
                            (liveWorld 0 [acceptedAs9]))) = 0)
      by (vm_compute; reflexivity).
    rewrite Hc in E. exact E. }
  rewrite Hnow in Hs. simpl in Hs.
  repeat split; assumption.
Defined.

(** ** The dispatcher of the server handler *)

Lemma api_status_not_internal q w :
  exists r w',
    Api.getVideoJobStatus q w = (Normal r, w')
    /\ forall m, Api.body r <> Api.ErrorBody (lit "Internal server error") m.
Proof.
  destruct q as [|[|c s]|l];
    try (eexists; eexists; split; [reflexivity|]; intros m; discriminate).
  cbv beta iota zeta delta [Api.getVideoJobStatus bind Api.jobStore_get].
  destruct (jobStore w !! (c :: s)) as [job|].
  - unfold tryCatch, bind, ret.
    destruct (Api.statusData_of (c :: s) job w) as [[d|e] w1];
      eexists; eexists; (split; [reflexivity|]); intros m; discriminate.
  - eexists. eexists. split; [reflexivity|]. intros m; discriminate.
Qed.

Lemma api_complete_not_internal j w :
  exists r w',
    Api.completeVideoJob j w = (Normal r, w')
    /\ forall m, Api.body r <> Api.ErrorBody (lit "Internal server error") m.
Proof.
  destruct j as [[|c s]|];
    try (eexists; eexists; split; [reflexivity|]; intros m; discriminate).
  cbv beta iota zeta delta
    [Api.completeVideoJob bind Api.jobStore_get Api.jobStore_delete ret].
  destruct (jobStore w !! (c :: s)) as [job|].
  - destruct (negb (bool_decide (sj_status job = lit "completed")));
      eexists; eexists; (split; [reflexivity|]); intros m; discriminate.
  - eexists. eexists. split; [reflexivity|]. intros m; discriminate.
Qed.

Lemma api_create_returns b w :
  exists r w', ApiCreate.createVideoJob b w = (Normal r, w').
Proof.
  unfold ApiCreate.createVideoJob.
  destruct (_ || _); [eauto|]. cbv zeta.
  unfold bind at 1, Api.readApiKey.
  destruct (negb _); [eauto|].
  unfold bind at 1, Date_now. unfold bind at 1.
  destruct (randomSuffix w) as [[sfx|e] w1] eqn:Hr.
  - unfold tryCatch, ret.
    match goal with
    | |- context [match ?m w1 with _ => _ end] =>
        destruct (m w1) as [[x|e] w2]
    end; eauto.
  - unfold randomSuffix in Hr. destruct (entropy w); discriminate.
Qed.

(** X12. The dispatcher always answers, and its own 500 has one cause.
    [handler] returns an answer for every request; the answer is 500
    "Internal server error" exactly when the method is not OPTIONS, the
    action is create or complete and the request has no body (whose
    destructuring throws); an action that is absent, repeated or unknown
    is answered 400 "Invalid action parameter" and changes nothing. *)
Theorem handler_answers (req : ApiCreate.Req) (w : World) :
  exists r w',
    ApiCreate.handler req w = (Normal r, w')
    /\ ((exists m, r = ApiCreate.OfApi
                         {| Api.code := 500;
                            Api.body :=
                              Api.ErrorBody (lit "Internal server error") m |})
        <-> (ApiCreate.method req <> lit "OPTIONS"
             /\ ApiCreate.body req = None
             /\ (ApiCreate.action req = Api.QString (lit "create")
                 \/ ApiCreate.action req = Api.QString (lit "complete"))))
    /\ (ApiCreate.method req <> lit "OPTIONS" ->
        ApiCreate.action req <> Api.QString (lit "create") ->
        ApiCreate.action req <> Api.QString (lit "status") ->
        ApiCreate.action req <> Api.QString (lit "complete") ->
        r = ApiCreate.OfApi
              {| Api.code := 400;
                 Api.body :=
                   Api.ErrorBody (lit "Invalid action parameter") None |}
        /\ w' = w).
Proof.
  unfold ApiCreate.handler.
  destruct (bool_decide (ApiCreate.method req = lit "OPTIONS")) eqn:Hm.
  { apply bool_decide_eq_true_1 in Hm.
    eexists. eexists. split; [reflexivity|]. split.
    - split; [intros [m Hr]; discriminate|]. intros [H _]. congruence.
    - intros H. congruence. }
  apply bool_decide_eq_false_1 in Hm.
  unfold tryCatch.
  destruct (ApiCreate.action req) as [|a|l] eqn:Ha.
  1, 3: eexists; eexists; (split; [reflexivity|]); split;
    [ split; [intros [m Hr]; discriminate
             | intros (_ & _ & [H|H]); discriminate]
    | intros; split; reflexivity ].
  destruct (bool_decide (a = lit "create")) eqn:Hcr.
  { apply bool_decide_eq_true_1 in Hcr. subst a.
    destruct (ApiCreate.body req) as [b|] eqn:Hb.
    - destruct (api_create_returns b w) as (r & w' & Hr).
      unfold bind. rewrite Hr. eexists. eexists.
      split; [reflexivity|]. split.
      + split; [intros [m Hx]; discriminate|].
        intros (_ & Hn & _). discriminate.
      + intros _ H. congruence.
    - eexists. eexists. split; [reflexivity|]. split.
      + split; [intros _; auto|]. intros _. eauto.
      + intros _ H. congruence. }
  apply bool_decide_eq_false_1 in Hcr.
  destruct (bool_decide (a = lit "status")) eqn:Hst.
  { apply bool_decide_eq_true_1 in Hst. subst a.
    destruct (api_status_not_internal (ApiCreate.query_jobId req) w)
      as (r & w' & Hr & Hni).
    unfold bind. rewrite Hr. eexists. eexists.
    split; [reflexivity|]. split.
    - split.
      + intros [m Hx]. injection Hx as ->. exfalso. eapply Hni. reflexivity.
      + intros (_ & _ & [H|H]); discriminate.
    - intros _ _ H. congruence. }
  apply bool_decide_eq_false_1 in Hst.
  destruct (bool_decide (a = lit "complete")) eqn:Hco.
  { apply bool_decide_eq_true_1 in Hco. subst a.
    destruct (ApiCreate.body req) as [b|] eqn:Hb.
    - destruct (api_complete_not_internal (ApiCreate.jobId b) w)
        as (r & w' & Hr & Hni).
      unfold bind. rewrite Hr. eexists. eexists.
      split; [reflexivity|]. split.
      + split.
        * intros [m Hx]. injection Hx as ->. exfalso. eapply Hni. reflexivity.
        * intros (_ & Hn & _). discriminate.
      + intros _ _ _ H. congruence.
    - eexists. eexists. split; [reflexivity|]. split.
      + split; [intros _; auto|]. intros _. eauto.
      + intros _ _ _ H. congruence. }
  apply bool_decide_eq_false_1 in Hco.
  eexists. eexists. split; [reflexivity|]. split.
  - split; [intros [m Hr]; discriminate|].
    intros (_ & _ & [H|H]); congruence.
  - intros; split; reflexivity.
Qed.

Lemma handler_answers_witness :
  exists w',
    ApiCreate.handler
      {| ApiCreate.method := lit "POST";
         ApiCreate.action := Api.QArray [lit "create"; lit "status"];
         ApiCreate.query_jobId := Api.QAbsent;
         ApiCreate.body := None |} (quietWorld 0)
    = (Normal (ApiCreate.OfApi
                 {| Api.code := 400;
                    Api.body :=
                      Api.ErrorBody (lit "Invalid action parameter") None |}),
       w')
    /\ w' = quietWorld 0.
Proof.
  destruct (handler_answers
              {| ApiCreate.method := lit "POST";
                 ApiCreate.action := Api.QArray [lit "create"; lit "status"];
                 ApiCreate.query_jobId := Api.QAbsent;
                 ApiCreate.body := None |} (quietWorld 0))
    as (r & w' & Hr & _ & H400).
  destruct H400 as [-> ->]; try discriminate.
  exists (quietWorld 0). split; [exact Hr | reflexivity].
Defined.

(** ** The service off the browser *)

Lemma browser_createVideoJob config tier :
  OnRuntime.createVideoJob Browser config tier
  = Service.createVideoJob config tier.
Proof. reflexivity. Qed.

Lemma browser_getVideoJobStatus jobId :
  OnRuntime.getVideoJobStatus Browser jobId = Service.getVideoJobStatus jobId.
Proof. reflexivity. Qed.

Lemma node_getVideoJobStatus jobId w :
  OnRuntime.getVideoJobStatus NodeJs jobId w
  = (Normal (Service.failedWith (lit "localStorage is not defined")), w).
Proof. reflexivity. Qed.

(** X13. The status endpoint never answers 404 or 500 and never passes a
    thumbnail on; where it runs it finds no job.  [handler] of
    api/video/status.ts returns an answer with code 200, 400 or 405 for
    every request.  In the Node runtime, which has no [localStorage], a
    GET with a non-empty job id is answered 200 with [success: true],
    status "failed" and the error "localStorage is not defined", whatever
    the id, and nothing changes.  With the global supplied the answer
    relays the status, locator and error of the service's poll, the
    thumbnail left out; for an id with no stored record that is status
    "failed" with the error "Job not found". *)
Theorem status_endpoint_answers (rt : Runtime) (method : jsstring)
    (q : Api.QueryParam) (w : World) :
  exists r w',
    StatusEndpoint.handler rt method q w = (Normal r, w')
    /\ In (StatusEndpoint.code r) [200; 400; 405]
    /\ (forall jobId,
          method = lit "GET" -> q = Api.QString jobId -> jobId <> [] ->
          match rt with
          | NodeJs =>
              r = {| StatusEndpoint.code := 200;
                     StatusEndpoint.answer :=
                       StatusEndpoint.Status true jobId (lit "failed") None
                         None (Some (lit "localStorage is not defined")) |}
              /\ w' = w
          | Browser =>
              exists s,
                Service.getVideoJobStatus jobId w = (Normal s, w')
                /\ r = {| StatusEndpoint.code := 200;
                          StatusEndpoint.answer :=
                            StatusEndpoint.Status true jobId
                              (Service.status s) (Service.videoUrl s) None
                              (Service.error s) |}
                /\ (localStorage w !! Service.storageKey jobId = None ->
                    Service.status s = lit "failed"
                    /\ Service.videoUrl s = None
                    /\ Service.error s = Some (lit "Job not found")
                    /\ w' = w)
          end).
Proof.
  unfold StatusEndpoint.handler.
  destruct (bool_decide (method = lit "OPTIONS")) eqn:Ho.
  { apply bool_decide_eq_true_1 in Ho. subst method.
    eexists. eexists. split; [reflexivity|]. split; [simpl; auto|].
    intros jobId Hm. discriminate. }
  destruct (bool_decide (method = lit "GET")) eqn:Hg; cbn [negb].
  2: { apply bool_decide_eq_false_1 in Hg.
       eexists. eexists. split; [reflexivity|]. split; [simpl; auto|].
       intros jobId Hm. contradiction. }
  destruct q as [|[|c s]|l];
    try (eexists; eexists; split; [reflexivity|]; split; [simpl; auto|];
         intros jobId _ Hq; try discriminate;
         injection Hq as <-; intros Hne; contradiction).
  destruct rt.
  - rewrite browser_getVideoJobStatus.
    destruct (poll_returns (c :: s) w) as (st & w1 & Hp).
    unfold tryCatch, bind. rewrite Hp. cbn [ret].
    eexists. eexists. split; [reflexivity|]. split; [simpl; auto|].
    intros jobId _ Hq _. injection Hq as <-.
    exists st. split; [exact Hp|]. split; [reflexivity|].
    intros Hnone. rewrite (poll_unknown _ _ Hnone) in Hp.
    injection Hp as <- <-. repeat split; reflexivity.
  - unfold tryCatch, bind. rewrite node_getVideoJobStatus. cbn [ret].
    eexists. eexists. split; [reflexivity|]. split; [simpl; auto|].
    intros jobId _ Hq _. injection Hq as <-. split; reflexivity.
Qed.

Lemma status_endpoint_answers_witness :
  StatusEndpoint.handler NodeJs (lit "GET") (Api.QString sunsetId)
    (sunsetWorld 6000 [ok200])
  = (Normal {| StatusEndpoint.code := 200;
               StatusEndpoint.answer :=
                 StatusEndpoint.Status true sunsetId (lit "failed") None None
                   (Some (lit "localStorage is not defined")) |},
     sunsetWorld 6000 [ok200]).
Proof.
  destruct (status_endpoint_answers NodeJs (lit "GET")
              (Api.QString sunsetId) (sunsetWorld 6000 [ok200]))
    as (r & w' & Hr & _ & H).
  destruct (H sunsetId eq_refl eq_refl ltac:(discriminate)) as [-> ->].
  exact Hr.
Defined.

(** X14. Off the browser the service registers nothing, yet still
    submits.  In the Node runtime, which has no [localStorage],
    [createVideoJob] returns the failure with the empty job id for every
    request and changes no store.  For the free tier or without a usable
    fal key it sends nothing and the error is "localStorage is not
    defined".  For a paid tier with a usable key it still sends the one
    submission to the fal endpoint, with the key, the prompt, the clamped
    duration and the aspect ratio; when the provider accepts it, the
    result is that same failure, so the accepted job is recorded
    nowhere. *)
Theorem node_creation_registers_nothing (config : VideoConfig)
    (tier : UserTier) (w : World) :
  exists r w',
    OnRuntime.createVideoJob NodeJs config tier w = (Normal r, w')
    /\ Service.cr_jobId r = []
    /\ Service.cr_status r = lit "failed"
    /\ truthy (Service.cr_error r) = true
    /\ localStorage w' = localStorage w
    /\ jobStore w' = jobStore w
    /\ (tier = free \/ credentialConfigured w = false ->
        Service.cr_error r = Some (lit "localStorage is not defined")
        /\ trace w' = trace w)
    /\ (tier <> free ->
        forall key,
          FAL_API_KEY w = Some key -> credentialConfigured w = true ->
          trace w'
          = trace w
            ++ [EvFetch
                  {| rq_method := POST;
                     rq_url :=
                       lit "https://fal.run/fal-ai/kling-video/v2.5-turbo/text-to-video";
                     rq_authorization := Some (lit "Key " ++ key);
                     rq_body :=
                       Some {| sb_model := None;
                               sb_prompt := cfg_prompt config;
                               sb_duration :=
                                 Z.min (cfg_duration config)
                                   (match tier with pro => 30 | _ => 15 end);
                               sb_resolution := lit "1080p";
                               sb_aspect_ratio :=
                                 match cfg_aspectRatio config with
                                 | R9_16 => lit "9:16"
                                 | R16_9 => lit "16:9"
                                 | R1_1 => lit "1:1"
                                 end |} |}]
          /\ forall d,
               accepted (network w) = Some d ->
               Service.cr_error r = Some (lit "localStorage is not defined")).
Proof.
  pose proof (credential_usable w) as Hcu.
  assert (Hkk : forall key,
             FAL_API_KEY w = Some key -> credentialConfigured w = true ->
             Service.getApiKey w (lit "fal") = key)
    by (intros key Hk Hcc; now apply credential_key).
  remember (Service.getApiKey w (lit "fal")) as k eqn:Hk0.
  assert (Hb : forall (kont : jsstring -> M Service.CreateResult),
             bind (Service.readApiKey (lit "fal")) kont w = kont k w)
    by (subst k; reflexivity).
  clear Hk0.
  assert (Himg : exists w1,
    OnRuntime.createImageSequenceJob NodeJs config w
    = (Throw localStorageUndefined, w1)
    /\ localStorage w1 = localStorage w /\ jobStore w1 = jobStore w
    /\ trace w1 = trace w).
  { unfold OnRuntime.createImageSequenceJob, bind, Date_now, randomSuffix,
      localStorage_setItemIn, throw.
    destruct (entropy w); eexists; repeat split. }
  destruct Himg as (w1 & Hi & Hl & Hj & Ht).
  unfold OnRuntime.createVideoJob, tryCatch, OnRuntime.createVideoJob_body.
  destruct (Service.usableKey k) eqn:Hkey.
  2: { destruct tier; try rewrite Hb, Hkey; cbn [negb]; rewrite Hi;
         eexists; eexists; (split; [reflexivity|]);
         repeat split; auto; intros; congruence. }
  destruct tier.
  { rewrite Hi.
    eexists; eexists; (split; [reflexivity|]);
      repeat split; auto; intros; congruence. }
  all: rewrite Hb, Hkey; cbn [negb];
    unfold bind, Date_now, randomSuffix, fetch, json, localStorage_setItemIn,
      ret, throw, resp_ok, accepted;
    destruct (entropy w) as [|sfx rest]; simpl;
    destruct (network w) as [|[e|st [e|d]] net]; simpl;
    try destruct ((200 <=? st) && (st <=? 299)); simpl;
    eexists; eexists; (split; [reflexivity|]);
    (split; [reflexivity|]); (split; [reflexivity|]);
    (split; [apply truthy_orElse|]);
    (split; [reflexivity|]); (split; [reflexivity|]);
    (split; [intros [H|H]; congruence|]);
    intros _ key Hk Hcc; pose proof (Hkk key Hk Hcc) as <-;
    (split; [unfold Service.falSubmitRequest;
             destruct (cfg_aspectRatio config); reflexivity|]);
    intros d0 Hd; first [discriminate Hd | reflexivity].
Qed.

Lemma node_creation_registers_nothing_witness :
  exists w',
    OnRuntime.createVideoJob NodeJs (sunsetConfig 40) pro
      (liveWorld 0 [acceptedAs9])
    = (Normal {| Service.cr_jobId := [];
                 Service.cr_status := lit "failed";
                 Service.cr_error := Some (lit "localStorage is not defined");
                 Service.cr_isImageSequence := None |}, w')
    /\ length (requests (trace w')) = 1%nat.
Proof.
  destruct (node_creation_registers_nothing (sunsetConfig 40) pro
              (liveWorld 0 [acceptedAs9]))
    as (r & w' & Hc & Hid & Hs & _ & _ & _ & _ & Hpaid).
  destruct (Hpaid ltac:(discriminate) (lit "live-key") eq_refl eq_refl)
    as (Ht & He).
  specialize (He _ eq_refl).
  exists w'. split.
  - rewrite Hc. destruct r as [j s e i]. simpl in Hid, Hs, He. subst.
    assert (E : Service.cr_isImageSequence
                  (valueOf (Service.createVideoJob_failure networkError)
                     (fst (OnRuntime.createVideoJob NodeJs (sunsetConfig 40)
                             pro (liveWorld 0 [acceptedAs9])))) = None)
      by (vm_compute; reflexivity).
    rewrite Hc in E. simpl in E. subst i. reflexivity.
  - rewrite Ht. vm_compute. reflexivity.
Defined.

(** ** The server's status check and its store *)

Lemma sameJob_refl j : sameJob j j.
Proof. repeat split. Qed.

Lemma storeKept_refl s : storeKept s s.
Proof. intros k. destruct (s !! k); [apply sameJob_refl | exact I]. Qed.

Lemma storeKept_insert s k j j' :
  s !! k = Some j -> sameJob j j' -> storeKept s (<[k := j']> s).
Proof.
  intros Hk Hj k'. destruct (decide (k' = k)) as [->|Hne].
  - rewrite Hk, lookup_insert_eq. exact Hj.
  - rewrite lookup_insert_ne by congruence.
    destruct (s !! k'); [apply sameJob_refl | exact I].
Qed.

Lemma statusData_of_effect jobId job w :
  jobStore w !! jobId = Some job ->
  exists c w',
    Api.statusData_of jobId job w = (c, w')
    /\ localStorage w' = localStorage w
    /\ now w' = now w
    /\ storeKept (jobStore w) (jobStore w')
    /\ (trace w' = trace w
        \/ (sj_provider job = lit "piapi"
            /\ trace w'
               = trace w
                 ++ [EvFetch (Api.piapiStatusRequest
                                (Api.getApiKey w (lit "piapi")) job)]))
    /\ (forall e, c = Throw e -> jobStore w' = jobStore w).
Proof.
  intros Hjob.
  assert (Hins : forall j', sameJob job j' ->
            storeKept (jobStore w) (<[jobId := j']> (jobStore w)))
    by (intros j'; apply storeKept_insert; exact Hjob).
  pose proof (storeKept_refl (jobStore w)) as Hrefl.
  unfold Api.statusData_of.
  unfold bind at 1, Api.readApiKey.
  destruct (bool_decide (sj_provider job = lit "fal")) eqn:Hfal.
  { unfold bind, Date_now, Api.jobStore_set, ret.
    destruct (30000 <=? now w - sj_createdAt job);
      eexists; eexists; (split; [reflexivity|]); simpl;
      repeat split; auto; try discriminate.
    apply Hins. repeat split. }
  destruct (bool_decide (sj_provider job = lit "piapi")) eqn:Hpi.
  2: { eexists; eexists; (split; [reflexivity|]); simpl;
       repeat split; auto; discriminate. }
  apply bool_decide_eq_true_1 in Hpi. rewrite Hpi.
  unfold bind, fetch, json, Api.jobStore_set, ret, throw, resp_ok.
  destruct (network w) as [|[e|st [e|d]] net]; simpl;
    try destruct ((200 <=? st) && (st <=? 299)); simpl;
    try destruct (bool_decide (data_status d = Some (lit "completed"))
                  && truthy (video_url d)); simpl;
    try destruct (bool_decide (data_status d = Some (lit "failed"))); simpl;
    eexists; eexists; (split; [reflexivity|]); simpl;
    (split; [reflexivity|]); (split; [reflexivity|]);
    (split; [first [exact Hrefl | apply Hins; repeat split]|]);
    (split; [right; split; reflexivity|]);
    intros e'; first [discriminate | reflexivity].
Qed.

(** X17. A status check of the server never adds or drops a job.  For
    every query [getVideoJobStatus] of api/video.ts answers 200, 400, 404
    or 500; afterwards the store holds the same ids, each job with the
    same fields but for status and error, and is exactly the old store
    when the answer is not 200; the browser store and the clock are
    untouched; and at most one request leaves, only for a stored piapi
    job: a GET to the piapi status endpoint. *)
Theorem api_status_keeps_store (q : Api.QueryParam) (w : World) :
  exists r w',
    Api.getVideoJobStatus q w = (Normal r, w')
    /\ In (Api.code r) [200; 400; 404; 500]
    /\ storeKept (jobStore w) (jobStore w')
    /\ (Api.code r <> 200 -> jobStore w' = jobStore w)
    /\ localStorage w' = localStorage w
    /\ now w' = now w
    /\ (trace w' = trace w
        \/ exists jobId job,
             q = Api.QString jobId
             /\ jobStore w !! jobId = Some job
             /\ sj_provider job = lit "piapi"
             /\ trace w'
                = trace w
                  ++ [EvFetch (Api.piapiStatusRequest
                                 (Api.getApiKey w (lit "piapi")) job)]).
Proof.
  pose proof (storeKept_refl (jobStore w)) as Hrefl.
  destruct q as [|[|c s]|l];
    try (eexists; eexists; (split; [reflexivity|]); simpl;
         repeat split; auto).
  cbv beta iota zeta delta [Api.getVideoJobStatus bind Api.jobStore_get].
  destruct (jobStore w !! (c :: s)) as [job|] eqn:Hjob.
  2: { eexists; eexists; (split; [reflexivity|]); simpl;
       repeat split; auto 6. }
  destruct (statusData_of_effect (c :: s) job w Hjob)
    as (cpl & w1 & Hs & Hls & Hnow & Hkept & Htr & Hthrow).
  unfold tryCatch, bind. rewrite Hs.
  assert (Htrace :
    trace w1 = trace w
    \/ exists jobId job0,
         Api.QString (c :: s) = Api.QString jobId
         /\ jobStore w !! jobId = Some job0
         /\ sj_provider job0 = lit "piapi"
         /\ trace w1
            = trace w
              ++ [EvFetch (Api.piapiStatusRequest
                             (Api.getApiKey w (lit "piapi")) job0)]).
  { destruct Htr as [Htr | [Hp Htr]]; [left; exact Htr|].
    right. exists (c :: s), job. auto. }
  destruct cpl as [d|e]; cbn [ret];
    eexists; eexists; (split; [reflexivity|]); simpl.
  - repeat split; auto. intros H. contradiction.
  - repeat split; auto 6. intros _. exact (Hthrow e eq_refl).
Qed.

Lemma api_status_keeps_store_witness :
  exists r w',
    Api.getVideoJobStatus (Api.QString falId) piapiFailedWorld
    = (Normal r, w')
    /\ storeKept (jobStore piapiFailedWorld) (jobStore w')
    /\ length (trace w') = 1%nat.
Proof.
  destruct (api_status_keeps_store (Api.QString falId) piapiFailedWorld)
    as (r & w' & Hr & _ & Hk & _ & _ & _ & Htr).
  exists r, w'. split; [exact Hr|]. split; [exact Hk|].
  assert (E : length (trace (snd (Api.getVideoJobStatus (Api.QString falId)
                                    piapiFailedWorld))) = 1%nat)
    by (vm_compute; reflexivity).
  rewrite Hr in E. exact E.
Defined.

(** ** The error boundary *)

Lemma falRealStatus_catches apiKey job :
  Service.falRealStatus apiKey job
  = tryCatch (falStatusCall apiKey job) (fun _ => ret None).
Proof. reflexivity. Qed.

Lemma not_failed_processing : lit "processing" <> lit "failed".
Proof. discriminate. Qed.

Lemma not_failed_completed : lit "completed" <> lit "failed".
Proof. discriminate. Qed.

Lemma not_failed_queued : lit "queued" <> lit "failed".
Proof. discriminate. Qed.

Lemma failed_default_message a c s :
  truthy (Some (orElse a (c :: s))) = true.
Proof. destruct a as [[|x l]|]; reflexivity. Qed.

Lemma falSnapshot_failed d :
  Service.status (Service.falSnapshot d) = lit "failed" ->
  truthy (Service.error (Service.falSnapshot d)) = true.
Proof.
  unfold Service.falSnapshot.
  destruct (bool_decide (data_status d = Some (lit "completed"))
            && truthy (video_url d)).
  { intros H. exfalso. exact (not_failed_completed H). }
  destruct (bool_decide (data_status d = Some (lit "failed"))) eqn:Hf.
  { intros _. apply failed_default_message. }
  apply bool_decide_eq_false_1 in Hf.
  destruct (data_status d) as [[|c l]|]; cbn [orElse Service.onlyStatus
    Service.status]; intros H.
  - exfalso. exact (not_failed_processing H).
  - exfalso. apply Hf. now rewrite H.
  - exfalso. exact (not_failed_processing H).
Qed.

Lemma falRealStatus_some apiKey job w res w1 :
  Service.falRealStatus apiKey job w = (Normal (Some res), w1) ->
  exists d, res = Service.falSnapshot d.
Proof.
  unfold Service.falRealStatus, tryCatch, bind, fetch, json, ret, throw,
    resp_ok.
  destruct (network w) as [|[e|st [e|d]] net]; simpl;
    try destruct ((200 <=? st) && (st <=? 299)); simpl;
    try discriminate.
  intros [= <- _]. exists d. reflexivity.
Qed.

(** A poll that reports failed always says why. *)
Lemma poll_body_failed jobId w s w' :
  Service.getVideoJobStatus_body jobId w = (Normal s, w') ->
  Service.status s = lit "failed" ->
  truthy (Service.error s) = true.
Proof.
  destruct (localStorage w !! Service.storageKey jobId) as [[e|job]|] eqn:Hl.
  - unfold Service.getVideoJobStatus_body, bind, localStorage_getItem.
    rewrite Hl. discriminate.
  - rewrite (poll_body_parsed jobId job w Hl).
    destruct (routingMode job).
    + destruct (Z.lt_ge_cases (now w - j_createdAt job) 5000) as [He|Hlate].
      * rewrite (imageSequenceStatus_early job w He).
        intros [= <- _] H. exfalso. exact (not_failed_processing H).
      * destruct (encodeURIComponent (j_prompt job)) as [enc|] eqn:Henc.
        -- destruct (imageSequenceStatus_late job w enc Hlate Henc)
             as (w1 & Hi & _).
           rewrite Hi. intros [= <- _] H. exfalso.
           destruct (reachable (network w) 40);
             exact (not_failed_completed H).
        -- rewrite (imageSequenceStatus_malformed job w Hlate Henc).
           discriminate.
    + destruct (bool_decide (j_provider job = lit "fal")).
      2: { intros [= <- _] _. reflexivity. }
      assert (Hsim : forall w0 s0 w1,
                Service.falSimulatedStatus jobId job w0 = (Normal s0, w1) ->
                Service.status s0 <> lit "failed").
      { intros w0 s0 w1. unfold Service.falSimulatedStatus, bind, Date_now, ret.
        destruct (now w0 - j_createdAt job <? 30000); intros [= <- _] H;
          [exact (not_failed_processing H) | exact (not_failed_completed H)]. }
      unfold bind at 1.
      destruct (Service.usableKey (Service.getApiKey w (j_provider job))).
      * destruct (Service.falRealStatus
                    (Service.getApiKey w (j_provider job)) job w)
          as [[[res|]|e] w1] eqn:Hreal.
        -- destruct (falRealStatus_some _ _ _ _ _ Hreal) as [d ->].
           intros [= <- _]. apply falSnapshot_failed.
        -- intros Hs H. exfalso. exact (Hsim _ _ _ Hs H).
        -- discriminate.
      * unfold ret at 1. intros Hs H. exfalso. exact (Hsim _ _ _ Hs H).
  - unfold Service.getVideoJobStatus_body, bind, localStorage_getItem.
    rewrite Hl. intros [= <- _] _. reflexivity.
Qed.

(** A creation that returns from its [try] block returns a queued job. *)
Lemma createVideoJob_body_normal config tier w r w' :
  Service.createVideoJob_body config tier w = (Normal r, w') ->
  Service.cr_status r = lit "queued" /\ Service.cr_error r = None.
Proof.
  assert (Himg : forall w0 r0 w1,
            Service.createImageSequenceJob config w0 = (Normal r0, w1) ->
            Service.cr_status r0 = lit "queued" /\ Service.cr_error r0 = None).
  { intros w0 r0 w1.
    unfold Service.createImageSequenceJob, bind, Date_now, randomSuffix,
      localStorage_setItem, ret.
    destruct (entropy w0); intros [= <- _]; split; reflexivity. }
  unfold Service.createVideoJob_body.
  assert (Hb : forall (k : jsstring -> M Service.CreateResult),
             bind (Service.readApiKey (lit "fal")) k w
             = k (Service.getApiKey w (lit "fal")) w) by reflexivity.
  destruct tier; [apply Himg| |];
    rewrite Hb;
    (destruct (Service.usableKey (Service.getApiKey w (lit "fal")));
     cbn [negb]; [|apply Himg]);
    unfold bind, Date_now, randomSuffix, fetch, json, localStorage_setItem,
      ret, throw, resp_ok;
    destruct (entropy w) as [|sfx rest]; simpl;
    destruct (network w) as [|[e|st [e|d]] net]; simpl;
    try destruct ((200 <=? st) && (st <=? 299)); simpl;
    first [discriminate | intros [= <- _]; split; reflexivity].
Qed.

(** C10, the claim at two polls.  The sunset job past its processing time,
    with a network that rejects the first probe and answers the second: the
    rejection is raised inside the poll, and the poll returns completed.
    The fal job with a real key, 30 s after creation, whose status call is
    answered 500: the error is raised inside the poll, and the poll returns
    completed with no error. *)
Lemma errors_surfaced_counterexample :
  ~ errors_surfaced sunsetId
      (sunsetWorld 5000 [Rejected networkError; ok200])
  /\ ~ errors_surfaced falId (falWorld 30000 [Responded 500 (Obj noData)]).
Proof.
  split; intros H.
  - destruct (H networkError) as (s & w' & Hp & Hs & _).
    + exists sunsetJob. split; [reflexivity|]. right.
      split; [reflexivity|]. split; [vm_compute; discriminate|].
      exists (lit "sunset").
      exists (snd (fetch (Service.headRequest
                            (Service.pollinationsVideoUrl (lit "sunset")
                               sunsetJob))
                     (sunsetWorld 5000 [Rejected networkError; ok200]))).
      split; vm_compute; reflexivity.
    + vm_compute in Hp. injection Hp as <- _. discriminate Hs.
  - destruct (H (Error (lit "FAL API error: 500"))) as (s & w' & Hp & Hs & _).
    + exists falJob. split; [reflexivity|]. left.
      split; [vm_compute; reflexivity|].
      exists (snd (falStatusCall (lit "live-key") falJob
                     (falWorld 30000 [Responded 500 (Obj noData)]))).
      vm_compute. reflexivity.
    + vm_compute in Hp. injection Hp as <- _. discriminate Hs.
Qed.

(** C10. The three lifecycle operations of the service always return a
    value: whatever the request, the store, the clock and the network,
    [createVideoJob], [getVideoJobStatus] and [completeVideoGeneration]
    complete normally.  An error that reaches the [catch] of the operation
    comes back as a failure value with the error's message, else the
    default text: creation returns either a queued job without an error
    or failed with the empty id and a message, the latter whenever the
    provider does not accept the submission; a poll that reports failed
    always carries a message, an unreadable record and a prompt that cannot
    be encoded are reported so; finalize returns success or a failure with
    a message.  The error of an availability probe is not surfaced: the
    loop retries, and the poll of a synthetic job past its processing
    time, with an encodable prompt, is completed whatever the network
    does. *)
Theorem lifecycle_operations_total :
  (forall config tier w,
     exists r w',
       Service.createVideoJob config tier w = (Normal r, w')
       /\ (forall e w2,
             Service.createVideoJob_body config tier w = (Throw e, w2) ->
             Service.cr_status r = lit "failed"
             /\ Service.cr_error r
                = Some (orElse (Some (message e))
                               (lit "Failed to create video job")))
       /\ ((Service.cr_status r = lit "queued" /\ Service.cr_error r = None)
           \/ (Service.cr_status r = lit "failed"
               /\ Service.cr_jobId r = []
               /\ truthy (Service.cr_error r) = true))
       /\ (tier <> free -> credentialConfigured w = true ->
           accepted (network w) = None ->
           Service.cr_status r = lit "failed"
           /\ truthy (Service.cr_error r) = true))
  /\
  (forall jobId w,
     exists r w',
       Service.getVideoJobStatus jobId w = (Normal r, w')
       /\ (forall e w2,
             Service.getVideoJobStatus_body jobId w = (Throw e, w2) ->
             Service.status r = lit "failed"
             /\ Service.error r
                = Some (orElse (Some (message e))
                               (lit "Failed to check job status")))
       /\ (Service.status r = lit "failed" ->
           truthy (Service.error r) = true)
       /\ (forall e,
             localStorage w !! Service.storageKey jobId = Some (Malformed e) ->
             r = Service.failedWith
                   (orElse (Some (message e))
                           (lit "Failed to check job status")))
       /\ (forall job,
             localStorage w !! Service.storageKey jobId = Some (Parsed job) ->
             routingMode job = Synthetic ->
             5000 <= now w - j_createdAt job ->
             match encodeURIComponent (j_prompt job) with
             | None => r = Service.failedWith (lit "URI malformed")
             | Some _ =>
                 Service.status r = lit "completed"
                 /\ truthy (Service.videoUrl r) = true
             end))
  /\
  (forall jobId tier w,
     exists r w',
       Service.completeVideoGeneration jobId tier w = (Normal r, w')
       /\ (Service.success r = true
           \/ (Service.success r = false
               /\ exists msg, Service.gr_error r = Some msg))
       /\ forall e w2,
            Service.getVideoJobStatus_body jobId w = (Throw e, w2) ->
            r = Service.failure (lit "Job not completed. Status: failed")).
Proof.
  split; [|split].
  - intros config tier w.
    destruct (tryCatch_ret_total (Service.createVideoJob_body config tier)
                Service.createVideoJob_failure w) as (r & w' & H & Ht & Hn).
    exists r, w'. split; [exact H|]. split.
    { intros e w2 He. destruct (Ht e w2 He) as [-> _]. split; reflexivity. }
    assert (Hcases :
      (Service.cr_status r = lit "queued" /\ Service.cr_error r = None)
      \/ (Service.cr_status r = lit "failed"
          /\ Service.cr_jobId r = []
          /\ truthy (Service.cr_error r) = true)).
    { destruct (Service.createVideoJob_body config tier w) as [[b|e] w2] eqn:Hb.
      - destruct (Hn b w2 eq_refl) as [-> _]. left.
        exact (createVideoJob_body_normal config tier w b w2 Hb).
      - destruct (Ht e w2 eq_refl) as [-> _]. right.
        split; [reflexivity|]. split; [reflexivity|].
        apply failed_default_message. }
    split; [exact Hcases|].
    intros Hfree Hcc Hacc. rewrite credential_usable in Hcc.
    destruct (createVideoJob_provider config tier w Hfree Hcc)
      as (r1 & w1 & Hc1 & _ & Hcase).
    change (Service.createVideoJob config tier w = (Normal r, w')) in H.
    rewrite Hc1 in H. injection H as <- <-.
    rewrite Hacc in Hcase. destruct Hcase as (_ & Hf & _).
    split; [exact Hf|].
    destruct Hcases as [[Hq _] | (_ & _ & He)]; [|exact He].
    rewrite Hf in Hq. symmetry in Hq. exfalso. exact (not_failed_queued Hq).
  - intros jobId w.
    destruct (tryCatch_ret_total (Service.getVideoJobStatus_body jobId)
                (fun e => Service.failedWith
                   (orElse (Some (message e))
                           (lit "Failed to check job status"))) w)
      as (r & w' & H & Ht & Hn).
    change (Service.getVideoJobStatus jobId w = (Normal r, w')) in H.
    exists r, w'. split; [exact H|]. split.
    { intros e w2 He. destruct (Ht e w2 He) as [-> _]. split; reflexivity. }
    split.
    { destruct (Service.getVideoJobStatus_body jobId w) as [[b|e] w2] eqn:Hb.
      - destruct (Hn b w2 eq_refl) as [-> _].
        exact (poll_body_failed jobId w b w2 Hb).
      - destruct (Ht e w2 eq_refl) as [-> _]. intros _.
        apply failed_default_message. }
    split.
    { intros e Hl. apply (Ht e w).
      unfold Service.getVideoJobStatus_body, bind, localStorage_getItem.
      rewrite Hl. reflexivity. }
    intros job Hl Hr Hlate.
    rewrite (poll_synthetic jobId job w Hl Hr) in H. unfold tryCatch in H.
    destruct (encodeURIComponent (j_prompt job)) as [enc|] eqn:Henc.
    + destruct (imageSequenceStatus_late job w enc Hlate Henc)
        as (w1 & Hi & _).
      rewrite Hi in H. injection H as <- _.
      destruct (reachable (network w) 40); split; reflexivity.
    + rewrite (imageSequenceStatus_malformed job w Hlate Henc) in H.
      injection H as <- _. reflexivity.
  - intros jobId tier w.
    destruct (tryCatch_ret_total (Service.getVideoJobStatus_body jobId)
                (fun e => Service.failedWith
                   (orElse (Some (message e))
                           (lit "Failed to check job status"))) w)
      as (s & w1 & Hpoll & Ht & _).
    rewrite (finalize_of_poll jobId tier w s w1 Hpoll).
    destruct (bool_decide (Service.status s = lit "completed")) eqn:Hc.
    + eexists. eexists. split; [reflexivity|]. split; [left; reflexivity|].
      intros e w2 He. destruct (Ht e w2 He) as [-> _].
      discriminate Hc.
    + eexists. eexists. split; [reflexivity|].
      split; [right; split; [reflexivity|eexists; reflexivity]|].
      intros e w2 He. destruct (Ht e w2 He) as [-> _]. reflexivity.
Qed.

Lemma lifecycle_operations_total_witness :
  (exists r w',
     Service.createVideoJob (sunsetConfig 10) pro (liveWorld 0 [])
     = (Normal r, w')
     /\ Service.cr_status r = lit "failed"
     /\ Service.cr_error r = Some (lit "Failed to fetch"))
  /\ (exists r w',
        Service.getVideoJobStatus sunsetId malformedWorld = (Normal r, w')
        /\ Service.status r = lit "failed"
        /\ Service.error r = Some (lit "Unexpected token"))
  /\ (exists r w',
        Service.getVideoJobStatus sunsetId
          (sunsetWorld 5000 [Rejected networkError; ok200])
        = (Normal r, w')
        /\ Service.status r = lit "completed"
        /\ truthy (Service.videoUrl r) = true)
  /\ exists w',
       Service.completeVideoGeneration sunsetId free malformedWorld
       = (Normal (Service.failure (lit "Job not completed. Status: failed")),
          w').
Proof.
  destruct lifecycle_operations_total as (Hc & Hp & Hf).
  split; [|split; [|split]].
  - destruct (Hc (sunsetConfig 10) pro (liveWorld 0 []))
      as (r & w' & H & Ht & _).
    exists r, w'. split; [exact H|].
    apply (Ht networkError
             (snd (Service.createVideoJob_body (sunsetConfig 10) pro
                     (liveWorld 0 [])))).
    vm_compute. reflexivity.
  - destruct (Hp sunsetId malformedWorld) as (r & w' & H & _ & _ & Hm & _).
    exists r, w'. split; [exact H|].
    rewrite (Hm (Error (lit "Unexpected token")) eq_refl).
    split; reflexivity.
  - destruct (Hp sunsetId (sunsetWorld 5000 [Rejected networkError; ok200]))
      as (r & w' & H & _ & _ & _ & Hs).
    exists r, w'. split; [exact H|].
    apply (Hs sunsetJob); [reflexivity | reflexivity | vm_compute; discriminate].
  - destruct (Hf sunsetId free malformedWorld) as (r & w' & H & _ & Ht).
    exists w'. rewrite H.
    rewrite (Ht (Error (lit "Unexpected token")) malformedWorld);
      [reflexivity|].
    vm_compute. reflexivity.
Defined.
